(** * Trident TGUI 9440/96xx accelerator: command engine

    A shallow embedding of the graphics accelerator of
    [src/video/vid_tgui9440.c]: the raster-operation unit ([ROPMIX]),
    the framebuffer accessors ([READ], [WRITE]), the command state
    machine ([tgui_accel_command]) and the register dispatcher
    ([tgui_accel_out], [tgui_accel_write], [tgui_accel_write_fb_b] and
    their wider variants), followed by the properties of the engine.

    C integers are integers of [Z] with the wrap-around of their type
    written out: [u8], [u16], [u32] for the unsigned types, [s16] for
    [int16_t] and [s32] for [int]. *)

From Stdlib Require Import ZArith Lia Bool List.
From stdpp Require Import base list.
Import ListNotations.

#[local] Open Scope Z_scope.

(** ** Machine integers *)

Definition u8 (z : Z) : Z := Z.land z 0xff.
Definition u16 (z : Z) : Z := Z.land z 0xffff.
Definition u32 (z : Z) : Z := Z.land z 0xffffffff.

(** Conversion to a signed type keeps the low bits (two's complement). *)
Definition s16 (z : Z) : Z := (z + 0x8000) mod 0x10000 - 0x8000.
Definition s32 (z : Z) : Z := (z + 0x80000000) mod 0x100000000 - 0x80000000.

(** [~] on a [uint32_t] operand. *)
Definition bnot (z : Z) : Z := u32 (Z.lnot z).

(** C truth value of an integer expression. *)
Definition nz (z : Z) : bool := negb (z =? 0).

(** ** Address remapping *)

(** Remap address for chain-4/doubleword style layout. *)
Definition dword_remap (in_addr : Z) : Z :=
  Z.lor (Z.lor (Z.land (u32 (Z.shiftl in_addr 2)) 0x3fff0)
               (Z.land (Z.shiftr in_addr 14) 0xc))
        (Z.land in_addr (u32 (Z.lnot 0x3fffc))).

(** ** Chip variants, commands and flags *)

Definition TGUI_9400CXI : Z := 0.
Definition TGUI_9440 : Z := 1.
Definition TGUI_9660 : Z := 2.
Definition TGUI_9680 : Z := 3.

Definition TGUI_BITBLT : Z := 1.
Definition TGUI_SCANLINE : Z := 3.
Definition TGUI_BRESENHAMLINE : Z := 4.
Definition TGUI_SHORTVECTOR : Z := 5.
Definition TGUI_FASTLINE : Z := 6.

Definition TGUI_SRCCPU : Z := 0.
Definition TGUI_SRCPAT : Z := 0x02.
Definition TGUI_SRCDISP : Z := 0x04.
Definition TGUI_PATMONO : Z := 0x20.
Definition TGUI_SRCMONO : Z := 0x40.
Definition TGUI_TRANSENA : Z := 0x1000.
Definition TGUI_TRANSREV : Z := 0x2000.
Definition TGUI_SOLIDFILL : Z := 0x4000.
Definition TGUI_STENCIL : Z := 0x8000.

(** ** The raster-operation unit *)

(** [ROPMIX R D P S out]: the value left in [out] by the macro; the 256
    cases are those of the source, in its order. *)
Definition ROPMIX (R D P S out : Z) : Z :=
  match R with
  | 0x00 => 0
  | 0x01 => bnot (Z.lor D (Z.lor P S))
  | 0x02 => Z.land D (bnot (Z.lor P S))
  | 0x03 => bnot (Z.lor P S)
  | 0x04 => Z.land S (bnot (Z.lor D P))
  | 0x05 => bnot (Z.lor D P)
  | 0x06 => bnot (Z.lor P (bnot (Z.lxor D S)))
  | 0x07 => bnot (Z.lor P (Z.land D S))
  | 0x08 => Z.land S (Z.land D (bnot P))
  | 0x09 => bnot (Z.lor P (Z.lxor D S))
  | 0x0a => Z.land D (bnot P)
  | 0x0b => bnot (Z.lor P (Z.land S (bnot D)))
  | 0x0c => Z.land S (bnot P)
  | 0x0d => bnot (Z.lor P (Z.land D (bnot S)))
  | 0x0e => bnot (Z.lor P (bnot (Z.lor D S)))
  | 0x0f => bnot P
  | 0x10 => Z.land P (bnot (Z.lor D S))
  | 0x11 => bnot (Z.lor D S)
  | 0x12 => bnot (Z.lor S (bnot (Z.lxor D P)))
  | 0x13 => bnot (Z.lor S (Z.land D P))
  | 0x14 => bnot (Z.lor D (bnot (Z.lxor P S)))
  | 0x15 => bnot (Z.lor D (Z.land P S))
  | 0x16 => Z.lxor P (Z.lxor S (Z.land D (bnot (Z.land P S))))
  | 0x17 => bnot (Z.lxor S (Z.land (Z.lxor S P) (Z.lxor D S)))
  | 0x18 => Z.land (Z.lxor S P) (Z.lxor P D)
  | 0x19 => bnot (Z.lxor S (Z.land D (bnot (Z.land P S))))
  | 0x1a => Z.lxor P (Z.lor D (Z.land S P))
  | 0x1b => bnot (Z.lxor S (Z.land D (Z.lxor P S)))
  | 0x1c => Z.lxor P (Z.lor S (Z.land D P))
  | 0x1d => bnot (Z.lxor D (Z.land S (Z.lxor P D)))
  | 0x1e => Z.lxor P (Z.lor D S)
  | 0x1f => bnot (Z.land P (Z.lor D S))
  | 0x20 => Z.land D (Z.land P (bnot S))
  | 0x21 => bnot (Z.lor S (Z.lxor D P))
  | 0x22 => Z.land D (bnot S)
  | 0x23 => bnot (Z.lor S (Z.land P (bnot D)))
  | 0x24 => Z.land (Z.lxor S P) (Z.lxor D S)
  | 0x25 => bnot (Z.lxor P (Z.land D (bnot (Z.land S P))))
  | 0x26 => Z.lxor S (Z.lor D (Z.land P S))
  | 0x27 => Z.lxor S (Z.lor D (bnot (Z.lxor P S)))
  | 0x28 => Z.land D (Z.lxor P S)
  | 0x29 => bnot (Z.lxor P (Z.lxor S (Z.lor D (Z.land P S))))
  | 0x2a => Z.land D (bnot (Z.land P S))
  | 0x2b => bnot (Z.lxor S (Z.land (Z.lxor S P) (Z.lxor P D)))
  | 0x2c => Z.lxor S (Z.land P (Z.lor D S))
  | 0x2d => Z.lxor P (Z.lor S (bnot D))
  | 0x2e => Z.lxor P (Z.lor S (Z.lxor D P))
  | 0x2f => bnot (Z.land P (Z.lor S (bnot D)))
  | 0x30 => Z.land P (bnot S)
  | 0x31 => bnot (Z.lor S (Z.land D (bnot P)))
  | 0x32 => Z.lxor S (Z.lor D (Z.lor P S))
  | 0x33 => bnot S
  | 0x34 => Z.lxor S (Z.lor P (Z.land D S))
  | 0x35 => Z.lxor S (Z.lor P (bnot (Z.lxor D S)))
  | 0x36 => Z.lxor S (Z.lor D P)
  | 0x37 => bnot (Z.land S (Z.lor D P))
  | 0x38 => Z.lxor P (Z.land S (Z.lor D P))
  | 0x39 => Z.lxor S (Z.lor P (bnot D))
  | 0x3a => Z.lxor S (Z.lor P (Z.lxor D S))
  | 0x3b => bnot (Z.land S (Z.lor P (bnot D)))
  | 0x3c => Z.lxor P S
  | 0x3d => Z.lxor S (Z.lor P (bnot (Z.lor D S)))
  | 0x3e => Z.lxor S (Z.lor P (Z.land D (bnot S)))
  | 0x3f => bnot (Z.land P S)
  | 0x40 => Z.land P (Z.land S (bnot D))
  | 0x41 => bnot (Z.lor D (Z.lxor P S))
  | 0x42 => Z.land (Z.lxor S D) (Z.lxor P D)
  | 0x43 => bnot (Z.lxor S (Z.land P (bnot (Z.land D S))))
  | 0x44 => Z.land S (bnot D)
  | 0x45 => bnot (Z.lor D (Z.land P (bnot S)))
  | 0x46 => Z.lxor D (Z.lor S (Z.land P D))
  | 0x47 => bnot (Z.lxor P (Z.land S (Z.lxor D P)))
  | 0x48 => Z.land S (Z.lxor D P)
  | 0x49 => bnot (Z.lxor P (Z.lxor D (Z.lor S (Z.land P D))))
  | 0x4a => Z.lxor D (Z.land P (Z.lor S D))
  | 0x4b => Z.lxor P (Z.lor D (bnot S))
  | 0x4c => Z.land S (bnot (Z.land D P))
  | 0x4d => bnot (Z.lxor S (Z.lor (Z.lxor S P) (Z.lxor D S)))
  | 0x4e => Z.lxor P (Z.lor D (Z.lxor S P))
  | 0x4f => bnot (Z.land P (Z.lor D (bnot S)))
  | 0x50 => Z.land P (bnot D)
  | 0x51 => bnot (Z.lor D (Z.land S (bnot P)))
  | 0x52 => Z.lxor D (Z.lor P (Z.land S D))
  | 0x53 => bnot (Z.lxor S (Z.land P (Z.lxor D S)))
  | 0x54 => bnot (Z.lor D (bnot (Z.lor P S)))
  | 0x55 => bnot D
  | 0x56 => Z.lxor D (Z.lor P S)
  | 0x57 => bnot (Z.land D (Z.lor P S))
  | 0x58 => Z.lxor P (Z.land D (Z.lor S P))
  | 0x59 => Z.lxor D (Z.lor P (bnot S))
  | 0x5a => Z.lxor D P
  | 0x5b => Z.lxor D (Z.lor P (bnot (Z.lor S D)))
  | 0x5c => Z.lxor D (Z.lor P (Z.lxor S D))
  | 0x5d => bnot (Z.land D (Z.lor P (bnot S)))
  | 0x5e => Z.lxor D (Z.lor P (Z.land S (bnot D)))
  | 0x5f => bnot (Z.land D P)
  | 0x60 => Z.land P (Z.lxor D S)
  | 0x61 => bnot (Z.lxor D (Z.lxor S (Z.lor P (Z.land D S))))
  | 0x62 => Z.lxor D (Z.land S (Z.lor P D))
  | 0x63 => Z.lxor S (Z.lor D (bnot P))
  | 0x64 => Z.lxor S (Z.land D (Z.lor P S))
  | 0x65 => Z.lxor D (Z.lor S (bnot P))
  | 0x66 => Z.lxor D S
  | 0x67 => Z.lxor S (Z.lor D (bnot (Z.lor P S)))
  | 0x68 => bnot (Z.lxor D (Z.lxor S (Z.lor P (bnot (Z.lor D S)))))
  | 0x69 => bnot (Z.lxor P (Z.lxor D S))
  | 0x6a => Z.lxor D (Z.land P S)
  | 0x6b => bnot (Z.lxor P (Z.lxor S (Z.land D (Z.lor P S))))
  | 0x6c => Z.lxor S (Z.land D P)
  | 0x6d => bnot (Z.lxor P (Z.lxor D (Z.land S (Z.lor P D))))
  | 0x6e => Z.lxor S (Z.land D (Z.lor P (bnot S)))
  | 0x6f => bnot (Z.land P (bnot (Z.lxor D S)))
  | 0x70 => Z.land P (bnot (Z.land D S))
  | 0x71 => bnot (Z.lxor S (Z.land (Z.lxor S D) (Z.lxor P D)))
  | 0x72 => Z.lxor S (Z.lor D (Z.lxor P S))
  | 0x73 => bnot (Z.land S (Z.lor D (bnot P)))
  | 0x74 => Z.lxor D (Z.lor S (Z.lxor P D))
  | 0x75 => bnot (Z.land D (Z.lor S (bnot P)))
  | 0x76 => Z.lxor S (Z.lor D (Z.land P (bnot S)))
  | 0x77 => bnot (Z.land D S)
  | 0x78 => Z.lxor P (Z.land D S)
  | 0x79 => bnot (Z.lxor D (Z.lxor S (Z.land P (Z.lor D S))))
  | 0x7a => Z.lxor D (Z.land P (Z.lor S (bnot D)))
  | 0x7b => bnot (Z.land S (bnot (Z.lxor D P)))
  | 0x7c => Z.lxor S (Z.land P (Z.lor D (bnot S)))
  | 0x7d => bnot (Z.land D (bnot (Z.lxor P S)))
  | 0x7e => Z.lor (Z.lxor S P) (Z.lxor D S)
  | 0x7f => bnot (Z.land D (Z.land P S))
  | 0x80 => Z.land D (Z.land P S)
  | 0x81 => bnot (Z.lor (Z.lxor S P) (Z.lxor D S))
  | 0x82 => Z.land D (bnot (Z.lxor P S))
  | 0x83 => bnot (Z.lxor S (Z.land P (Z.lor D (bnot S))))
  | 0x84 => Z.land S (bnot (Z.lxor D P))
  | 0x85 => bnot (Z.lxor P (Z.land D (Z.lor S (bnot P))))
  | 0x86 => Z.lxor D (Z.lxor S (Z.land P (Z.lor D S)))
  | 0x87 => bnot (Z.lxor P (Z.land D S))
  | 0x88 => Z.land D S
  | 0x89 => bnot (Z.lxor S (Z.lor D (Z.land P (bnot S))))
  | 0x8a => Z.land D (Z.lor S (bnot P))
  | 0x8b => bnot (Z.lxor D (Z.lor S (Z.lxor P D)))
  | 0x8c => Z.land S (Z.lor D (bnot P))
  | 0x8d => bnot (Z.lxor S (Z.lor D (Z.lxor P S)))
  | 0x8e => Z.lxor S (Z.land (Z.lxor S D) (Z.lxor P D))
  | 0x8f => bnot (Z.land P (bnot (Z.land D S)))
  | 0x90 => Z.land P (bnot (Z.lxor D S))
  | 0x91 => bnot (Z.lxor S (Z.land D (Z.lor P (bnot S))))
  | 0x92 => Z.lxor D (Z.lxor P (Z.land S (Z.lor D P)))
  | 0x93 => bnot (Z.lxor S (Z.land P D))
  | 0x94 => Z.lxor P (Z.lxor S (Z.land D (Z.lor P S)))
  | 0x95 => bnot (Z.lxor D (Z.land P S))
  | 0x96 => Z.lxor D (Z.lxor P S)
  | 0x97 => Z.lxor P (Z.lxor S (Z.lor D (bnot (Z.lor P S))))
  | 0x98 => bnot (Z.lxor S (Z.lor D (bnot (Z.lor P S))))
  | 0x99 => bnot (Z.lxor D S)
  | 0x9a => Z.lxor D (Z.land P (bnot S))
  | 0x9b => bnot (Z.lxor S (Z.land D (Z.lor P S)))
  | 0x9c => Z.lxor S (Z.land P (bnot D))
  | 0x9d => bnot (Z.lxor D (Z.land S (Z.lor P D)))
  | 0x9e => Z.lxor D (Z.lxor S (Z.lor P (Z.land D S)))
  | 0x9f => bnot (Z.land P (Z.lxor D S))
  | 0xa0 => Z.land D P
  | 0xa1 => bnot (Z.lxor P (Z.lor D (Z.land S (bnot P))))
  | 0xa2 => Z.land D (Z.lor P (bnot S))
  | 0xa3 => bnot (Z.lxor D (Z.lor P (Z.lxor S D)))
  | 0xa4 => bnot (Z.lxor P (Z.lor D (bnot (Z.lor S P))))
  | 0xa5 => bnot (Z.lxor P D)
  | 0xa6 => Z.lxor D (Z.land S (bnot P))
  | 0xa7 => bnot (Z.lxor P (Z.land D (Z.lor S P)))
  | 0xa8 => Z.land D (Z.lor P S)
  | 0xa9 => bnot (Z.lxor D (Z.lor P S))
  | 0xaa => D
  | 0xab => Z.lor D (bnot (Z.lor P S))
  | 0xac => Z.lxor S (Z.land P (Z.lxor D S))
  | 0xad => bnot (Z.lxor D (Z.lor P (Z.land S D)))
  | 0xae => Z.lor D (Z.land S (bnot P))
  | 0xaf => Z.lor D (bnot P)
  | 0xb0 => Z.land P (Z.lor D (bnot S))
  | 0xb1 => bnot (Z.lxor P (Z.lor D (Z.lxor S P)))
  | 0xb2 => Z.lxor S (Z.lor (Z.lxor S P) (Z.lxor D S))
  | 0xb3 => bnot (Z.land S (bnot (Z.land D P)))
  | 0xb4 => Z.lxor P (Z.land S (bnot D))
  | 0xb5 => bnot (Z.lxor D (Z.land P (Z.lor S D)))
  | 0xb6 => Z.lxor D (Z.lxor P (Z.lor S (Z.land D P)))
  | 0xb7 => bnot (Z.land S (Z.lxor D P))
  | 0xb8 => Z.lxor P (Z.land S (Z.lxor D P))
  | 0xb9 => bnot (Z.lxor D (Z.lor S (Z.land P D)))
  | 0xba => Z.lor D (Z.land P (bnot S))
  | 0xbb => Z.lor D (bnot S)
  | 0xbc => Z.lxor S (Z.land P (bnot (Z.land D S)))
  | 0xbd => bnot (Z.land (Z.lxor S D) (Z.lxor P D))
  | 0xbe => Z.lor D (Z.lxor P S)
  | 0xbf => Z.lor D (bnot (Z.land P S))
  | 0xc0 => Z.land P S
  | 0xc1 => bnot (Z.lxor S (Z.lor P (Z.land D (bnot S))))
  | 0xc2 => bnot (Z.lxor S (Z.lor P (bnot (Z.lor D S))))
  | 0xc3 => bnot (Z.lxor P S)
  | 0xc4 => Z.land S (Z.lor P (bnot D))
  | 0xc5 => bnot (Z.lxor S (Z.lor P (Z.lxor D S)))
  | 0xc6 => Z.lxor S (Z.land D (bnot P))
  | 0xc7 => bnot (Z.lxor P (Z.land S (Z.lor D P)))
  | 0xc8 => Z.land S (Z.lor D P)
  | 0xc9 => bnot (Z.lxor S (Z.lor P D))
  | 0xca => Z.lxor D (Z.land P (Z.lxor S D))
  | 0xcb => bnot (Z.lxor S (Z.lor P (Z.land D S)))
  | 0xcc => S
  | 0xcd => Z.lor S (bnot (Z.lor D P))
  | 0xce => Z.lor S (Z.land D (bnot P))
  | 0xcf => Z.lor S (bnot P)
  | 0xd0 => Z.land P (Z.lor S (bnot D))
  | 0xd1 => bnot (Z.lxor P (Z.lor S (Z.lxor D P)))
  | 0xd2 => Z.lxor P (Z.land D (bnot S))
  | 0xd3 => bnot (Z.lxor S (Z.land P (Z.lor D S)))
  | 0xd4 => Z.lxor S (Z.land (Z.lxor S P) (Z.lxor P D))
  | 0xd5 => bnot (Z.land D (bnot (Z.land P S)))
  | 0xd6 => Z.lxor P (Z.lxor S (Z.lor D (Z.land P S)))
  | 0xd7 => bnot (Z.land D (Z.lxor P S))
  | 0xd8 => Z.lxor P (Z.land D (Z.lxor S P))
  | 0xd9 => bnot (Z.lxor S (Z.lor D (Z.land P S)))
  | 0xda => Z.lxor D (Z.land P (bnot (Z.land S D)))
  | 0xdb => bnot (Z.land (Z.lxor S P) (Z.lxor D S))
  | 0xdc => Z.lor S (Z.land P (bnot D))
  | 0xdd => Z.lor S (bnot D)
  | 0xde => Z.lor S (Z.lxor D P)
  | 0xdf => Z.lor S (bnot (Z.land D P))
  | 0xe0 => Z.land P (Z.lor D S)
  | 0xe1 => bnot (Z.lxor P (Z.lor D S))
  | 0xe2 => Z.lxor D (Z.land S (Z.lxor P D))
  | 0xe3 => bnot (Z.lxor P (Z.lor S (Z.land D P)))
  | 0xe4 => Z.lxor S (Z.land D (Z.lxor P S))
  | 0xe5 => bnot (Z.lxor P (Z.lor D (Z.land S P)))
  | 0xe6 => Z.lxor S (Z.land D (bnot (Z.land P S)))
  | 0xe7 => bnot (Z.land (Z.lxor S P) (Z.lxor P D))
  | 0xe8 => Z.lxor S (Z.land (Z.lxor S P) (Z.lxor D S))
  | 0xe9 => bnot (Z.lxor D (Z.lxor S (Z.land P (bnot (Z.land D S)))))
  | 0xea => Z.lor D (Z.land P S)
  | 0xeb => Z.lor D (bnot (Z.lxor P S))
  | 0xec => Z.lor S (Z.land D P)
  | 0xed => Z.lor S (bnot (Z.lxor D P))
  | 0xee => Z.lor D S
  | 0xef => Z.lor S (Z.lor D (bnot P))
  | 0xf0 => P
  | 0xf1 => Z.lor P (bnot (Z.lor D S))
  | 0xf2 => Z.lor P (Z.land D (bnot S))
  | 0xf3 => Z.lor P (bnot S)
  | 0xf4 => Z.lor P (Z.land S (bnot D))
  | 0xf5 => Z.lor P (bnot D)
  | 0xf6 => Z.lor P (Z.lxor D S)
  | 0xf7 => Z.lor P (bnot (Z.land D S))
  | 0xf8 => Z.lor P (Z.land D S)
  | 0xf9 => Z.lor P (bnot (Z.lxor D S))
  | 0xfa => Z.lor D P
  | 0xfb => Z.lor D (Z.lor P (bnot S))
  | 0xfc => Z.lor P S
  | 0xfd => Z.lor P (Z.lor S (bnot D))
  | 0xfe => Z.lor D (Z.lor P S)
  | 0xff => bnot 0
  | _ => out
  end.

(** ** The device state *)

(** The [accel] member of [tgui_t], field for field.  Arrays are lists,
    read with [aget] and written with [aset]. *)
Module Accel.

Record t : Type := mk {
  src_x : Z; src_y : Z;
  src_x_clip : Z; src_y_clip : Z;
  dst_x : Z; dst_y : Z;
  dst_y_clip : Z; dst_x_clip : Z;
  size_x : Z; size_y : Z;
  sv_size_y : Z;
  patloc : Z;
  fg_col : Z; bg_col : Z;
  style : Z; ckey : Z;
  rop : Z;
  flags : Z;
  pattern : list Z;
  pattern_32bpp : list Z;
  command : Z;
  offset : Z;
  ger22 : Z;
  err : Z;
  top : Z; left : Z; bottom : Z; right : Z;
  x : Z; y : Z; cx : Z; cy : Z; dx : Z; dy : Z;
  src : Z; dst : Z; src_old : Z; dst_old : Z;
  pat_x : Z; pat_y : Z;
  use_src : Z;
  pitch : Z; bpp : Z;
  fill_pattern : list Z;
  mono_pattern : list Z;
  pattern_8 : list Z;
  pattern_16 : list Z;
  pattern_32 : list Z;
  pattern_32_idx : Z
}.

Definition eta (a : t) : t :=
  mk (src_x a) (src_y a) (src_x_clip a) (src_y_clip a) (dst_x a) (dst_y a)
     (dst_y_clip a) (dst_x_clip a) (size_x a) (size_y a) (sv_size_y a)
     (patloc a) (fg_col a) (bg_col a) (style a) (ckey a) (rop a) (flags a)
     (pattern a) (pattern_32bpp a) (command a) (offset a) (ger22 a) (err a)
     (top a) (left a) (bottom a) (right a) (x a) (y a) (cx a) (cy a) (dx a)
     (dy a) (src a) (dst a) (src_old a) (dst_old a) (pat_x a) (pat_y a)
     (use_src a) (pitch a) (bpp a) (fill_pattern a) (mono_pattern a)
     (pattern_8 a) (pattern_16 a) (pattern_32 a) (pattern_32_idx a).

(** [assign a f v] builds the record [a] with field [f] replaced by [v]. *)
Ltac assign a f v :=
  let e := eval cbv [eta] in (eta a) in
  match eval pattern (f a) in e with
  | ?g _ => let r := eval cbv beta in (g v) in exact r
  end.

Definition set_src_x (v : Z) (a : t) : t := ltac:(assign a src_x v).
Definition set_src_y (v : Z) (a : t) : t := ltac:(assign a src_y v).
Definition set_src_x_clip (v : Z) (a : t) : t := ltac:(assign a src_x_clip v).
Definition set_src_y_clip (v : Z) (a : t) : t := ltac:(assign a src_y_clip v).
Definition set_dst_x (v : Z) (a : t) : t := ltac:(assign a dst_x v).
Definition set_dst_y (v : Z) (a : t) : t := ltac:(assign a dst_y v).
Definition set_dst_y_clip (v : Z) (a : t) : t := ltac:(assign a dst_y_clip v).
Definition set_dst_x_clip (v : Z) (a : t) : t := ltac:(assign a dst_x_clip v).
Definition set_size_x (v : Z) (a : t) : t := ltac:(assign a size_x v).
Definition set_size_y (v : Z) (a : t) : t := ltac:(assign a size_y v).
Definition set_sv_size_y (v : Z) (a : t) : t := ltac:(assign a sv_size_y v).
Definition set_patloc (v : Z) (a : t) : t := ltac:(assign a patloc v).
Definition set_fg_col (v : Z) (a : t) : t := ltac:(assign a fg_col v).
Definition set_bg_col (v : Z) (a : t) : t := ltac:(assign a bg_col v).
Definition set_style (v : Z) (a : t) : t := ltac:(assign a style v).
Definition set_ckey (v : Z) (a : t) : t := ltac:(assign a ckey v).
Definition set_rop (v : Z) (a : t) : t := ltac:(assign a rop v).
Definition set_flags (v : Z) (a : t) : t := ltac:(assign a flags v).
Definition set_pattern (v : list Z) (a : t) : t := ltac:(assign a pattern v).
Definition set_pattern_32bpp (v : list Z) (a : t) : t := ltac:(assign a pattern_32bpp v).
Definition set_command (v : Z) (a : t) : t := ltac:(assign a command v).
Definition set_ger22 (v : Z) (a : t) : t := ltac:(assign a ger22 v).
Definition set_top (v : Z) (a : t) : t := ltac:(assign a top v).
Definition set_left (v : Z) (a : t) : t := ltac:(assign a left v).
Definition set_bottom (v : Z) (a : t) : t := ltac:(assign a bottom v).
Definition set_right (v : Z) (a : t) : t := ltac:(assign a right v).
Definition set_x (v : Z) (a : t) : t := ltac:(assign a x v).
Definition set_y (v : Z) (a : t) : t := ltac:(assign a y v).
Definition set_dx (v : Z) (a : t) : t := ltac:(assign a dx v).
Definition set_dy (v : Z) (a : t) : t := ltac:(assign a dy v).
Definition set_src (v : Z) (a : t) : t := ltac:(assign a src v).
Definition set_dst (v : Z) (a : t) : t := ltac:(assign a dst v).
Definition set_src_old (v : Z) (a : t) : t := ltac:(assign a src_old v).
Definition set_dst_old (v : Z) (a : t) : t := ltac:(assign a dst_old v).
Definition set_pat_x (v : Z) (a : t) : t := ltac:(assign a pat_x v).
Definition set_pat_y (v : Z) (a : t) : t := ltac:(assign a pat_y v).
Definition set_use_src (v : Z) (a : t) : t := ltac:(assign a use_src v).
Definition set_pitch (v : Z) (a : t) : t := ltac:(assign a pitch v).
Definition set_bpp (v : Z) (a : t) : t := ltac:(assign a bpp v).
Definition set_fill_pattern (v : list Z) (a : t) : t := ltac:(assign a fill_pattern v).
Definition set_mono_pattern (v : list Z) (a : t) : t := ltac:(assign a mono_pattern v).
Definition set_pattern_8 (v : list Z) (a : t) : t := ltac:(assign a pattern_8 v).
Definition set_pattern_16 (v : list Z) (a : t) : t := ltac:(assign a pattern_16 v).
Definition set_pattern_32 (v : list Z) (a : t) : t := ltac:(assign a pattern_32 v).
Definition set_pattern_32_idx (v : Z) (a : t) : t := ltac:(assign a pattern_32_idx v).

End Accel.

(** The members of [svga_t] the accelerator uses.  [svga_vram] is the
    framebuffer, one byte per address; [svga_changedvram] the change
    tracking store, [svga_mon_changeframecount] the value of
    [svga->monitor->mon_changeframecount]. *)
Record svga_t : Type := mk_svga {
  svga_vram : Z -> Z;
  svga_changedvram : Z -> Z;
  svga_mon_changeframecount : Z;
  svga_rowoffset : Z;
  svga_bpp : Z;
  svga_crtc : Z -> Z
}.

Record tgui_t : Type := mk_tgui {
  svga : svga_t;
  type : Z;
  accel : Accel.t;
  vram_size : Z;
  vram_mask : Z;
  write_blitter : Z
}.

Definition set_svga (v : svga_t) (t : tgui_t) : tgui_t :=
  mk_tgui v (type t) (accel t) (vram_size t) (vram_mask t) (write_blitter t).
Definition set_accel (v : Accel.t) (t : tgui_t) : tgui_t :=
  mk_tgui (svga t) (type t) v (vram_size t) (vram_mask t) (write_blitter t).
Definition set_write_blitter (v : Z) (t : tgui_t) : tgui_t :=
  mk_tgui (svga t) (type t) (accel t) (vram_size t) (vram_mask t) v.
Definition set_type (v : Z) (t : tgui_t) : tgui_t :=
  mk_tgui (svga t) v (accel t) (vram_size t) (vram_mask t) (write_blitter t).

Definition set_vram (v : Z -> Z) (g : svga_t) : svga_t :=
  mk_svga v (svga_changedvram g) (svga_mon_changeframecount g)
          (svga_rowoffset g) (svga_bpp g) (svga_crtc g).
Definition set_changedvram (v : Z -> Z) (g : svga_t) : svga_t :=
  mk_svga (svga_vram g) v (svga_mon_changeframecount g)
          (svga_rowoffset g) (svga_bpp g) (svga_crtc g).

(** [tgui->accel.f = v] *)
Definition upd (f : Accel.t -> Accel.t) (t : tgui_t) : tgui_t :=
  set_accel (f (accel t)) t.

(** [tgui->accel.f] *)
Notation "t # f" := (f (accel t)) (at level 9, f at level 9, only parsing).

(** C arrays: out-of-range reads do not occur in the engine (indices are
    masked); [aget] returns 0 there and [aset] leaves the list alone. *)
Definition aget (l : list Z) (i : Z) : Z := nth (Z.to_nat i) l 0.
Definition aset (l : list Z) (i : Z) (v : Z) : list Z := <[Z.to_nat i := v]> l.

(** ** Framebuffer accessors *)

(** The framebuffer seen as [uint8_t], [uint16_t] and [uint32_t]
    elements (little-endian host). *)
Definition rd8 (v : Z -> Z) (i : Z) : Z := u8 (v i).
Definition rd16 (v : Z -> Z) (i : Z) : Z :=
  Z.lor (rd8 v (2 * i)) (Z.shiftl (rd8 v (2 * i + 1)) 8).
Definition rd32 (v : Z -> Z) (i : Z) : Z :=
  Z.lor (Z.lor (rd8 v (4 * i)) (Z.shiftl (rd8 v (4 * i + 1)) 8))
        (Z.lor (Z.shiftl (rd8 v (4 * i + 2)) 16) (Z.shiftl (rd8 v (4 * i + 3)) 24)).

Definition wr8 (v : Z -> Z) (i dat : Z) : Z -> Z :=
  fun a => if a =? i then u8 dat else v a.
Definition wr16 (v : Z -> Z) (i dat : Z) : Z -> Z :=
  wr8 (wr8 v (2 * i) dat) (2 * i + 1) (Z.shiftr dat 8).
Definition wr32 (v : Z -> Z) (i dat : Z) : Z -> Z :=
  wr8 (wr8 (wr8 (wr8 v (4 * i) dat) (4 * i + 1) (Z.shiftr dat 8))
           (4 * i + 2) (Z.shiftr dat 16)) (4 * i + 3) (Z.shiftr dat 24).

(** Element index of an access: the address masked with the size mask,
    the mask shifted by the pixel width class. *)
Definition vram_index (s : tgui_t) (addr : Z) : Z :=
  if s#Accel.bpp =? 0 then Z.land (u32 addr) (vram_mask s)
  else if s#Accel.bpp =? 1 then Z.land (u32 addr) (Z.shiftr (vram_mask s) 1)
  else Z.land (u32 addr) (Z.shiftr (vram_mask s) 2).

Definition READ (s : tgui_t) (addr : Z) : Z :=
  if s#Accel.bpp =? 0 then rd8 (svga_vram (svga s)) (vram_index s addr)
  else if s#Accel.bpp =? 1 then rd16 (svga_vram (svga s)) (vram_index s addr)
  else rd32 (svga_vram (svga s)) (vram_index s addr).

Definition mark_changed (s : tgui_t) (i : Z) : Z -> Z :=
  fun a => if a =? i then svga_mon_changeframecount (svga s)
           else svga_changedvram (svga s) a.

Definition WRITE (s : tgui_t) (addr dat : Z) : tgui_t :=
  let g := svga s in
  let i := vram_index s addr in
  if s#Accel.bpp =? 0 then
    set_svga (set_changedvram (mark_changed s (Z.shiftr i 12))
                (set_vram (wr8 (svga_vram g) i dat) g)) s
  else if s#Accel.bpp =? 1 then
    set_svga (set_changedvram (mark_changed s (Z.shiftr i 11))
                (set_vram (wr16 (svga_vram g) i dat) g)) s
  else
    set_svga (set_changedvram (mark_changed s (Z.shiftr i 10))
                (set_vram (wr32 (svga_vram g) i dat) g)) s.

(** [MIX()]: [out = 0], then the raster operation on the three operands. *)
Definition MIX (s : tgui_t) (dst_dat pat_dat src_dat : Z) : Z :=
  ROPMIX (s#Accel.rop) dst_dat pat_dat src_dat 0.

(** ** The command state machine *)

(** Values of the locals [xdir], [ydir] and [trans_col], fixed at entry. *)
Record locals : Type := mk_locals {
  xdir : Z;
  ydir : Z;
  trans_col : Z;
  pattern_data : list Z
}.

Definition entry_xdir (s : tgui_t) : Z :=
  if nz (Z.land (s#Accel.flags) 0x200) then -1 else 1.
Definition entry_ydir (s : tgui_t) : Z :=
  if nz (Z.land (s#Accel.flags) 0x100) then -1 else 1.
Definition entry_trans_col (s : tgui_t) : Z :=
  let c := if nz (Z.land (s#Accel.flags) TGUI_TRANSREV)
           then s#Accel.fg_col else s#Accel.bg_col in
  if s#Accel.bpp =? 0 then Z.land c 0xff
  else if s#Accel.bpp =? 1 then Z.land c 0xffff
  else c.

(** [for (i = 0; i < 8; i++)] *)
Definition for8 {A : Type} (f : Z -> A -> A) (a : A) : A :=
  fold_left (fun acc i => f i acc) [0; 1; 2; 3; 4; 5; 6; 7] a.

(** The pattern cache, rebuilt at every entry; selects [pattern_data]. *)
Definition build_pattern (s : tgui_t) : tgui_t * list Z :=
  let a := accel s in
  if nz (Z.land (Accel.flags a) TGUI_SOLIDFILL) then
    let p := for8 (fun y => for8 (fun x arr =>
               aset arr (y * 8 + (7 - x)) (Accel.fg_col a))) (Accel.fill_pattern a) in
    (upd (Accel.set_fill_pattern p) s, p)
  else if nz (Z.land (Accel.flags a) TGUI_PATMONO) then
    let p := for8 (fun y => for8 (fun x arr =>
               aset arr (y * 8 + (7 - x))
                 (if nz (Z.land (aget (Accel.pattern a) y) (Z.shiftl 1 x))
                  then Accel.fg_col a else Accel.bg_col a))) (Accel.mono_pattern a) in
    (upd (Accel.set_mono_pattern p) s, p)
  else if Accel.bpp a =? 0 then
    let p := for8 (fun y => for8 (fun x arr =>
               aset arr (y * 8 + x) (aget (Accel.pattern a) (x + y * 8))))
               (Accel.pattern_8 a) in
    (upd (Accel.set_pattern_8 p) s, p)
  else if Accel.bpp a =? 1 then
    let p := for8 (fun y => for8 (fun x arr =>
               aset arr (y * 8 + x)
                 (Z.lor (aget (Accel.pattern a) (x * 2 + y * 16))
                        (Z.shiftl (aget (Accel.pattern a) (x * 2 + y * 16 + 1)) 8))))
               (Accel.pattern_16 a) in
    (upd (Accel.set_pattern_16 p) s, p)
  else
    let p := for8 (fun y => for8 (fun x arr =>
               aset arr (y * 8 + x)
                 (u32 (Z.lor (Z.lor (aget (Accel.pattern_32bpp a) (x * 4 + y * 32))
                                    (Z.shiftl (aget (Accel.pattern_32bpp a) (x * 4 + y * 32 + 1)) 8))
                             (Z.lor (Z.shiftl (aget (Accel.pattern_32bpp a) (x * 4 + y * 32 + 2)) 16)
                                    (Z.shiftl (aget (Accel.pattern_32bpp a) (x * 4 + y * 32 + 3)) 24))))))
               (Accel.pattern_32 a) in
    (upd (Accel.set_pattern_32 p) s, p).

(** See Linux kernel drivers/video/tridentfb.c for the pitch. *)
Definition entry_pitch (s : tgui_t) : Z :=
  let r := svga_rowoffset (svga s) in
  let b := svga_bpp (svga s) in
  if (b =? 8) || (b =? 24) then s32 (Z.shiftl r 3)
  else if (b =? 15) || (b =? 16) then s32 (Z.shiftl r 2)
  else if b =? 32 then s32 (Z.shiftl r 1)
  else r.

(** The mono source skip at the start of a row: the first bits of the
    data are dropped (not at a command start). *)
Definition entry_skip (count cpu_dat : Z) (s : tgui_t) : Z * Z :=
  if negb (count =? -1) && (s#Accel.x =? 0)
     && nz (Z.land (s#Accel.flags) TGUI_SRCMONO)
  then (s32 (count - Z.land (Z.shiftr (s#Accel.flags) 24) 7),
        u32 (Z.shiftl cpu_dat (Z.land (Z.shiftr (s#Accel.flags) 24) 7)))
  else (count, cpu_dat).

Definition entry_locals (s : tgui_t) : locals :=
  mk_locals (entry_xdir s) (entry_ydir s) (entry_trans_col s)
            (snd (build_pattern (upd (Accel.set_pattern_32_idx 0) s))).

(** [pattern_32_idx = 0], the pattern cache, the pitch. *)
Definition entry_regs (s : tgui_t) : tgui_t :=
  let s := upd (Accel.set_pattern_32_idx 0) s in
  let s := fst (build_pattern s) in
  upd (Accel.set_pitch (entry_pitch s)) s.

(** The code of [tgui_accel_command] before its [switch]: the mono
    source skip, the reset of [x] and [y] at a start, the pattern cache
    and the pitch.  Returns the state, the locals and the adjusted
    [count] and [cpu_dat]. *)
Definition entry (count cpu_dat : Z) (s : tgui_t) : tgui_t * locals * Z * Z :=
  let '(count', cpu_dat') := entry_skip count cpu_dat s in
  let l := entry_locals s in
  let s := if count' =? -1
           then upd (fun a => Accel.set_x 0 (Accel.set_y 0 a)) s else s in
  (entry_regs s, l, count', cpu_dat').

(** Control flow of a loop body: go round again with the updated
    [count] and [cpu_dat], or leave the function ([break] out of the
    loop ends it as well: nothing follows the [switch]). *)
Inductive flow : Type :=
| Continue (s : tgui_t) (count cpu_dat : Z)
| Return (s : tgui_t).

(** Result of a run: the call returned, or the model ran out of [fuel]
    in the state given. *)
Inductive run : Type :=
| Done (s : tgui_t)
| OutOfFuel (s : tgui_t).

Definition run_state (r : run) : tgui_t :=
  match r with Done s => s | OutOfFuel s => s end.

(** [while (count) body] *)
Fixpoint while_count (fuel : nat) (body : tgui_t -> Z -> Z -> flow)
    (count cpu_dat : Z) (s : tgui_t) : run :=
  if count =? 0 then Done s
  else match fuel with
       | O => OutOfFuel s
       | S fuel' =>
           match body s count cpu_dat with
           | Continue s' count' cpu_dat' => while_count fuel' body count' cpu_dat' s'
           | Return s' => Done s'
           end
       end.

(** [while (count--) body] *)
Definition while_count_dec (fuel : nat) (body : tgui_t -> Z -> Z -> flow) :=
  while_count fuel (fun s count cpu_dat => body s (s32 (count - 1)) cpu_dat).

(** The pattern operand of the blits: the cache entry of the current
    cell, cut to the pixel width. *)
Definition pattern_fetch (l : locals) (s : tgui_t) : Z :=
  let p := aget (pattern_data l)
             (Z.land (s#Accel.pat_y) 7 * 8 + Z.land (s#Accel.pat_x) 7) in
  if s#Accel.bpp =? 0 then Z.land p 0xff
  else if s#Accel.bpp =? 1 then Z.land p 0xffff
  else p.

(** Clip test of the CPU-sourced blits. *)
Definition clip_blt (s : tgui_t) : bool :=
  (type s =? TGUI_9440)
  || ((type s >=? TGUI_9660)
      && (s#Accel.dx >=? s#Accel.left) && (s#Accel.dx <=? s#Accel.right)
      && (s#Accel.dy >=? s#Accel.top) && (s#Accel.dy <=? s#Accel.bottom)).

(** Clip test of the line commands.
    Note by TC1995: I suppose the x/y clipping max is always more than 0
    in the TGUI 96xx, but the TGUI 9440 lacks clipping. *)
Definition clip_line (s : tgui_t) : bool :=
  (type s =? TGUI_9440)
  || ((type s >=? TGUI_9660)
      && (Z.land (s#Accel.dx) 0xfff >=? s#Accel.left)
      && (Z.land (s#Accel.dx) 0xfff <=? s#Accel.right)
      && (Z.land (s#Accel.dy) 0xfff >=? s#Accel.top)
      && (Z.land (s#Accel.dy) 0xfff <=? s#Accel.bottom)).

(** Command start of the blits and lines: the clip rectangle. *)
Definition load_clip (s : tgui_t) : tgui_t :=
  let s := upd (fun a => Accel.set_left (Z.land (Accel.src_x_clip a) 0xfff) a) s in
  let s := upd (fun a => Accel.set_right (Z.land (Accel.dst_x_clip a) 0xfff) a) s in
  let s := upd (fun a => Accel.set_top (Z.land (Accel.src_y_clip a) 0xfff) a) s in
  let s := upd (fun a => Accel.set_bottom (Z.land (Accel.dst_y_clip a) 0xfff) a) s in
  if s#Accel.bpp =? 1 then
    upd (fun a => Accel.set_right (Z.shiftr (Accel.right a) 1)
                    (Accel.set_left (Z.shiftr (Accel.left a) 1) a)) s
  else if s#Accel.bpp =? 3 then
    upd (fun a => Accel.set_right (Z.shiftr (Accel.right a) 2)
                    (Accel.set_left (Z.shiftr (Accel.left a) 2) a)) s
  else s.

(** Command start of the blits: source and destination pointers and the
    pattern cell. *)
Definition load_pointers (s : tgui_t) : tgui_t :=
  let s := upd (fun a => Accel.set_src_old
                  (u32 (Accel.src_x a + Accel.src_y a * Accel.pitch a)) a) s in
  let s := upd (fun a => Accel.set_src (Accel.src_old a) a) s in
  let s := upd (fun a => Accel.set_dst_old
                  (u32 (Accel.dst_x a + Accel.dst_y a * Accel.pitch a)) a) s in
  let s := upd (fun a => Accel.set_dst (Accel.dst_old a) a) s in
  let s := upd (fun a => Accel.set_pat_x (Accel.dst_x a) a) s in
  upd (fun a => Accel.set_pat_y (Accel.dst_y a) a) s.

Definition load_dxdy (s : tgui_t) : tgui_t :=
  let s := upd (fun a => Accel.set_dx (Z.land (Accel.dst_x a) 0xfff) a) s in
  upd (fun a => Accel.set_dy (Z.land (Accel.dst_y a) 0xfff) a) s.

(** [src += xdir; dst += xdir; pat_x += xdir] *)
Definition advance_x (l : locals) (s : tgui_t) : tgui_t :=
  let s := upd (fun a => Accel.set_src (u32 (Accel.src a + xdir l)) a) s in
  let s := upd (fun a => Accel.set_dst (u32 (Accel.dst a + xdir l)) a) s in
  upd (fun a => Accel.set_pat_x (s32 (Accel.pat_x a + xdir l)) a) s.

(** [src = src_old = src_old + ydir * pitch], and the same for [dst]. *)
Definition advance_row (l : locals) (s : tgui_t) : tgui_t :=
  let s := upd (fun a => Accel.set_src_old
                  (u32 (Accel.src_old a + ydir l * Accel.pitch a)) a) s in
  let s := upd (fun a => Accel.set_dst_old
                  (u32 (Accel.dst_old a + ydir l * Accel.pitch a)) a) s in
  let s := upd (fun a => Accel.set_src (Accel.src_old a) a) s in
  upd (fun a => Accel.set_dst (Accel.dst_old a) a) s.

(** End of a row of the CPU-sourced blits, after [x] has passed
    [size_x]. *)
Definition end_row_cpu (l : locals) (s : tgui_t) : flow + tgui_t :=
  let s := upd (Accel.set_x 0) s in
  let s := upd (fun a => Accel.set_pat_x (Accel.dst_x a) a) s in
  let s := upd (fun a => Accel.set_pat_y (s32 (Accel.pat_y a + ydir l)) a) s in
  let s := if type s >=? TGUI_9660
           then upd (fun a => Accel.set_dy (s16 (Accel.dy a + ydir l))
                                (Accel.set_dx (Z.land (Accel.dst_x a) 0xfff) a)) s
           else s in
  let s := advance_row l s in
  let s := upd (fun a => Accel.set_y (s16 (Accel.y a + 1)) a) s in
  if s#Accel.y >? s#Accel.size_y then
    inl (Return (if nz (Z.land (svga_crtc (svga s) 0x21) 0x20)
                 then set_write_blitter 0 s else s))
  else if nz (s#Accel.use_src) then inl (Return s)
  else inr s.

(** The pixel of the CPU-sourced blit: the source taken from the top of
    [cpu_dat], which moves up by the width of a pixel. *)
Definition draw_from_cpu (l : locals) (s : tgui_t) (count cpu_dat : Z)
  : tgui_t * Z * Z :=
  if clip_blt s then
    let '(src_dat, cpu_dat, count) :=
      if s#Accel.bpp =? 0 then
        (Z.shiftr cpu_dat 24, u32 (Z.shiftl cpu_dat 8), count)
      else if s#Accel.bpp =? 1 then
        (Z.lor (Z.shiftr cpu_dat 24) (Z.land (Z.shiftr cpu_dat 8) 0xff00),
         u32 (Z.shiftl cpu_dat 16), s32 (count - 1))
      else
        (Z.lor (Z.lor (Z.shiftr cpu_dat 24) (Z.land (Z.shiftr cpu_dat 8) 0x0000ff00))
               (Z.land (u32 (Z.shiftl cpu_dat 8)) 0x00ff0000),
         u32 (Z.shiftl cpu_dat 16), s32 (count - 3)) in
    let dst_dat := READ s (s#Accel.dst) in
    let pat_dat := pattern_fetch l s in
    let fl := Z.land (s#Accel.flags) (Z.lor TGUI_PATMONO TGUI_TRANSENA) in
    if ((fl =? Z.lor TGUI_TRANSENA TGUI_PATMONO) && negb (pat_dat =? trans_col l))
       || negb (nz (Z.land (s#Accel.flags) TGUI_PATMONO))
       || (fl =? TGUI_PATMONO)
       || nz (Z.land (s#Accel.ger22) 0x200)
    then (WRITE s (s#Accel.dst) (MIX s dst_dat pat_dat src_dat), count, cpu_dat)
    else (s, count, cpu_dat)
  else (s, count, cpu_dat).

(** The pixel of the mono-expanded blit: the top bit of [cpu_dat]
    selects the foreground or the background colour. *)
Definition draw_from_mono (l : locals) (s : tgui_t) (cpu_dat : Z) : tgui_t :=
  if clip_blt s then
    let src_dat := if nz (Z.shiftr cpu_dat 31)
                   then s#Accel.fg_col else s#Accel.bg_col in
    let src_dat := if s#Accel.bpp =? 0 then Z.land src_dat 0xff
                   else if s#Accel.bpp =? 1 then Z.land src_dat 0xffff
                   else src_dat in
    let dst_dat := READ s (s#Accel.dst) in
    let pat_dat := pattern_fetch l s in
    if negb (nz (Z.land (s#Accel.flags) TGUI_TRANSENA))
       || negb (src_dat =? trans_col l)
    then WRITE s (s#Accel.dst) (MIX s dst_dat pat_dat src_dat)
    else s
  else s.

(** [src += xdir; dst += xdir; pat_x += xdir; if (type >= TGUI_9660)
    dx += xdir; x++] *)
Definition step_x_cpu (l : locals) (s : tgui_t) : tgui_t :=
  let s := advance_x l s in
  let s := if type s >=? TGUI_9660
           then upd (fun a => Accel.set_dx (s16 (Accel.dx a + xdir l)) a) s else s in
  upd (fun a => Accel.set_x (s16 (Accel.x a + 1)) a) s.

(** Body of the loop of [TGUI_BITBLT], case [TGUI_SRCCPU]. *)
Definition bitblt_cpu_body (l : locals) (s : tgui_t) (count cpu_dat : Z) : flow :=
  let '(s, count, cpu_dat) := draw_from_cpu l s count cpu_dat in
  let s := step_x_cpu l s in
  if s#Accel.x >? s#Accel.size_x then
    match end_row_cpu l s with
    | inl f => f
    | inr s => Continue s (s32 (count - 1)) cpu_dat
    end
  else Continue s (s32 (count - 1)) cpu_dat.

(** Body of the loop of [TGUI_BITBLT], case [TGUI_SRCMONO | TGUI_SRCCPU]. *)
Definition bitblt_mono_body (l : locals) (s : tgui_t) (count cpu_dat : Z) : flow :=
  let s := draw_from_mono l s cpu_dat in
  let cpu_dat := u32 (Z.shiftl cpu_dat 1) in
  let s := step_x_cpu l s in
  if s#Accel.x >? s#Accel.size_x then
    match end_row_cpu l s with
    | inl f => f
    | inr s => Continue s count cpu_dat
    end
  else Continue s count cpu_dat.

(** The pixel of the display-sourced blit and of the scanline command:
    source and destination read from the framebuffer. *)
Definition draw_from_display (l : locals) (s : tgui_t) : tgui_t :=
  let src_dat := READ s (s#Accel.src) in
  let dst_dat := READ s (s#Accel.dst) in
  let pat_dat := pattern_fetch l s in
  if negb (nz (Z.land (s#Accel.flags) TGUI_TRANSENA))
     || negb (src_dat =? trans_col l)
  then WRITE s (s#Accel.dst) (MIX s dst_dat pat_dat src_dat)
  else s.

(** [src += xdir; dst += xdir; pat_x += xdir; x++] *)
Definition step_x (l : locals) (s : tgui_t) : tgui_t :=
  upd (fun a => Accel.set_x (s16 (Accel.x a + 1)) a) (advance_x l s).

(** End of a row of the display-sourced blit. *)
Definition end_row_disp (l : locals) (s : tgui_t) : tgui_t :=
  let s := upd (Accel.set_x 0) s in
  let s := upd (fun a => Accel.set_y (s16 (Accel.y a + 1)) a) s in
  let s := upd (fun a => Accel.set_pat_x (Accel.dst_x a) a) s in
  let s := upd (fun a => Accel.set_pat_y (s32 (Accel.pat_y a + ydir l)) a) s in
  advance_row l s.

(** End of the row of the scanline command. *)
Definition end_row_scanline (l : locals) (s : tgui_t) : tgui_t :=
  let s := upd (Accel.set_x 0) s in
  let s := upd (fun a => Accel.set_pat_x (Accel.dst_x a) a) s in
  let s := advance_row l s in
  upd (fun a => Accel.set_pat_y (s32 (Accel.pat_y a + ydir l)) a) s.

(** Body of the loop of [TGUI_BITBLT], [default] case. *)
Definition bitblt_disp_body (l : locals) (s : tgui_t) (count cpu_dat : Z) : flow :=
  let s := draw_from_display l s in
  let s := step_x l s in
  if s#Accel.x >? s#Accel.size_x then
    let s := end_row_disp l s in
    if s#Accel.y >? s#Accel.size_y then Return s
    else Continue s count cpu_dat
  else Continue s count cpu_dat.

(** Body of the loop of [TGUI_SCANLINE]. *)
Definition scanline_body (l : locals) (s : tgui_t) (count cpu_dat : Z) : flow :=
  let s := draw_from_display l s in
  let s := step_x l s in
  if s#Accel.x >? s#Accel.size_x then Return (end_row_scanline l s)
  else Continue s count cpu_dat.

(** The pixel of the line commands: the foreground colour through the
    pattern slot, no source ([src_dat] keeps its initial 0). *)
Definition draw_line_pixel (s : tgui_t) : tgui_t :=
  if clip_line s then
    let addr := s#Accel.dx + s#Accel.dy * s#Accel.pitch in
    let dst_dat := READ s addr in
    let pat_dat := s#Accel.fg_col in
    WRITE s addr (MIX s dst_dat pat_dat 0)
  else s.

Definition inc_dx (s : tgui_t) := upd (fun a => Accel.set_dx (s16 (Accel.dx a + 1)) a) s.
Definition dec_dx (s : tgui_t) := upd (fun a => Accel.set_dx (s16 (Accel.dx a - 1)) a) s.
Definition inc_dy (s : tgui_t) := upd (fun a => Accel.set_dy (s16 (Accel.dy a + 1)) a) s.
Definition dec_dy (s : tgui_t) := upd (fun a => Accel.set_dy (s16 (Accel.dy a - 1)) a) s.

(** [y--; dx &= 0xfff; dy &= 0xfff] *)
Definition line_next (s : tgui_t) : tgui_t :=
  let s := upd (fun a => Accel.set_y (s16 (Accel.y a - 1)) a) s in
  let s := upd (fun a => Accel.set_dx (Z.land (Accel.dx a) 0xfff) a) s in
  upd (fun a => Accel.set_dy (Z.land (Accel.dy a) 0xfff) a) s.

(** Body of the loop of [TGUI_BRESENHAMLINE]. *)
Definition bresenham_minor (s : tgui_t) : tgui_t :=
  let oct := Z.land (Z.shiftr (s#Accel.flags) 8) 7 in
  if s#Accel.size_x >=? 0 then
    let s := upd (fun a => Accel.set_size_x (s16 (Accel.size_x a + Accel.src_x a)) a) s in
    (* Step minor axis *)
    if (oct =? 0) || (oct =? 2) then inc_dy s
    else if (oct =? 1) || (oct =? 3) then dec_dy s
    else if (oct =? 4) || (oct =? 5) then inc_dx s
    else if (oct =? 6) || (oct =? 7) then dec_dx s
    else s
  else upd (fun a => Accel.set_size_x (s16 (Accel.size_x a + Accel.src_y a)) a) s.

Definition bresenham_major (s : tgui_t) : tgui_t :=
  let oct := Z.land (Z.shiftr (s#Accel.flags) 8) 7 in
  (* Step major axis *)
  if (oct =? 0) || (oct =? 1) then inc_dx s
  else if (oct =? 2) || (oct =? 3) then dec_dx s
  else if (oct =? 4) || (oct =? 6) then inc_dy s
  else if (oct =? 5) || (oct =? 7) then dec_dy s
  else s.

Definition bresenham_body (s : tgui_t) (count cpu_dat : Z) : flow :=
  let s := draw_line_pixel s in
  if s#Accel.y =? 0 then Return s
  else Continue (line_next (bresenham_major (bresenham_minor s))) count cpu_dat.

(** The [switch] on the compass code of the short vector and of the
    fast line; [code] is the value switched on. *)
Definition vector_step (code : Z) (s : tgui_t) : tgui_t :=
  if code =? 0x00 then inc_dx s
  else if code =? 0x20 then dec_dy (inc_dx s)
  else if code =? 0x40 then dec_dy s
  else if code =? 0x60 then dec_dy (dec_dx s)
  else if code =? 0x80 then dec_dx s
  else if code =? 0xa0 then inc_dy (dec_dx s)
  else if code =? 0xc0 then inc_dy s
  else if code =? 0xe0 then inc_dy (inc_dx s)
  else s.

(** Body of the loop of [TGUI_SHORTVECTOR]. *)
Definition shortvector_body (s : tgui_t) (count cpu_dat : Z) : flow :=
  let s := draw_line_pixel s in
  if s#Accel.y =? 0 then Return s
  else
    let s := vector_step (Z.land (Z.shiftr (s#Accel.sv_size_y) 8) 0xe0) s in
    Continue (line_next s) count cpu_dat.

(** Body of the loop of [TGUI_FASTLINE]. *)
Definition fastline_body (s : tgui_t) (count cpu_dat : Z) : flow :=
  let s := draw_line_pixel s in
  if s#Accel.y =? 0 then Return s
  else
    let s := vector_step (Z.land (Z.shiftr (s#Accel.size_y) 8) 0xe0) s in
    Continue (line_next s) count cpu_dat.

(** [tgui_accel_command(count, cpu_dat, tgui)] *)
Definition tgui_accel_command (fuel : nat) (count cpu_dat : Z) (s : tgui_t) : run :=
  let '(s, l, count, cpu_dat) := entry count cpu_dat s in
  let cmd := s#Accel.command in
  if cmd =? TGUI_BITBLT then
    let s := if count =? -1 then load_clip (load_dxdy (load_pointers s)) else s in
    let mode := Z.land (s#Accel.flags) (Z.lor TGUI_SRCMONO TGUI_SRCDISP) in
    if mode =? TGUI_SRCCPU then
      if count =? -1 then
        let s := if nz (Z.land (svga_crtc (svga s) 0x21) 0x20)
                 then set_write_blitter 1 s else s in
        if nz (s#Accel.use_src) then Done s
        else while_count fuel (bitblt_cpu_body l) count cpu_dat s
      else while_count fuel (bitblt_cpu_body l) (Z.shiftr count 3) cpu_dat s
    else if mode =? Z.lor TGUI_SRCMONO TGUI_SRCCPU then
      if count =? -1 then
        let s := if nz (Z.land (svga_crtc (svga s) 0x21) 0x20)
                 then set_write_blitter 1 s else s in
        if nz (s#Accel.use_src) then Done s
        else while_count_dec fuel (bitblt_mono_body l) count cpu_dat s
      else while_count_dec fuel (bitblt_mono_body l) count cpu_dat s
    else while_count_dec fuel (bitblt_disp_body l) count cpu_dat s
  else if cmd =? TGUI_SCANLINE then
    let s := if count =? -1 then load_pointers s else s in
    while_count_dec fuel (scanline_body l) count cpu_dat s
  else if cmd =? TGUI_BRESENHAMLINE then
    let s := if count =? -1
             then load_clip (upd (fun a => Accel.set_y (Accel.size_y a) a) (load_dxdy s))
             else s in
    while_count_dec fuel bresenham_body count cpu_dat s
  else if cmd =? TGUI_SHORTVECTOR then
    let s := if count =? -1
             then load_clip (upd (fun a => Accel.set_y
                                   (s16 (Z.land (Accel.sv_size_y a) 0xfff)) a) (load_dxdy s))
             else s in
    while_count_dec fuel shortvector_body count cpu_dat s
  else if cmd =? TGUI_FASTLINE then
    if type s <? TGUI_9660 then Done s
    else
      let s := if count =? -1
               then load_clip (upd (fun a => Accel.set_y (Accel.size_y a) a) (load_dxdy s))
               else s in
      while_count_dec fuel fastline_body count cpu_dat s
  else Done s.

(** ** The register dispatcher *)

(** Sequencing of calls that may run the command engine. *)
Definition and_then (r : run) (f : tgui_t -> run) : run :=
  match r with
  | Done s => f s
  | OutOfFuel s => OutOfFuel s
  end.

(** The pixel width class follows the display depth, at a write to the
    control word. *)
Definition sync_bpp (s : tgui_t) : tgui_t :=
  let b := svga_bpp (svga s) in
  if (b =? 8) || (b =? 24) then upd (Accel.set_bpp 0) s
  else if (b =? 15) || (b =? 16) then upd (Accel.set_bpp 1) s
  else if b =? 32 then upd (Accel.set_bpp 3) s
  else s.

Definition rop_use_src (rop : Z) : Z :=
  Z.lxor (Z.land rop 0x33) (Z.land (Z.shiftr rop 2) 0x33).

(** Replace byte [n] of a 32-bit register, its other bytes kept by
    [keep]. *)
Definition put_byte (old keep val : Z) (n : Z) : Z :=
  u32 (Z.lor (Z.land old keep) (Z.shiftl val n)).

(** [tgui_accel_out(addr, val, tgui)] *)
Definition tgui_accel_out (fuel : nat) (addr val : Z) (s : tgui_t) : run :=
  let addr := u16 addr in
  let val := u8 val in
  match addr with
  | 0x2122 =>
      Done (sync_bpp (upd (fun a => Accel.set_ger22
                             (u16 (Z.lor (Z.land (Accel.ger22 a) 0xff00) val)) a) s))
  | 0x2123 =>
      Done (sync_bpp (upd (fun a => Accel.set_ger22
                             (u16 (Z.lor (Z.land (Accel.ger22 a) 0xff) (Z.shiftl val 8))) a) s))
  | 0x2124 => (* Command *)
      tgui_accel_command fuel (-1) 0 (upd (Accel.set_command val) s)
  | 0x2127 => (* ROP *)
      Done (upd (fun a => Accel.set_use_src (rop_use_src val) (Accel.set_rop val a)) s)
  | 0x2128 => (* Flags *)
      Done (upd (fun a => Accel.set_flags (put_byte (Accel.flags a) 0xffffff00 val 0) a) s)
  | 0x2129 =>
      Done (upd (fun a => Accel.set_flags (put_byte (Accel.flags a) 0xffff00ff val 8) a) s)
  | 0x212a =>
      Done (upd (fun a => Accel.set_flags (put_byte (Accel.flags a) 0xff00ffff val 16) a) s)
  | 0x212b =>
      Done (upd (fun a => Accel.set_flags (put_byte (Accel.flags a) 0x0000ffff val 24) a) s)
  | 0x212c | 0x2178 => (* Foreground colour *)
      Done (upd (fun a => Accel.set_fg_col (put_byte (Accel.fg_col a) 0xffffff00 val 0) a) s)
  | 0x212d | 0x2179 =>
      Done (upd (fun a => Accel.set_fg_col (put_byte (Accel.fg_col a) 0xffff00ff val 8) a) s)
  | 0x212e | 0x217a =>
      Done (upd (fun a => Accel.set_fg_col (put_byte (Accel.fg_col a) 0xff00ffff val 16) a) s)
  | 0x212f | 0x217b =>
      Done (upd (fun a => Accel.set_fg_col (put_byte (Accel.fg_col a) 0x00ffffff val 24) a) s)
  | 0x2130 | 0x217c => (* Background colour *)
      Done (upd (fun a => Accel.set_bg_col (put_byte (Accel.bg_col a) 0xffffff00 val 0) a) s)
  | 0x2131 | 0x217d =>
      Done (upd (fun a => Accel.set_bg_col (put_byte (Accel.bg_col a) 0xffff00ff val 8) a) s)
  | 0x2132 | 0x217e =>
      Done (upd (fun a => Accel.set_bg_col (put_byte (Accel.bg_col a) 0xff00ffff val 16) a) s)
  | 0x2133 | 0x217f =>
      Done (upd (fun a => Accel.set_bg_col (put_byte (Accel.bg_col a) 0x00ffffff val 24) a) s)
  | 0x2134 => (* Pattern location *)
      Done (upd (fun a => Accel.set_patloc
                   (u16 (Z.lor (Z.land (Accel.patloc a) 0xff00) val)) a) s)
  | 0x2135 =>
      Done (upd (fun a => Accel.set_patloc
                   (u16 (Z.lor (Z.land (Accel.patloc a) 0xff) (Z.shiftl val 8))) a) s)
  | 0x2138 => (* Dest X *)
      Done (upd (fun a => Accel.set_dst_x
                   (s16 (Z.lor (Z.land (Accel.dst_x a) 0xff00) val)) a) s)
  | 0x2139 =>
      Done (upd (fun a => Accel.set_dst_x
                   (s16 (Z.lor (Z.land (Accel.dst_x a) 0xff) (Z.shiftl val 8))) a) s)
  | 0x213a => (* Dest Y *)
      Done (upd (fun a => Accel.set_dst_y
                   (s16 (Z.lor (Z.land (Accel.dst_y a) 0xff00) val)) a) s)
  | 0x213b =>
      Done (upd (fun a => Accel.set_dst_y
                   (s16 (Z.lor (Z.land (Accel.dst_y a) 0xff) (Z.shiftl val 8))) a) s)
  | 0x213c => (* Src X, Diagonal Step Constant *)
      Done (upd (fun a => Accel.set_src_x
                   (s16 (Z.lor (Z.land (Accel.src_x a) 0x3f00) val)) a) s)
  | 0x213d =>
      let s := upd (fun a => Accel.set_src_x
                      (s16 (Z.lor (Z.land (Accel.src_x a) 0xff)
                                  (Z.shiftl (Z.land val 0x3f) 8))) a) s in
      Done (if nz (Z.land val 0x20)
            then upd (fun a => Accel.set_src_x
                        (s16 (Z.lor (Accel.src_x a) (Z.lnot 0x3fff))) a) s
            else s)
  | 0x213e => (* Src Y, Axial Step Constant *)
      Done (upd (fun a => Accel.set_src_y
                   (s16 (Z.lor (Z.land (Accel.src_y a) 0x3f00) val)) a) s)
  | 0x213f =>
      let s := upd (fun a => Accel.set_src_y
                      (s16 (Z.lor (Z.land (Accel.src_y a) 0xff)
                                  (Z.shiftl (Z.land val 0x3f) 8))) a) s in
      Done (if nz (Z.land val 0x20)
            then upd (fun a => Accel.set_src_y
                        (s16 (Z.lor (Accel.src_y a) (Z.lnot 0x3fff))) a) s
            else s)
  | 0x2140 => (* Size X, Line Error Term *)
      Done (upd (fun a => Accel.set_size_x
                   (s16 (Z.lor (Z.land (Accel.size_x a) 0x3f00) val)) a) s)
  | 0x2141 =>
      let s := upd (fun a => Accel.set_size_x
                      (s16 (Z.lor (Z.land (Accel.size_x a) 0xff)
                                  (Z.shiftl (Z.land val 0x3f) 8))) a) s in
      Done (if nz (Z.land val 0x20)
            then upd (fun a => Accel.set_size_x
                        (s16 (Z.lor (Accel.size_x a) (Z.lnot 0x1fff))) a) s
            else s)
  | 0x2142 => (* Size Y, Major Axis Pixel Count *)
      Done (upd (fun a => Accel.set_sv_size_y
                   (u16 (Z.lor (Z.land (Accel.sv_size_y a) 0xff00) val))
                   (Accel.set_size_y
                      (s16 (Z.lor (Z.land (Accel.size_y a) 0xf00) val)) a)) s)
  | 0x2143 =>
      Done (upd (fun a => Accel.set_sv_size_y
                   (u16 (Z.lor (Z.land (Accel.sv_size_y a) 0xff) (Z.shiftl val 8)))
                   (Accel.set_size_y
                      (s16 (Z.lor (Z.land (Accel.size_y a) 0xff)
                                  (Z.shiftl (Z.land val 0x0f) 8))) a)) s)
  | 0x2144 => (* Style *)
      Done (upd (fun a => Accel.set_style (put_byte (Accel.style a) 0xffffff00 val 0) a) s)
  | 0x2145 =>
      Done (upd (fun a => Accel.set_style (put_byte (Accel.style a) 0xffff00ff val 8) a) s)
  | 0x2146 =>
      Done (upd (fun a => Accel.set_style (put_byte (Accel.style a) 0xff00ffff val 16) a) s)
  | 0x2147 =>
      Done (upd (fun a => Accel.set_style (put_byte (Accel.style a) 0x00ffffff val 24) a) s)
  | 0x2148 => (* Clip Src X *)
      Done (upd (fun a => Accel.set_src_x_clip
                   (s16 (Z.lor (Z.land (Accel.src_x_clip a) 0xff00) val)) a) s)
  | 0x2149 =>
      Done (upd (fun a => Accel.set_src_x_clip
                   (s16 (Z.lor (Z.land (Accel.src_x_clip a) 0xff) (Z.shiftl val 8))) a) s)
  | 0x214a => (* Clip Src Y *)
      Done (upd (fun a => Accel.set_src_y_clip
                   (s16 (Z.lor (Z.land (Accel.src_y_clip a) 0xff00) val)) a) s)
  | 0x214b =>
      Done (upd (fun a => Accel.set_src_y_clip
                   (s16 (Z.lor (Z.land (Accel.src_y_clip a) 0xff) (Z.shiftl val 8))) a) s)
  | 0x214c => (* Clip Dest X *)
      Done (upd (fun a => Accel.set_dst_x_clip
                   (s16 (Z.lor (Z.land (Accel.dst_x_clip a) 0xff00) val)) a) s)
  | 0x214d =>
      Done (upd (fun a => Accel.set_dst_x_clip
                   (s16 (Z.lor (Z.land (Accel.dst_x_clip a) 0xff) (Z.shiftl val 8))) a) s)
  | 0x214e => (* Clip Dest Y *)
      Done (upd (fun a => Accel.set_dst_y_clip
                   (s16 (Z.lor (Z.land (Accel.dst_y_clip a) 0xff00) val)) a) s)
  | 0x214f =>
      Done (upd (fun a => Accel.set_dst_y_clip
                   (s16 (Z.lor (Z.land (Accel.dst_y_clip a) 0xff) (Z.shiftl val 8))) a) s)
  | 0x2168 => (* CKey *)
      Done (upd (fun a => Accel.set_ckey (put_byte (Accel.ckey a) 0xffffff00 val 0) a) s)
  | 0x2169 =>
      Done (upd (fun a => Accel.set_ckey (put_byte (Accel.ckey a) 0xffff00ff val 8) a) s)
  | 0x216a =>
      Done (upd (fun a => Accel.set_ckey (put_byte (Accel.ckey a) 0xff00ffff val 16) a) s)
  | 0x216b =>
      Done (upd (fun a => Accel.set_ckey (put_byte (Accel.ckey a) 0x00ffffff val 24) a) s)
  | _ =>
      if (0x2180 <=? addr) && (addr <=? 0x21ff) then
        (* the pattern bytes, 0x2180 to 0x21ff *)
        let s := upd (fun a => Accel.set_pattern
                        (aset (Accel.pattern a) (Z.land addr 0x7f) val) a) s in
        let s := upd (fun a => Accel.set_pattern_32bpp
                        (aset (Accel.pattern_32bpp a) (Accel.pattern_32_idx a) val) a) s in
        Done (upd (fun a => Accel.set_pattern_32_idx
                     (Z.land (Accel.pattern_32_idx a + 1) 0xff) a) s)
      else Done s
  end.

(** [tgui_accel_out_w(addr, val, tgui)] *)
Definition tgui_accel_out_w (fuel : nat) (addr val : Z) (s : tgui_t) : run :=
  and_then (tgui_accel_out fuel addr val s)
           (tgui_accel_out fuel (addr + 1) (Z.shiftr val 8)).

(** [tgui_accel_out_l(addr, val, tgui)] *)
Definition tgui_accel_out_l (fuel : nat) (addr val : Z) (s : tgui_t) : run :=
  if u16 addr =? 0x2124 then
    (* Long version of Command and ROP together *)
    let s := upd (Accel.set_command (Z.land val 0xff)) s in
    let s := upd (Accel.set_rop (u8 (Z.shiftr val 24))) s in
    let s := upd (fun a => Accel.set_use_src (rop_use_src (Accel.rop a)) a) s in
    tgui_accel_command fuel (-1) 0 s
  else
    and_then (tgui_accel_out fuel addr val s) (fun s =>
    and_then (tgui_accel_out fuel (addr + 1) (Z.shiftr val 8) s) (fun s =>
    and_then (tgui_accel_out fuel (addr + 2) (Z.shiftr val 16) s)
             (tgui_accel_out fuel (addr + 3) (Z.shiftr val 24)))).

(** The aperture test of the memory-mapped register window: [true] when
    the access is dropped. *)
Definition outside_aperture (s : tgui_t) (addr : Z) : bool :=
  let sel := Z.land (svga_crtc (svga s) 0x36) 0x03 in
  if sel =? 0x02 then negb (Z.land addr (u32 (Z.lnot 0xff)) =? 0xbff00)
  else if sel =? 0x01 then negb (Z.land addr (u32 (Z.lnot 0xff)) =? 0xb7f00)
  else false.

(** [tgui_accel_write(addr, val, tgui)] *)
Definition tgui_accel_write (fuel : nat) (addr val : Z) (s : tgui_t) : run :=
  if outside_aperture s addr then Done s
  else tgui_accel_out fuel (Z.land addr 0xff + 0x2100) val s.

(** [tgui_accel_write_w(addr, val, tgui)] *)
Definition tgui_accel_write_w (fuel : nat) (addr val : Z) (s : tgui_t) : run :=
  and_then (tgui_accel_write fuel addr val s)
           (tgui_accel_write fuel (u32 (addr + 1)) (Z.shiftr val 8)).

(** [tgui_accel_write_l(addr, val, tgui)] *)
Definition tgui_accel_write_l (fuel : nat) (addr val : Z) (s : tgui_t) : run :=
  if Z.land addr 0xff =? 0x24 then
    (* Long version of Command and ROP together *)
    if outside_aperture s addr then Done s
    else
      let s := upd (Accel.set_command (Z.land val 0xff)) s in
      let s := upd (Accel.set_rop (u8 (Z.shiftr val 24))) s in
      let s := upd (Accel.set_use_src
                      (Z.lxor (Z.land (Z.shiftr val 24) 0x33)
                              (Z.land (Z.shiftr (Z.shiftr val 24) 2) 0x33))) s in
      tgui_accel_command fuel (-1) 0 s
  else
    and_then (tgui_accel_write_w fuel addr (u16 val) s)
             (tgui_accel_write_w fuel (u32 (addr + 2)) (u16 (Z.shiftr val 16))).

(** ** The blitter aperture of the linear framebuffer *)

Section Blitter.

(** The plain framebuffer writes of the SVGA core, taken when the
    blitter is not armed; they belong to the display collaborator. *)
Variable svga_write_linear : Z -> Z -> svga_t -> svga_t.
Variable svga_writew_linear : Z -> Z -> svga_t -> svga_t.
Variable svga_writel_linear : Z -> Z -> svga_t -> svga_t.

(** [tgui_accel_write_fb_b(addr, val, svga)] *)
Definition tgui_accel_write_fb_b (fuel : nat) (addr val : Z) (s : tgui_t) : run :=
  if nz (write_blitter s) then
    tgui_accel_command fuel 8 (u32 (Z.shiftl (u8 val) 24)) s
  else Done (set_svga (svga_write_linear addr (u8 val) (svga s)) s).

(** [tgui_accel_write_fb_w(addr, val, svga)] *)
Definition tgui_accel_write_fb_w (fuel : nat) (addr val : Z) (s : tgui_t) : run :=
  if nz (write_blitter s) then
    tgui_accel_command fuel 16
      (u32 (Z.shiftl (Z.lor (Z.shiftr (Z.land (u16 val) 0xff00) 8)
                            (Z.shiftl (Z.land (u16 val) 0x00ff) 8)) 16)) s
  else Done (set_svga (svga_writew_linear addr (u16 val) (svga s)) s).

(** [tgui_accel_write_fb_l(addr, val, svga)] *)
Definition tgui_accel_write_fb_l (fuel : nat) (addr val : Z) (s : tgui_t) : run :=
  if nz (write_blitter s) then
    tgui_accel_command fuel 32
      (Z.lor (Z.lor (Z.shiftr (Z.land (u32 val) 0xff000000) 24)
                    (Z.shiftr (Z.land (u32 val) 0x00ff0000) 8))
             (Z.lor (Z.shiftl (Z.land (u32 val) 0x0000ff00) 8)
                    (u32 (Z.shiftl (Z.land (u32 val) 0x000000ff) 24)))) s
  else Done (set_svga (svga_writel_linear addr (u32 val) (svga s)) s).

End Blitter.

(** ** Concrete devices *)

(** The accelerator after [memset(tgui, 0, sizeof(tgui_t))]. *)
Definition accel_zero : Accel.t :=
  Accel.mk 0 0 0 0 0 0 0 0 0 0 0 0 0 0 0 0 0 0
           (repeat 0 128) (repeat 0 256) 0 0 0 0
           0 0 0 0 0 0 0 0 0 0 0 0 0 0 0 0 0 0 0
           (repeat 0 64) (repeat 0 64) (repeat 0 64) (repeat 0 64) (repeat 0 64) 0.

(** The device after [tgui_init] for chip [ty] with [memory] megabytes,
    the display programmed to [bpp] bits per pixel and a row offset of
    [rowoffset]; the framebuffer is clear. *)
Definition tgui_init (ty memory bpp rowoffset : Z) : tgui_t :=
  let size := Z.shiftl memory 20 in
  mk_tgui (mk_svga (fun _ => 0) (fun _ => 0) 2 rowoffset bpp
                   (fun i => if (i =? 0x21) && (size =? Z.shiftl 2 20) then 0x10 else 0))
          ty accel_zero size (u32 (size - 1)) 0.

(** A sequence of byte writes to the accelerator ports. *)
Fixpoint outs (fuel : nat) (ws : list (Z * Z)) (s : tgui_t) : run :=
  match ws with
  | [] => Done s
  | (addr, val) :: ws' => and_then (tgui_accel_out fuel addr val s) (outs fuel ws')
  end.

Definition vram_of (r : run) (a : Z) : Z := svga_vram (svga (run_state r)) a.

(** ** Notions used by the properties *)

Definition flow_state (f : flow) : tgui_t :=
  match f with Continue s _ _ => s | Return s => s end.

(** Two bodies, or two runs, proceed alike up to a relation on states. *)
Definition flow_rel (R : tgui_t -> tgui_t -> Prop) (f g : flow) : Prop :=
  match f, g with
  | Continue s c d, Continue t c' d' => R s t /\ c = c' /\ d = d'
  | Return s, Return t => R s t
  | _, _ => False
  end.

Definition run_rel (R : tgui_t -> tgui_t -> Prop) (r q : run) : Prop :=
  match r, q with
  | Done s, Done t => R s t
  | OutOfFuel s, OutOfFuel t => R s t
  | _, _ => False
  end.

Definition run_map (f : tgui_t -> tgui_t) (r : run) : run :=
  match r with Done s => Done (f s) | OutOfFuel s => OutOfFuel (f s) end.

Definition flow_map (f : tgui_t -> tgui_t) (r : flow) : flow :=
  match r with Continue s c d => Continue (f s) c d | Return s => Return (f s) end.

(** The state left by the code of [tgui_accel_command] before its
    [switch]. *)
Definition entry_state (count cpu_dat : Z) (s : tgui_t) : tgui_t :=
  fst (fst (fst (entry count cpu_dat s))).

(** The fields that code writes, cleared: two accelerator states with
    the same [entry_blind] differ at most in [x], [y], the pattern
    cache, [pitch] and [pattern_32_idx]. *)
Definition entry_blind (a : Accel.t) : Accel.t :=
  Accel.set_x 0 (Accel.set_y 0 (Accel.set_pattern_32_idx 0 (Accel.set_pitch 0
    (Accel.set_fill_pattern [] (Accel.set_mono_pattern [] (Accel.set_pattern_8 []
      (Accel.set_pattern_16 [] (Accel.set_pattern_32 [] a)))))))).

(** Step of a compass code (0 to 7): the change of [dx] and of [dy]. *)
Definition compass (oct : Z) : Z * Z :=
  match oct with
  | 0 => (1, 0)
  | 1 => (1, -1)
  | 2 => (0, -1)
  | 3 => (-1, -1)
  | 4 => (-1, 0)
  | 5 => (-1, 1)
  | 6 => (0, 1)
  | 7 => (1, 1)
  | _ => (0, 0)
  end.

(** Membership of a point in the clip rectangle. *)
Definition in_clip (s : tgui_t) (px py : Z) : bool :=
  (px >=? s#Accel.left) && (px <=? s#Accel.right)
  && (py >=? s#Accel.top) && (py <=? s#Accel.bottom).

(** The registers after the long write of command and ROP: the command
    from the low byte of [val], the ROP from its top byte. *)
Definition long_command_regs (val : Z) (s : tgui_t) : tgui_t :=
  upd (fun a => Accel.set_use_src (rop_use_src (u8 (Z.shiftr val 24)))
                  (Accel.set_rop (u8 (Z.shiftr val 24))
                     (Accel.set_command (Z.land val 0xff) a))) s.

(** The same 32 bits written as four bytes at ascending addresses. *)
Definition four_byte_writes (fuel : nat) (addr val : Z) (s : tgui_t) : run :=
  and_then (tgui_accel_out fuel addr val s) (fun s =>
  and_then (tgui_accel_out fuel (addr + 1) (Z.shiftr val 8) s) (fun s =>
  and_then (tgui_accel_out fuel (addr + 2) (Z.shiftr val 16) s)
           (tgui_accel_out fuel (addr + 3) (Z.shiftr val 24)))).

(** An 8 bpp TGUI 9440 programmed for a one-pixel solid fill at the
    origin with colour 0xab, the raster operation still 0. *)
Definition one_pixel_fill : tgui_t :=
  run_state (outs 0 [(0x2122, 0); (0x212c, 0xab); (0x2128, 0x20); (0x2129, 0x40)]
                  (tgui_init TGUI_9440 1 8 128)).

(** [svga->crtc[idx] = val] *)
Definition with_crtc (idx val : Z) (s : tgui_t) : tgui_t :=
  let g := svga s in
  set_svga (mk_svga (svga_vram g) (svga_changedvram g) (svga_mon_changeframecount g)
                    (svga_rowoffset g) (svga_bpp g)
                    (fun i => if i =? idx then val else svga_crtc g i)) s.

(** A sequence of byte writes through the memory-mapped register
    window. *)
Fixpoint mmio_writes (fuel : nat) (ws : list (Z * Z)) (s : tgui_t) : run :=
  match ws with
  | [] => Done s
  | (addr, val) :: ws' => and_then (tgui_accel_write fuel addr val s) (mmio_writes fuel ws')
  end.

(** Register writes (offsets from the base of the register block) for a
    one-pixel line at ([px], [py]) in colour 0xab with the clip
    rectangle [0,5] x [0,5]: raster operation 0xf0, length 0, command
    Bresenham line. *)
Definition dot_program (base px py : Z) : list (Z * Z) :=
  [(base + 0x22, 0); (base + 0x27, 0xf0); (base + 0x2c, 0xab);
   (base + 0x38, px); (base + 0x3a, py);
   (base + 0x48, 0); (base + 0x4a, 0); (base + 0x4c, 5); (base + 0x4e, 5);
   (base + 0x42, 0); (base + 0x24, TGUI_BRESENHAMLINE)].

(** The dot drawn through the accelerator ports of a chip of type [ty],
    8 bpp, pitch 1024. *)
Definition dot_by_ports (ty px py : Z) : run :=
  outs 4 (dot_program 0x2100 px py) (tgui_init ty 1 8 128).

(** The dot drawn through the memory-mapped window at 0xb7f00, the only
    way to the registers of a TGUI 9400CXi. *)
Definition dot_by_mmio (ty px py : Z) : run :=
  mmio_writes 4 (dot_program 0xb7f00 px py)
              (with_crtc 0x36 0x01 (tgui_init ty 1 8 128)).

(** The device with another value in the colour key register. *)
Definition with_ckey (k : Z) (s : tgui_t) : tgui_t := upd (Accel.set_ckey k) s.

(** Width in bits of a pixel of class [bpp], as [READ] and [WRITE]
    select it. *)
Definition pixel_bits (bpp : Z) : Z :=
  if bpp =? 0 then 8 else if bpp =? 1 then 16 else 32.

(** The value [WRITE] stores for [dat] in class [bpp]. *)
Definition pixel_of (bpp dat : Z) : Z :=
  Z.land dat (Z.ones (pixel_bits bpp)).

(** The transform in the words of its description: bits 2-15 of the
    address shifted left by 2; bits 14-17 brought down and folded into
    bits 2-3; the low 2 bits and the bits above 17 as they are. *)
Definition dword_remap_spec (in_addr : Z) : Z :=
  Z.lor (Z.lor (Z.shiftl (Z.land in_addr (Z.shiftl (Z.ones 14) 2)) 2)
               (Z.land (Z.shiftr (Z.land in_addr (Z.shiftl (Z.ones 4) 14)) 14)
                       (Z.shiftl (Z.ones 2) 2)))
        (Z.lor (Z.land in_addr (Z.ones 2))
               (Z.shiftl (Z.shiftr in_addr 18) 18)).

(** Where each bit of the result comes from. *)
Definition dword_remap_source (i : Z) : Z :=
  if i <? 2 then i else if i <? 4 then i + 14 else if i <? 18 then i - 2 else i.


(** The bytes of the framebuffer an access at [addr] touches. *)
Definition access_bytes (s : tgui_t) (addr : Z) : list Z :=
  let i := vram_index s addr in
  if s#Accel.bpp =? 0 then [i]
  else if s#Accel.bpp =? 1 then [2 * i; 2 * i + 1]
  else [4 * i; 4 * i + 1; 4 * i + 2; 4 * i + 3].

(** The framebuffer has a power-of-two size of at least four bytes and
    [vram_mask] is its size mask. *)
Definition vram_ok (s : tgui_t) : Prop :=
  exists k, 2 <= k <= 32 /\ vram_size s = 2 ^ k /\ vram_mask s = vram_size s - 1.

(** [s] has the framebuffer geometry of [s0] and the memory of [s0]
    outside the framebuffer. *)
Definition fb_frame (s0 s : tgui_t) : Prop :=
  vram_size s = vram_size s0 /\ vram_mask s = vram_mask s0
  /\ forall a, ~ (0 <= a < vram_size s0) ->
       svga_vram (svga s) a = svga_vram (svga s0) a.

(** The device with another framebuffer content. *)
Definition with_vram (v : Z -> Z) (s : tgui_t) : tgui_t :=
  set_svga (set_vram v (svga s)) s.

(** The device with another framebuffer content and change tracking. *)
Definition with_fb (v c : Z -> Z) (s : tgui_t) : tgui_t :=
  set_svga (set_changedvram c (set_vram v (svga s))) s.

(** Run of two blits in step, the first from the framebuffer [F], the
    second from [G], same registers, raster operation 0xf0: every byte
    is either the same in both or untouched in both. *)
Definition fb_rel (F G : Z -> Z) (s t : tgui_t) : Prop :=
  exists v c, t = with_fb v c s
    /\ (forall a, svga_vram (svga s) a = v a
                  \/ (svga_vram (svga s) a = F a /\ v a = G a))
    /\ s#Accel.rop = 0xf0.

(** The same, for blits that read their source from the display: the
    transparency test is off. *)
Definition fb_rel_opaque (F G : Z -> Z) (s t : tgui_t) : Prop :=
  fb_rel F G s t /\ nz (Z.land (s#Accel.flags) TGUI_TRANSENA) = false.

(** Progress of a blit: rows and columns left, with [size_x] and
    [size_y] as they are in the registers. *)
Definition blit_measure (s : tgui_t) : nat :=
  Z.to_nat ((Z.max 0 (s#Accel.size_y) - s#Accel.y) * (Z.max 0 (s#Accel.size_x) + 1)
            + (Z.max 0 (s#Accel.size_x) - s#Accel.x)).

Definition blit_inv (s : tgui_t) : Prop :=
  s#Accel.size_x < 0x7fff /\ s#Accel.size_y < 0x7fff
  /\ 0 <= s#Accel.x <= Z.max 0 (s#Accel.size_x)
  /\ 0 <= s#Accel.y <= Z.max 0 (s#Accel.size_y).

(** The blit takes the [default] case of the [switch] on its source:
    the source pixels are read from the display. *)
Definition reads_display (s : tgui_t) : bool :=
  let mode := Z.land (s#Accel.flags) (Z.lor TGUI_SRCMONO TGUI_SRCDISP) in
  negb ((mode =? TGUI_SRCCPU) || (mode =? Z.lor TGUI_SRCMONO TGUI_SRCCPU)).

(** Number of pixels of the rectangle of a blit. *)
Definition blit_pixels (s : tgui_t) : nat :=
  Z.to_nat ((Z.max 0 (s#Accel.size_y) + 1) * (Z.max 0 (s#Accel.size_x) + 1)).

(** The registers of [s] on the framebuffer that [s1] holds: the state
    in which a command is started again after it has run once. *)
Definition restart_on (s1 s : tgui_t) : tgui_t :=
  with_fb (svga_vram (svga s1)) (svga_changedvram (svga s1)) s.

(** A two-pixel solid fill of colour 0xab at bytes 10 and 11 of an
    8 bpp TGUI 9440, raster operation 0xf0, with the source read from
    the display one pixel to the right and the transparency test on
    (transparent colour 0); byte 12 of the framebuffer holds 5. *)
Definition keyed_fill : tgui_t :=
  with_vram (fun a => if a =? 12 then 5 else 0)
    (upd (fun a =>
       Accel.set_command TGUI_BITBLT (Accel.set_rop 0xf0
         (Accel.set_flags (Z.lor TGUI_SOLIDFILL (Z.lor TGUI_TRANSENA TGUI_SRCDISP))
           (Accel.set_fg_col 0xab (Accel.set_dst_x 10 (Accel.set_src_x 11
             (Accel.set_size_x 1 a)))))))
       (tgui_init TGUI_9440 1 8 128)).

(** The same fill with the transparency test off. *)
Definition plain_fill : tgui_t :=
  upd (fun a => Accel.set_flags (Z.lor TGUI_SOLIDFILL TGUI_SRCDISP) a) keyed_fill.

(** A TGUI 9660 in the middle of a vector: at (10, 10), five steps to
    go, the octant code 1 in the top bits of both size registers. *)
Definition vector_heading_ne : tgui_t :=
  upd (fun a => Accel.set_y 5 (Accel.set_dx 10 (Accel.set_dy 10
         (Accel.set_size_y 0x2005 (Accel.set_sv_size_y 0x2005 a)))))
      (tgui_init TGUI_9660 1 8 128).

(** The fast line command written to a TGUI 9440 set up for a solid
    fill. *)
Definition fastline_start : tgui_t :=
  upd (Accel.set_command TGUI_FASTLINE) one_pixel_fill.

(** The same 32 bits written to the armed blitter as two words and as
    four bytes, at ascending addresses. *)
Definition fb_two_words (wr : Z -> Z -> svga_t -> svga_t)
    (fuel : nat) (addr val : Z) (s : tgui_t) : run :=
  and_then (tgui_accel_write_fb_w wr fuel addr val s)
           (tgui_accel_write_fb_w wr fuel (addr + 2) (Z.shiftr val 16)).

Definition fb_four_bytes (wr : Z -> Z -> svga_t -> svga_t)
    (fuel : nat) (addr val : Z) (s : tgui_t) : run :=
  and_then (tgui_accel_write_fb_b wr fuel addr val s) (fun s =>
  and_then (tgui_accel_write_fb_b wr fuel (addr + 1) (Z.shiftr val 8) s) (fun s =>
  and_then (tgui_accel_write_fb_b wr fuel (addr + 2) (Z.shiftr val 16) s)
           (tgui_accel_write_fb_b wr fuel (addr + 3) (Z.shiftr val 24)))).

(** A plain framebuffer write that stores nothing, for devices whose
    blitter is armed. *)
Definition no_linear_write (addr val : Z) (g : svga_t) : svga_t := g.

(** An 8 bpp TGUI 9440 after the start of a CPU-sourced copy (raster
    operation 0xcc) into a rectangle three pixels wide and two rows
    high at the origin: the blitter is armed and waits for data. *)
Definition copy_3x2 : tgui_t :=
  run_state (outs 1 [(0x2127, 0xcc); (0x2140, 2); (0x2142, 1); (0x2124, TGUI_BITBLT)]
                  (with_crtc 0x21 0x20 (tgui_init TGUI_9440 1 8 128))).

(** The same, for a rectangle four pixels wide. *)
Definition copy_4x2 : tgui_t :=
  run_state (outs 1 [(0x2127, 0xcc); (0x2140, 3); (0x2142, 1); (0x2124, TGUI_BITBLT)]
                  (with_crtc 0x21 0x20 (tgui_init TGUI_9440 1 8 128))).

(** The cells a loop nest over an 8 x 8 pattern assigns, in order. *)
Definition cell_writes (idx val : Z -> Z -> Z) : list (Z * Z) :=
  flat_map (fun y => map (fun x => (idx y x, val y x)) [0; 1; 2; 3; 4; 5; 6; 7])
           [0; 1; 2; 3; 4; 5; 6; 7].

Definition apply_writes (ws : list (Z * Z)) (arr : list Z) : list Z :=
  fold_left (fun acc w => aset acc (fst w) (snd w)) ws arr.

(** An assignment to accelerator registers that the pattern cache does
    not depend on: the registers the cache is built from and the cache
    itself are left alone. *)
Definition beside_cache (g : Accel.t -> Accel.t) : Prop :=
  (forall a,
     Accel.flags (g a) = Accel.flags a /\ Accel.fg_col (g a) = Accel.fg_col a
     /\ Accel.bg_col (g a) = Accel.bg_col a /\ Accel.bpp (g a) = Accel.bpp a
     /\ Accel.pattern (g a) = Accel.pattern a
     /\ Accel.pattern_32bpp (g a) = Accel.pattern_32bpp a
     /\ Accel.fill_pattern (g a) = Accel.fill_pattern a
     /\ Accel.mono_pattern (g a) = Accel.mono_pattern a
     /\ Accel.pattern_8 (g a) = Accel.pattern_8 a
     /\ Accel.pattern_16 (g a) = Accel.pattern_16 a
     /\ Accel.pattern_32 (g a) = Accel.pattern_32 a)
  /\ (forall v a, g (Accel.set_fill_pattern v a) = Accel.set_fill_pattern v (g a))
  /\ (forall v a, g (Accel.set_mono_pattern v a) = Accel.set_mono_pattern v (g a))
  /\ (forall v a, g (Accel.set_pattern_8 v a) = Accel.set_pattern_8 v (g a))
  /\ (forall v a, g (Accel.set_pattern_16 v a) = Accel.set_pattern_16 v (g a))
  /\ (forall v a, g (Accel.set_pattern_32 v a) = Accel.set_pattern_32 v (g a)).

(** An assignment that the entry code of a command does not depend on:
    beside the pattern cache, [pitch] and [pattern_32_idx]. *)
Definition beside_entry (g : Accel.t -> Accel.t) : Prop :=
  beside_cache g
  /\ (forall v a, g (Accel.set_pitch v a) = Accel.set_pitch v (g a))
  /\ (forall v a, g (Accel.set_pattern_32_idx v a) = Accel.set_pattern_32_idx v (g a)).

(** The state [s] with the registers the entry code writes ([pitch],
    [pattern_32_idx], the pattern cache) taken from [t]. *)
Definition with_entry_of (t s : tgui_t) : tgui_t :=
  upd (fun a =>
    Accel.set_pitch (t#Accel.pitch) (Accel.set_pattern_32_idx (t#Accel.pattern_32_idx)
      (Accel.set_fill_pattern (t#Accel.fill_pattern)
        (Accel.set_mono_pattern (t#Accel.mono_pattern)
          (Accel.set_pattern_8 (t#Accel.pattern_8)
            (Accel.set_pattern_16 (t#Accel.pattern_16)
              (Accel.set_pattern_32 (t#Accel.pattern_32) a))))))) s.

(** One pixel of a CPU-sourced blit that is not the last of its row:
    the pixel drawn from the source byte [b], then the step in x. *)
Definition cpu_pixel (l : locals) (s : tgui_t) (b : Z) : tgui_t :=
  step_x_cpu l (fst (fst (draw_from_cpu l s 0 (Z.shiftl b 24)))).

(** The last pixel of a chunk, from the source byte [b]: one turn of
    the loop with [count] at 1. *)
Definition cpu_last_pixel (l : locals) (s : tgui_t) (b : Z) : tgui_t :=
  flow_state (bitblt_cpu_body l s 1 (Z.shiftl b 24)).

(** The next [n] + 1 pixels of the row pass the clip test: the chip is
    a TGUI 9440, or a TGUI 9660/9680 with the pixels inside the clip
    rectangle. *)
Definition clip_passes (n : Z) (s : tgui_t) : Prop :=
  type s = TGUI_9440
  \/ (TGUI_9660 <= type s
      /\ -0x8000 <= s#Accel.left /\ s#Accel.right < 0x8000
      /\ s#Accel.left <= s#Accel.dx <= s#Accel.right
      /\ s#Accel.left <= s#Accel.dx + n * entry_xdir s <= s#Accel.right
      /\ s#Accel.top <= s#Accel.dy <= s#Accel.bottom).

(** An 8 bpp CPU-sourced blit waits for data, with at least [n] + 1
    pixels left in the current row, all passing the clip test. *)
Definition streaming (n : Z) (s : tgui_t) : Prop :=
  s#Accel.command = TGUI_BITBLT
  /\ Z.land (s#Accel.flags) (Z.lor TGUI_SRCMONO TGUI_SRCDISP) = TGUI_SRCCPU
  /\ s#Accel.bpp = 0
  /\ nz (write_blitter s) = true
  /\ 0 <= s#Accel.x /\ s#Accel.x + n <= s#Accel.size_x /\ s#Accel.size_x < 0x8000
  /\ clip_passes n s.

(** A streaming blit between two calls: the registers of the entry
    code are as the next call would leave them, and its locals are
    [l]. *)
Definition settled (n : Z) (l : locals) (s : tgui_t) : Prop :=
  entry_regs s = s /\ entry_locals s = l /\ streaming n s.

(** ** Notions used by further properties *)

(** Row of the truth table of a ternary raster operation that the bits
    [d] (destination), [p] (pattern) and [s] (source) select. *)
Definition rop_index (d p s : bool) : Z := 4 * Z.b2z p + 2 * Z.b2z s + Z.b2z d.

(** The register ports that store the byte written and give it back:
    control word, ROP, flags, colours, pattern location, destination,
    the low bytes of source and size, style, clip rectangle and colour
    key. *)
Definition byte_ports : list Z :=
  [0x2122; 0x2123; 0x2127; 0x2128; 0x2129; 0x212a; 0x212b;
   0x212c; 0x212d; 0x212e; 0x212f; 0x2130; 0x2131; 0x2132; 0x2133;
   0x2134; 0x2135; 0x2138; 0x2139; 0x213a; 0x213b;
   0x213c; 0x213e; 0x2140; 0x2142;
   0x2144; 0x2145; 0x2146; 0x2147;
   0x2148; 0x2149; 0x214a; 0x214b; 0x214c; 0x214d; 0x214e; 0x214f;
   0x2168; 0x2169; 0x216a; 0x216b;
   0x2178; 0x2179; 0x217a; 0x217b; 0x217c; 0x217d; 0x217e; 0x217f].

(** The ports of the registers written and read back whole as a long:
    foreground and background colour (under both of their addresses),
    style and colour key. *)
Definition long_ports : list Z := [0x212c; 0x2130; 0x2144; 0x2168; 0x2178; 0x217c].

(** The value of a 14-bit two's complement field. *)
Definition signed14 (z : Z) : Z :=
  let v := Z.land z 0x3fff in if v <? 0x2000 then v else v - 0x4000.

(** The 32-bit register behind a port. *)
Definition long_register (p : Z) (a : Accel.t) : Z :=
  match p with
  | 0x2128 => Accel.flags a
  | 0x212c | 0x2178 => Accel.fg_col a
  | 0x2130 | 0x217c => Accel.bg_col a
  | 0x2144 => Accel.style a
  | 0x2168 => Accel.ckey a
  | _ => 0
  end.

(** A call that returns, the display state and the blitter flag being
    those of [s]. *)
Definition quiet (s : tgui_t) (r : run) : Prop :=
  match r with
  | Done s' => svga s' = svga s /\ write_blitter s' = write_blitter s
  | OutOfFuel _ => False
  end.

(** The command codes the engine knows. *)
Definition command_codes : list Z :=
  [TGUI_BITBLT; TGUI_SCANLINE; TGUI_BRESENHAMLINE; TGUI_SHORTVECTOR; TGUI_FASTLINE].

(** The three line commands. *)
Definition line_commands : list Z :=
  [TGUI_BRESENHAMLINE; TGUI_SHORTVECTOR; TGUI_FASTLINE].

(** The count a line command starts from, as the unsigned 16-bit
    number its countdown runs through: the low 12 bits of the saved
    height for the short vector, the height for the other two. *)
Definition line_length (s : tgui_t) : Z :=
  if s#Accel.command =? TGUI_SHORTVECTOR
  then Z.land (s#Accel.sv_size_y) 0xfff
  else (s#Accel.size_y) mod 0x10000.

(** The countdown of a line command is a 16-bit signed number; what is
    left of it, read as unsigned. *)
Definition line_inv (s : tgui_t) : Prop := -0x8000 <= s#Accel.y < 0x8000.

Definition line_measure (s : tgui_t) : nat := Z.to_nat ((s#Accel.y) mod 0x10000).

(** Progress of the scanline command along its row. *)
Definition scan_inv (s : tgui_t) : Prop :=
  s#Accel.size_x < 0x7fff /\ 0 <= s#Accel.x <= Z.max 0 (s#Accel.size_x).

Definition scan_measure (s : tgui_t) : nat :=
  Z.to_nat (Z.max 0 (s#Accel.size_x) - s#Accel.x).

(** ** Reading the registers back *)

(** [tgui_accel_in(addr, tgui)]; the result is a [uint8_t]. *)
Definition tgui_accel_in (addr : Z) (s : tgui_t) : Z :=
  let addr := u16 addr in
  match addr with
  | 0x2120 => 0
  | 0x2122 => u8 (Z.land (s#Accel.ger22) 0xff)
  | 0x2123 => u8 (Z.shiftr (s#Accel.ger22) 8)
  | 0x2127 => u8 (s#Accel.rop)
  | 0x2128 => u8 (Z.land (s#Accel.flags) 0xff)
  | 0x2129 => u8 (Z.shiftr (s#Accel.flags) 8)
  | 0x212a => u8 (Z.shiftr (s#Accel.flags) 16)
  | 0x212b => u8 (Z.shiftr (s#Accel.flags) 24)
  | 0x212c | 0x2178 => u8 (Z.land (s#Accel.fg_col) 0xff)
  | 0x212d | 0x2179 => u8 (Z.shiftr (s#Accel.fg_col) 8)
  | 0x212e | 0x217a => u8 (Z.shiftr (s#Accel.fg_col) 16)
  | 0x212f | 0x217b => u8 (Z.shiftr (s#Accel.fg_col) 24)
  | 0x2130 | 0x217c => u8 (Z.land (s#Accel.bg_col) 0xff)
  | 0x2131 | 0x217d => u8 (Z.shiftr (s#Accel.bg_col) 8)
  | 0x2132 | 0x217e => u8 (Z.shiftr (s#Accel.bg_col) 16)
  | 0x2133 | 0x217f => u8 (Z.shiftr (s#Accel.bg_col) 24)
  | 0x2134 => u8 (Z.land (s#Accel.patloc) 0xff)
  | 0x2135 => u8 (Z.shiftr (s#Accel.patloc) 8)
  | 0x2138 => u8 (Z.land (s#Accel.dst_x) 0xff)
  | 0x2139 => u8 (Z.shiftr (s#Accel.dst_x) 8)
  | 0x213a => u8 (Z.land (s#Accel.dst_y) 0xff)
  | 0x213b => u8 (Z.shiftr (s#Accel.dst_y) 8)
  | 0x213c => u8 (Z.land (s#Accel.src_x) 0xff)
  | 0x213d => u8 (Z.shiftr (s#Accel.src_x) 8)
  | 0x213e => u8 (Z.land (s#Accel.src_y) 0xff)
  | 0x213f => u8 (Z.shiftr (s#Accel.src_y) 8)
  | 0x2140 => u8 (Z.land (s#Accel.size_x) 0xff)
  | 0x2141 => u8 (Z.shiftr (s#Accel.size_x) 8)
  | 0x2142 => u8 (Z.land (s#Accel.size_y) 0xff)
  | 0x2143 => u8 (Z.shiftr (s#Accel.size_y) 8)
  | 0x2144 => u8 (Z.land (s#Accel.style) 0xff)
  | 0x2145 => u8 (Z.shiftr (s#Accel.style) 8)
  | 0x2146 => u8 (Z.shiftr (s#Accel.style) 16)
  | 0x2147 => u8 (Z.shiftr (s#Accel.style) 24)
  | 0x2148 => u8 (Z.land (s#Accel.src_x_clip) 0xff)
  | 0x2149 => u8 (Z.shiftr (s#Accel.src_x_clip) 8)
  | 0x214a => u8 (Z.land (s#Accel.src_y_clip) 0xff)
  | 0x214b => u8 (Z.shiftr (s#Accel.src_y_clip) 8)
  | 0x214c => u8 (Z.land (s#Accel.dst_x_clip) 0xff)
  | 0x214d => u8 (Z.shiftr (s#Accel.dst_x_clip) 8)
  | 0x214e => u8 (Z.land (s#Accel.dst_y_clip) 0xff)
  | 0x214f => u8 (Z.shiftr (s#Accel.dst_y_clip) 8)
  | 0x2168 => u8 (Z.land (s#Accel.ckey) 0xff)
  | 0x2169 => u8 (Z.shiftr (s#Accel.ckey) 8)
  | 0x216a => u8 (Z.shiftr (s#Accel.ckey) 16)
  | 0x216b => u8 (Z.shiftr (s#Accel.ckey) 24)
  | _ =>
      if (0x2180 <=? addr) && (addr <=? 0x21ff) then
        (* the pattern bytes, 0x2180 to 0x21ff *)
        u8 (aget (s#Accel.pattern) (Z.land addr 0x7f))
      else 0
  end.

(** [tgui_accel_in_w(addr, tgui)] *)
Definition tgui_accel_in_w (addr : Z) (s : tgui_t) : Z :=
  u16 (Z.lor (tgui_accel_in addr s) (Z.shiftl (tgui_accel_in (addr + 1) s) 8)).

(** [tgui_accel_in_l(addr, tgui)] *)
Definition tgui_accel_in_l (addr : Z) (s : tgui_t) : Z :=
  u32 (Z.lor (tgui_accel_in_w addr s) (Z.shiftl (tgui_accel_in_w (addr + 2) s) 16)).

(** [tgui_accel_read(addr, tgui)]: the registers read through the
    memory-mapped window. *)
Definition tgui_accel_read (addr : Z) (s : tgui_t) : Z :=
  if outside_aperture s addr then 0xff
  else
    match Z.land addr 0xff with
    | 0x20 => 0
    | 0x22 => u8 (Z.land (s#Accel.ger22) 0xff)
    | 0x23 => u8 (Z.shiftr (s#Accel.ger22) 8)
    | 0x27 => u8 (s#Accel.rop)
    | 0x28 => u8 (Z.land (s#Accel.flags) 0xff)
    | 0x29 => u8 (Z.shiftr (s#Accel.flags) 8)
    | 0x2a => u8 (Z.shiftr (s#Accel.flags) 16)
    | 0x2b => u8 (Z.shiftr (s#Accel.flags) 24)
    | 0x2c | 0x78 => u8 (Z.land (s#Accel.fg_col) 0xff)
    | 0x2d | 0x79 => u8 (Z.shiftr (s#Accel.fg_col) 8)
    | 0x2e | 0x7a => u8 (Z.shiftr (s#Accel.fg_col) 16)
    | 0x2f | 0x7b => u8 (Z.shiftr (s#Accel.fg_col) 24)
    | 0x30 | 0x7c => u8 (Z.land (s#Accel.bg_col) 0xff)
    | 0x31 | 0x7d => u8 (Z.shiftr (s#Accel.bg_col) 8)
    | 0x32 | 0x7e => u8 (Z.shiftr (s#Accel.bg_col) 16)
    | 0x33 | 0x7f => u8 (Z.shiftr (s#Accel.bg_col) 24)
    | 0x34 => u8 (Z.land (s#Accel.patloc) 0xff)
    | 0x35 => u8 (Z.shiftr (s#Accel.patloc) 8)
    | 0x38 => u8 (Z.land (s#Accel.dst_x) 0xff)
    | 0x39 => u8 (Z.shiftr (s#Accel.dst_x) 8)
    | 0x3a => u8 (Z.land (s#Accel.dst_y) 0xff)
    | 0x3b => u8 (Z.shiftr (s#Accel.dst_y) 8)
    | 0x3c => u8 (Z.land (s#Accel.src_x) 0xff)
    | 0x3d => u8 (Z.shiftr (s#Accel.src_x) 8)
    | 0x3e => u8 (Z.land (s#Accel.src_y) 0xff)
    | 0x3f => u8 (Z.shiftr (s#Accel.src_y) 8)
    | 0x40 => u8 (Z.land (s#Accel.size_x) 0xff)
    | 0x41 => u8 (Z.shiftr (s#Accel.size_x) 8)
    | 0x42 => u8 (Z.land (s#Accel.size_y) 0xff)
    | 0x43 => u8 (Z.shiftr (s#Accel.size_y) 8)
    | 0x44 => u8 (Z.land (s#Accel.style) 0xff)
    | 0x45 => u8 (Z.shiftr (s#Accel.style) 8)
    | 0x46 => u8 (Z.shiftr (s#Accel.style) 16)
    | 0x47 => u8 (Z.shiftr (s#Accel.style) 24)
    | 0x48 => u8 (Z.land (s#Accel.src_x_clip) 0xff)
    | 0x49 => u8 (Z.shiftr (s#Accel.src_x_clip) 8)
    | 0x4a => u8 (Z.land (s#Accel.src_y_clip) 0xff)
    | 0x4b => u8 (Z.shiftr (s#Accel.src_y_clip) 8)
    | 0x4c => u8 (Z.land (s#Accel.dst_x_clip) 0xff)
    | 0x4d => u8 (Z.shiftr (s#Accel.dst_x_clip) 8)
    | 0x4e => u8 (Z.land (s#Accel.dst_y_clip) 0xff)
    | 0x4f => u8 (Z.shiftr (s#Accel.dst_y_clip) 8)
    | 0x68 => u8 (Z.land (s#Accel.ckey) 0xff)
    | 0x69 => u8 (Z.shiftr (s#Accel.ckey) 8)
    | 0x6a => u8 (Z.shiftr (s#Accel.ckey) 16)
    | 0x6b => u8 (Z.shiftr (s#Accel.ckey) 24)
    | _ =>
        if 0x80 <=? Z.land addr 0xff then
          (* the pattern bytes, 0x80 to 0xff *)
          u8 (aget (s#Accel.pattern) (Z.land addr 0x7f))
        else 0xff
    end.

(** [tgui_accel_read_w(addr, tgui)] *)
Definition tgui_accel_read_w (addr : Z) (s : tgui_t) : Z :=
  u16 (Z.lor (tgui_accel_read addr s)
             (Z.shiftl (tgui_accel_read (u32 (addr + 1)) s) 8)).

(** [tgui_accel_read_l(addr, tgui)] *)
Definition tgui_accel_read_l (addr : Z) (s : tgui_t) : Z :=
  u32 (Z.lor (tgui_accel_read_w addr s)
             (Z.shiftl (tgui_accel_read_w (u32 (addr + 2)) s) 16)).

(** ** The memory-mapped I/O window *)

Section Mmio.

(** The port handlers of the VGA core, reached for the addresses that
    are not the accelerator's; they belong to the display
    collaborator. *)
Variable tgui_out : Z -> Z -> tgui_t -> tgui_t.
Variable tgui_in : Z -> tgui_t -> Z * tgui_t.

(** [tgui_mmio_write(addr, val, tgui)] *)
Definition tgui_mmio_write (fuel : nat) (addr val : Z) (s : tgui_t) : run :=
  let addr := Z.land addr 0x0000ffff in
  let sel := Z.land (svga_crtc (svga s) 0x36) 0x03 in
  if (sel =? 0x00) && ((addr >=? 0x2100) && (addr <=? 0x21ff)) then
    tgui_accel_out fuel addr val s
  else if (sel >? 0x00) && (addr <=? 0xff) then
    tgui_accel_write fuel addr val s
  else Done (tgui_out (u16 addr) (u8 val) s).

(** [tgui_mmio_write_w(addr, val, tgui)] *)
Definition tgui_mmio_write_w (fuel : nat) (addr val : Z) (s : tgui_t) : run :=
  let addr := Z.land addr 0x0000ffff in
  let sel := Z.land (svga_crtc (svga s) 0x36) 0x03 in
  if (sel =? 0x00) && ((addr >=? 0x2100) && (addr <=? 0x21ff)) then
    tgui_accel_out_w fuel addr val s
  else if (sel >? 0x00) && (addr <=? 0xff) then
    tgui_accel_write_w fuel addr val s
  else
    Done (tgui_out (u16 (addr + 1)) (u8 (Z.shiftr val 8))
            (tgui_out (u16 addr) (u8 (Z.land val 0xff)) s)).

(** [tgui_mmio_write_l(addr, val, tgui)] *)
Definition tgui_mmio_write_l (fuel : nat) (addr val : Z) (s : tgui_t) : run :=
  let addr := Z.land addr 0x0000ffff in
  let sel := Z.land (svga_crtc (svga s) 0x36) 0x03 in
  if (sel =? 0x00) && ((addr >=? 0x2100) && (addr <=? 0x21ff)) then
    tgui_accel_out_l fuel addr val s
  else if (sel >? 0x00) && (addr <=? 0xff) then
    tgui_accel_write_l fuel addr val s
  else
    Done (tgui_out (u16 (addr + 3)) (u8 (Z.shiftr val 24))
            (tgui_out (u16 (addr + 2)) (u8 (Z.shiftr val 16))
               (tgui_out (u16 (addr + 1)) (u8 (Z.shiftr val 8))
                  (tgui_out (u16 addr) (u8 (Z.land val 0xff)) s)))).

(** [tgui_mmio_read(addr, tgui)]: the byte read and the state after
    the read (a read of a VGA port may change the state of the
    core). *)
Definition tgui_mmio_read (addr : Z) (s : tgui_t) : Z * tgui_t :=
  let addr := Z.land addr 0x0000ffff in
  let sel := Z.land (svga_crtc (svga s) 0x36) 0x03 in
  if (sel =? 0x00) && ((addr >=? 0x2100) && (addr <=? 0x21ff)) then
    (tgui_accel_in addr s, s)
  else if (sel >? 0x00) && (addr <=? 0xff) then
    (tgui_accel_read addr s, s)
  else (u8 (fst (tgui_in (u16 addr) s)), snd (tgui_in (u16 addr) s)).

End Mmio.

(** The offsets of the register window that [tgui_accel_read] decodes:
    those of the readable ports, and the pattern bytes. *)
Definition window_readable (off : Z) : bool :=
  existsb (Z.eqb (0x2100 + off))
          (0x2120 :: 0x213d :: 0x213f :: 0x2141 :: 0x2143 :: byte_ports)
  || (0x80 <=? off).

(** ** Expanded writes and the copy latch (TGUI 9400CXi) *)

Definition EXT_CTRL_16BIT : Z := 0x01.
Definition EXT_CTRL_MONO_EXPANSION : Z := 0x02.
Definition EXT_CTRL_MONO_TRANSPARENT : Z := 0x04.
Definition EXT_CTRL_LATCH_COPY : Z := 0x08.

(** What the expanded accesses read of the display core besides the
    framebuffer, and the copy latch of the chip ([uint8_t copy_latch[16]]). *)
Record ext_t : Type := mk_ext {
  gdcreg : Z -> Z;
  decode_mask : Z;
  vram_max : Z;
  svga_vram_mask : Z;
  banked_mask : Z;
  read_bank : Z;
  write_bank : Z;
  copy_latch : list Z
}.

Definition set_copy_latch (l : list Z) (e : ext_t) : ext_t :=
  mk_ext (gdcreg e) (decode_mask e) (vram_max e) (svga_vram_mask e)
         (banked_mask e) (read_bank e) (write_bank e) l.

(** [svga->gdcreg[r]], a [uint8_t]. *)
Definition gdc (e : ext_t) (r : Z) : Z := u8 (gdcreg e r).

(** [((i & 3) == 3) ? 0x0d : 0x01] *)
Definition ext_step (i : Z) : Z := if Z.land i 3 =? 3 then 0x0d else 0x01.

(** [for (i = 0; i < n; i++)] *)
Definition for_n {A : Type} (n : nat) (f : Z -> A -> A) (a : A) : A :=
  fold_left (fun acc i => f i acc) (map Z.of_nat (seq 0 n)) a.

(** The loop of [tgui_ext_linear_read]: the latch and the address after
    [n] rounds. *)
Definition ext_fill (n : nat) (v : Z -> Z) (latch : list Z) (addr : Z) : list Z * Z :=
  for_n n (fun i acc =>
             (aset (fst acc) i (rd8 v (snd acc)),
              u32 (snd acc + ext_step i)))
        (latch, addr).

(** [tgui_ext_linear_read(addr, svga)]: the byte read and the device
    with the latch filled. *)
Definition tgui_ext_linear_read (e : ext_t) (addr : Z) (g : svga_t) : Z * ext_t :=
  let addr := Z.land (u32 addr) (decode_mask e) in
  if addr >=? vram_max e then (0xff, e)
  else
    let addr := Z.land addr (svga_vram_mask e) in
    let addr := Z.land addr (u32 (Z.lnot 0x0f)) in
    let addr := dword_remap addr in
    let '(latch, addr) := ext_fill 16 (svga_vram g) (copy_latch e) addr in
    let addr := Z.land addr (svga_vram_mask e) in
    (rd8 (svga_vram g) addr, set_copy_latch latch e).

(** [tgui_ext_read(addr, svga)] *)
Definition tgui_ext_read (e : ext_t) (addr : Z) (g : svga_t) : Z * ext_t :=
  tgui_ext_linear_read e (u32 (Z.land (u32 addr) (banked_mask e) + read_bank e)) g.

(** One loop of the expanded writes: [pixel i] is the byte stored in
    round [i], if one is; then [addr += ...; addr &= svga->vram_mask]. *)
Definition ext_loop (n : nat) (mask : Z) (pixel : Z -> option Z)
    (v : Z -> Z) (addr : Z) : (Z -> Z) * Z :=
  for_n n (fun i acc =>
             (match pixel i with
              | Some b => wr8 (fst acc) (snd acc) b
              | None => fst acc
              end,
              Z.land (u32 (snd acc + ext_step i)) mask))
        (v, addr).

(** The five loops of an expanded write of [n] bits, the top bit of the
    data being [top], chosen by the extended control register. *)
Definition ext_loops (e : ext_t) (n : nat) (top mask val : Z)
    (v : Z -> Z) (addr : Z) : (Z -> Z) * Z :=
  let bpp := Z.land (gdc e 0x10) EXT_CTRL_16BIT in
  let fg := [gdc e 0x14; gdc e 0x15] in
  let bg := [gdc e 0x11; gdc e 0x12] in
  if nz (Z.land (gdc e 0x10) EXT_CTRL_LATCH_COPY) then
    ext_loop n (svga_vram_mask e)
      (fun i => if nz (Z.land val (Z.shiftr top i))
                then Some (aget (copy_latch e) i) else None) v addr
  else if nz (Z.land (gdc e 0x10) EXT_CTRL_MONO_TRANSPARENT) then
    if nz bpp then
      ext_loop n (svga_vram_mask e)
        (fun i => if nz (Z.land val (Z.shiftr top i))
                  then Some (aget fg (Z.land i 1)) else None) v addr
    else
      ext_loop n (svga_vram_mask e)
        (fun i => if nz (Z.land val (Z.shiftr top i))
                  then Some (aget fg 0) else None) v addr
  else
    if nz bpp then
      ext_loop n (svga_vram_mask e)
        (fun i => if nz (Z.land val (Z.shiftr top i)) then
                    if nz (Z.land mask (Z.shiftr top i))
                    then Some (aget fg (Z.land i 1)) else None
                  else
                    if nz (Z.land mask (Z.shiftr top i))
                    then Some (aget bg (Z.land i 1)) else None) v addr
    else
      ext_loop n (svga_vram_mask e)
        (fun i => if nz (Z.land val (Z.shiftr top i)) then
                    if nz (Z.land mask (Z.shiftr top i))
                    then Some (aget fg 0) else None
                  else
                    if nz (Z.land mask (Z.shiftr top i))
                    then Some (aget bg 0) else None) v addr.

(** [svga->changedvram[addr >> 12] = svga->monitor->mon_changeframecount] *)
Definition ext_mark_changed (addr : Z) (g : svga_t) : svga_t :=
  set_changedvram (fun a => if a =? Z.shiftr addr 12
                            then svga_mon_changeframecount g
                            else svga_changedvram g a) g.

(** [tgui_ext_linear_write(addr, val, svga)] *)
Definition tgui_ext_linear_write (e : ext_t) (addr val : Z) (g : svga_t) : svga_t :=
  let val := u8 val in
  let addr := Z.land (u32 addr) (decode_mask e) in
  if addr >=? vram_max e then g
  else
    let addr := Z.land addr (svga_vram_mask e) in
    let addr := Z.land addr (if nz (Z.land (gdc e 0x10) EXT_CTRL_LATCH_COPY)
                             then u32 (Z.lnot 0x0f) else u32 (Z.lnot 0x07)) in
    let addr := dword_remap addr in
    let g := ext_mark_changed addr g in
    set_vram (fst (ext_loops e 8 0x80 (gdc e 0x17) val (svga_vram g) addr)) g.

(** [tgui_ext_linear_writew(addr, val, svga)] *)
Definition tgui_ext_linear_writew (e : ext_t) (addr val : Z) (g : svga_t) : svga_t :=
  let val := u16 val in
  let mask := u16 (Z.lor (gdc e 0x18) (Z.shiftl (gdc e 0x17) 8)) in
  let addr := Z.land (u32 addr) (decode_mask e) in
  if addr >=? vram_max e then g
  else
    let addr := Z.land addr (svga_vram_mask e) in
    let addr := Z.land addr (u32 (Z.lnot 0x0f)) in
    let addr := dword_remap addr in
    let g := ext_mark_changed addr g in
    let val := u16 (Z.lor (Z.shiftr val 8) (Z.shiftl val 8)) in
    set_vram (fst (ext_loops e 16 0x8000 mask val (svga_vram g) addr)) g.

(** [tgui_ext_linear_writel(addr, val, svga)]: the data is cut to 16
    bits by the call. *)
Definition tgui_ext_linear_writel (e : ext_t) (addr val : Z) (g : svga_t) : svga_t :=
  tgui_ext_linear_writew e addr (u32 val) g.

(** [tgui_ext_write(addr, val, svga)] and its wider variants. *)
Definition tgui_ext_write (e : ext_t) (addr val : Z) (g : svga_t) : svga_t :=
  tgui_ext_linear_write e (u32 (Z.land (u32 addr) (banked_mask e) + write_bank e)) val g.
Definition tgui_ext_writew (e : ext_t) (addr val : Z) (g : svga_t) : svga_t :=
  tgui_ext_linear_writew e (u32 (Z.land (u32 addr) (banked_mask e) + write_bank e)) val g.
Definition tgui_ext_writel (e : ext_t) (addr val : Z) (g : svga_t) : svga_t :=
  tgui_ext_linear_writel e (u32 (Z.land (u32 addr) (banked_mask e) + write_bank e)) val g.

(** *** What the expanded accesses are compared with *)

(** The base of an expanded access: the address decoded, masked and
    aligned to [2 ^ k] bytes, before the remapping. *)
Definition ext_base (e : ext_t) (k addr : Z) : Z :=
  Z.land (Z.land (Z.land (u32 addr) (decode_mask e)) (svga_vram_mask e))
         (u32 (Z.lnot (Z.ones k))).

(** The alignment of a byte write: 16 bytes under latch copy, 8
    otherwise. *)
Definition ext_align (e : ext_t) : Z :=
  if nz (Z.land (gdc e 0x10) EXT_CTRL_LATCH_COPY) then 4 else 3.

(** Bit [i] of the data, counted from its top bit [top]. *)
Definition ext_bit (top val i : Z) : bool := nz (Z.land val (Z.shiftr top i)).

(** The byte stored for bit [i] of the data, by the mode in the
    extended control register. *)
Definition ext_pixel (e : ext_t) (top mask val : Z) (i : Z) : option Z :=
  let wide := nz (Z.land (gdc e 0x10) EXT_CTRL_16BIT) in
  let fg := if wide && negb (Z.land i 1 =? 0) then gdc e 0x15 else gdc e 0x14 in
  let bg := if wide && negb (Z.land i 1 =? 0) then gdc e 0x12 else gdc e 0x11 in
  if nz (Z.land (gdc e 0x10) EXT_CTRL_LATCH_COPY) then
    if ext_bit top val i then Some (aget (copy_latch e) i) else None
  else if nz (Z.land (gdc e 0x10) EXT_CTRL_MONO_TRANSPARENT) then
    if ext_bit top val i then Some fg else None
  else
    if ext_bit top mask i then Some (if ext_bit top val i then fg else bg)
    else None.

(** The expanded write as its effect on the framebuffer: the byte for
    bit [i] goes to the remapped address of byte [i] after the base. *)
Definition ext_write_spec (n : nat) (pixel : Z -> option Z) (base : Z)
    (v : Z -> Z) : Z -> Z :=
  for_n n (fun i v => match pixel i with
                      | Some b => wr8 v (dword_remap (base + i)) b
                      | None => v
                      end) v.

(** The display core with a framebuffer of [2 ^ m] bytes. *)
Definition ext_ok (e : ext_t) (m : Z) : Prop :=
  18 <= m <= 32 /\ svga_vram_mask e = 2 ^ m - 1.

(** The access is decoded into the framebuffer. *)
Definition ext_decoded (e : ext_t) (addr : Z) : Prop :=
  Z.land (u32 addr) (decode_mask e) < vram_max e.

(** The data of a word write as its bits are used: the two bytes
    exchanged. *)
Definition ext_word (val : Z) : Z :=
  u16 (Z.lor (Z.shiftr (u16 val) 8) (Z.shiftl (u16 val) 8)).

(** The write mask of a word write. *)
Definition ext_word_mask (e : ext_t) : Z :=
  u16 (Z.lor (gdc e 0x18) (Z.shiftl (gdc e 0x17) 8)).

(** A 2 MB card with the extended control register holding [ctrl],
    foreground 0xaa, background 0x55, every bit of the write masks set
    and the latch cleared. *)
Definition ext_card (ctrl : Z) : ext_t :=
  mk_ext (fun r => if r =? 0x10 then ctrl
                   else if (r =? 0x14) || (r =? 0x15) then 0xaa
                   else if (r =? 0x11) || (r =? 0x12) then 0x55
                   else 0xff)
         0x1fffff 0x200000 0x1fffff 0xffff 0 0 (repeat 0 16).

(** The transform back: bits 4-17 down by 2, bits 2-3 up to bits
    16-17. *)
Definition dword_unmap (a : Z) : Z :=
  Z.lor (Z.lor (Z.land a 3) (Z.shiftl (Z.land (Z.shiftr a 2) 3) 16))
        (Z.lor (Z.shiftl (Z.land (Z.shiftr a 4) (Z.ones 14)) 2)
               (Z.shiftl (Z.shiftr a 18) 18)).

(** * Properties *)

(** ** Bit-level reasoning *)

(** Closed range goals [lo <= c < hi], by evaluation. *)
Ltac in_range := split; [apply Z.leb_le | apply Z.ltb_lt]; reflexivity.

Lemma testbit_ones (n i : Z) :
  0 <= n -> 0 <= i -> Z.testbit (Z.ones n) i = (i <? n).
Proof. intros Hn Hi. apply Z.testbit_ones_nonneg; assumption. Qed.

Lemma testbit_small (n a i : Z) :
  0 <= a < 2 ^ n -> n <= i -> Z.testbit a i = false.
Proof.
  intros Ha Hi.
  destruct (Z.eq_dec a 0) as [->|Hne]; [apply Z.bits_0|].
  apply Z.bits_above_log2; [lia|].
  assert (Z.log2 a < n); [|lia].
  apply Z.log2_lt_pow2; lia.
Qed.

Lemma land_ones_small (n a : Z) :
  0 <= n -> 0 <= a < 2 ^ n -> Z.land a (Z.ones n) = a.
Proof.
  intros Hn Ha. rewrite Z.land_ones by assumption. apply Z.mod_small; assumption.
Qed.

Lemma land_ones_range (n a : Z) : 0 <= n -> 0 <= Z.land a (Z.ones n) < 2 ^ n.
Proof.
  intros Hn. rewrite Z.land_ones by assumption. apply Z.mod_pos_bound. lia.
Qed.

Lemma u8_range (z : Z) : 0 <= u8 z < 2 ^ 8.
Proof. apply (land_ones_range 8). lia. Qed.

Lemma u16_range (z : Z) : 0 <= u16 z < 2 ^ 16.
Proof. apply (land_ones_range 16). lia. Qed.

Lemma u32_range (z : Z) : 0 <= u32 z < 2 ^ 32.
Proof. apply (land_ones_range 32). lia. Qed.

Lemma u32_small (z : Z) : 0 <= z < 2 ^ 32 -> u32 z = z.
Proof. apply (land_ones_small 32). lia. Qed.

(** Bitwise operations stay within [n] bits. *)
Lemma range_of_bits (n a : Z) :
  0 <= n -> 0 <= a -> (forall i, n <= i -> Z.testbit a i = false) -> a < 2 ^ n.
Proof.
  intros Hn Ha Hhigh.
  assert (E : Z.land a (Z.ones n) = a).
  { apply Z.bits_inj'. intros i Hi.
    rewrite Z.land_spec, testbit_ones by assumption.
    destruct (Z.ltb_spec i n) as [Hlt|Hge].
    - apply andb_true_r.
    - rewrite (Hhigh i Hge). reflexivity. }
  rewrite <- E. apply land_ones_range. assumption.
Qed.

Lemma lxor_range (n a b : Z) :
  0 <= n -> 0 <= a < 2 ^ n -> 0 <= b < 2 ^ n -> 0 <= Z.lxor a b < 2 ^ n.
Proof.
  intros Hn Ha Hb.
  assert (Hnn : 0 <= Z.lxor a b) by (apply Z.lxor_nonneg; lia).
  split; [assumption|].
  apply range_of_bits; [assumption..|].
  intros i Hi. rewrite Z.lxor_spec.
  rewrite (testbit_small n a i), (testbit_small n b i) by assumption.
  reflexivity.
Qed.

Lemma lor_range (n a b : Z) :
  0 <= n -> 0 <= a < 2 ^ n -> 0 <= b < 2 ^ n -> 0 <= Z.lor a b < 2 ^ n.
Proof.
  intros Hn Ha Hb.
  assert (Hnn : 0 <= Z.lor a b) by (apply Z.lor_nonneg; lia).
  split; [assumption|].
  apply range_of_bits; [assumption..|].
  intros i Hi. rewrite Z.lor_spec.
  rewrite (testbit_small n a i), (testbit_small n b i) by assumption.
  reflexivity.
Qed.

Lemma land_range (n a b : Z) :
  0 <= n -> 0 <= a < 2 ^ n -> 0 <= Z.land a b < 2 ^ n.
Proof.
  intros Hn Ha.
  assert (Hnn : 0 <= Z.land a b) by (apply Z.land_nonneg; lia).
  split; [assumption|].
  apply range_of_bits; [assumption..|].
  intros i Hi. rewrite Z.land_spec.
  rewrite (testbit_small n a i) by assumption.
  reflexivity.
Qed.

(** ** The raster-operation unit *)

Lemma pixel_bits_pos (bpp : Z) : 0 < pixel_bits bpp <= 32.
Proof. unfold pixel_bits. destruct (bpp =? 0), (bpp =? 1); lia. Qed.

Lemma pixel_of_small (bpp v : Z) :
  0 <= v < 2 ^ pixel_bits bpp -> pixel_of bpp v = v.
Proof.
  intros Hv. apply land_ones_small; [|assumption].
  pose proof (pixel_bits_pos bpp). lia.
Qed.

Lemma pixel_of_all_ones (bpp : Z) :
  pixel_of bpp (bnot 0) = 2 ^ pixel_bits bpp - 1.
Proof.
  unfold pixel_of, pixel_bits.
  destruct (bpp =? 0); [reflexivity|]. destruct (bpp =? 1); reflexivity.
Qed.

(** C1. For each pixel width class and all operands [D], [S], [P] of
    that width, the pixel the unit produces is 0 for code 0x00,
    all-ones for 0xFF, [D] for 0xAA, [S] for 0xCC, [P] for 0xF0,
    [D xor S] for 0x66, [D and S] for 0x88, [D or S] for 0xEE and
    [D xor P] for 0x5A. *)
Theorem rop_truth_table (bpp D S P : Z) :
  0 <= D < 2 ^ pixel_bits bpp ->
  0 <= S < 2 ^ pixel_bits bpp ->
  0 <= P < 2 ^ pixel_bits bpp ->
  pixel_of bpp (ROPMIX 0x00 D P S 0) = 0
  /\ pixel_of bpp (ROPMIX 0xff D P S 0) = 2 ^ pixel_bits bpp - 1
  /\ pixel_of bpp (ROPMIX 0xaa D P S 0) = D
  /\ pixel_of bpp (ROPMIX 0xcc D P S 0) = S
  /\ pixel_of bpp (ROPMIX 0xf0 D P S 0) = P
  /\ pixel_of bpp (ROPMIX 0x66 D P S 0) = Z.lxor D S
  /\ pixel_of bpp (ROPMIX 0x88 D P S 0) = Z.land D S
  /\ pixel_of bpp (ROPMIX 0xee D P S 0) = Z.lor D S
  /\ pixel_of bpp (ROPMIX 0x5a D P S 0) = Z.lxor D P.
Proof.
  intros HD HS HP.
  pose proof (pixel_bits_pos bpp) as Hw.
  change (ROPMIX 0x00 D P S 0) with 0.
  change (ROPMIX 0xff D P S 0) with (bnot 0).
  change (ROPMIX 0xaa D P S 0) with D.
  change (ROPMIX 0xcc D P S 0) with S.
  change (ROPMIX 0xf0 D P S 0) with P.
  change (ROPMIX 0x66 D P S 0) with (Z.lxor D S).
  change (ROPMIX 0x88 D P S 0) with (Z.land D S).
  change (ROPMIX 0xee D P S 0) with (Z.lor D S).
  change (ROPMIX 0x5a D P S 0) with (Z.lxor D P).
  repeat apply conj.
  - apply Z.land_0_l.
  - apply pixel_of_all_ones.
  - apply pixel_of_small; assumption.
  - apply pixel_of_small; assumption.
  - apply pixel_of_small; assumption.
  - apply pixel_of_small, lxor_range; solve [assumption | lia].
  - apply pixel_of_small, land_range; solve [assumption | lia].
  - apply pixel_of_small, lor_range; solve [assumption | lia].
  - apply pixel_of_small, lxor_range; solve [assumption | lia].
Qed.

Lemma rop_truth_table_witness :
  pixel_of 0 (ROPMIX 0x66 0x5a 0xf0 0x3c 0) = Z.lxor 0x5a 0x3c
  /\ pixel_of 1 (ROPMIX 0xff 0x1234 0xf0f0 0xbeef 0) = 0xffff
  /\ pixel_of 3 (ROPMIX 0xee 0x12345678 0 0x0f0f0f0f 0) = Z.lor 0x12345678 0x0f0f0f0f.
Proof.
  split; [|split].
  - apply (rop_truth_table 0 0x5a 0x3c 0xf0); in_range.
  - apply (rop_truth_table 1 0x1234 0xbeef 0xf0f0); in_range.
  - apply (rop_truth_table 3 0x12345678 0x0f0f0f0f 0); in_range.
Defined.

(** ** Address remapping *)

Lemma testbit_shiftl (a n m : Z) :
  0 <= n -> Z.testbit (Z.shiftl a n) m = Z.testbit a (m - n).
Proof.
  intros Hn. destruct (Z.neg_nonneg_cases m) as [Hm|Hm].
  - rewrite !Z.testbit_neg_r by lia. reflexivity.
  - apply Z.shiftl_spec. assumption.
Qed.

Lemma testbit_shiftr (a n m : Z) :
  0 <= n -> Z.testbit (Z.shiftr a n) m = (0 <=? m) && Z.testbit a (m + n).
Proof.
  intros Hn. destruct (Z.leb_spec 0 m) as [Hm|Hm].
  - apply Z.shiftr_spec. assumption.
  - apply Z.testbit_neg_r. assumption.
Qed.

(** Unfolding of bit tests through the bitwise operations. *)
Ltac bits_unfold :=
  repeat match goal with
    | |- context [Z.testbit (Z.land ?a ?b) ?m] => rewrite (Z.land_spec a b m)
    | |- context [Z.testbit (Z.lor ?a ?b) ?m] => rewrite (Z.lor_spec a b m)
    | |- context [Z.testbit (Z.lxor ?a ?b) ?m] => rewrite (Z.lxor_spec a b m)
    | |- context [Z.testbit (Z.shiftl ?a ?n) ?m] =>
        rewrite (testbit_shiftl a n m) by lia
    | |- context [Z.testbit (Z.shiftr ?a ?n) ?m] =>
        rewrite (testbit_shiftr a n m) by lia
    | |- context [Z.testbit (Z.ones ?n) ?m] =>
        rewrite (Z.testbit_ones n m) by lia
    end.

(** Case analysis on the comparisons of a goal. *)
Ltac bits_cases :=
  repeat (match goal with
          | |- context [?a <? ?b] => destruct (Z.ltb_spec a b)
          | |- context [?a <=? ?b] => destruct (Z.leb_spec a b)
          end; try (exfalso; lia));
  rewrite ?andb_true_r, ?andb_false_r, ?orb_false_r, ?orb_false_l,
    ?andb_true_l, ?andb_false_l, ?orb_true_r, ?orb_true_l.

Lemma dword_remap_testbit (a i : Z) :
  0 <= a < 2 ^ 32 -> 0 <= i ->
  Z.testbit (dword_remap a) i = Z.testbit a (dword_remap_source i).
Proof.
  intros Ha Hi. unfold dword_remap, dword_remap_source, u32.
  change 0x3fff0 with (Z.shiftl (Z.ones 14) 4).
  change 0xc with (Z.shiftl (Z.ones 2) 2).
  change (Z.land (Z.lnot 0x3fffc) 0xffffffff)
    with (Z.lor (Z.ones 2) (Z.shiftl (Z.ones 14) 18)).
  change 0xffffffff with (Z.ones 32).
  bits_unfold. bits_cases;
    rewrite ?(testbit_small 32 a i), ?(testbit_small 32 a (i + 14)) by lia;
    rewrite ?orb_false_r; reflexivity.
Qed.

Lemma dword_remap_spec_testbit (a i : Z) :
  0 <= i ->
  Z.testbit (dword_remap_spec a) i = Z.testbit a (dword_remap_source i).
Proof.
  intros Hi. unfold dword_remap_spec, dword_remap_source.
  bits_unfold. bits_cases; rewrite ?orb_false_r; f_equal; lia.
Qed.

(** C4. The remapped address has bits 2-15 of the input moved up by 2
    (to bits 4-17), bits 2-3 taken from the field of bits 14-17 brought
    down by 14 (its bits 16-17 land there), and the low 2 bits and the
    bits above 17 unchanged. *)
Theorem dword_remap_reinterleaves (a : Z) :
  0 <= a < 2 ^ 32 ->
  dword_remap a = dword_remap_spec a
  /\ (forall i, 0 <= i < 2 -> Z.testbit (dword_remap a) i = Z.testbit a i)
  /\ (forall i, 2 <= i < 4 -> Z.testbit (dword_remap a) i = Z.testbit a (i + 14))
  /\ (forall i, 4 <= i < 18 -> Z.testbit (dword_remap a) i = Z.testbit a (i - 2))
  /\ (forall i, 18 <= i -> Z.testbit (dword_remap a) i = Z.testbit a i).
Proof.
  intros Ha. repeat apply conj.
  - apply Z.bits_inj'. intros i Hi.
    rewrite dword_remap_testbit, dword_remap_spec_testbit by assumption.
    reflexivity.
  - intros i Hi. rewrite dword_remap_testbit by lia. unfold dword_remap_source.
    bits_cases. reflexivity.
  - intros i Hi. rewrite dword_remap_testbit by lia. unfold dword_remap_source.
    bits_cases. reflexivity.
  - intros i Hi. rewrite dword_remap_testbit by lia. unfold dword_remap_source.
    bits_cases. reflexivity.
  - intros i Hi. rewrite dword_remap_testbit by lia. unfold dword_remap_source.
    bits_cases. reflexivity.
Qed.

Lemma dword_remap_reinterleaves_witness :
  dword_remap 0x12345 = dword_remap_spec 0x12345
  /\ dword_remap 0x12345 = 0x08d15.
Proof.
  split.
  - apply (dword_remap_reinterleaves 0x12345). in_range.
  - reflexivity.
Defined.

(** ** Loops *)

(** An invariant of the body is an invariant of the loop, whether the
    loop finishes or not. *)
Lemma while_count_inv (P : tgui_t -> Prop) (body : tgui_t -> Z -> Z -> flow) :
  (forall s c d, P s -> P (flow_state (body s c d))) ->
  forall fuel c d s, P s -> P (run_state (while_count fuel body c d s)).
Proof.
  intros Hbody. induction fuel as [|fuel IH]; intros c d s Hs; simpl.
  - destruct (c =? 0); exact Hs.
  - destruct (c =? 0); [exact Hs|].
    specialize (Hbody s c d Hs).
    destruct (body s c d) as [s' c' d'|s']; simpl in Hbody.
    + apply IH. exact Hbody.
    + exact Hbody.
Qed.

(** Two loops whose bodies proceed alike proceed alike. *)
Lemma while_count_sim (R : tgui_t -> tgui_t -> Prop)
    (b1 b2 : tgui_t -> Z -> Z -> flow) :
  (forall s t c d, R s t -> flow_rel R (b1 s c d) (b2 t c d)) ->
  forall fuel c d s t, R s t ->
    run_rel R (while_count fuel b1 c d s) (while_count fuel b2 c d t).
Proof.
  intros Hbody. induction fuel as [|fuel IH]; intros c d s t Hst; simpl.
  - destruct (c =? 0); exact Hst.
  - destruct (c =? 0); [exact Hst|].
    specialize (Hbody s t c d Hst).
    destruct (b1 s c d) as [s' c' d'|s'], (b2 t c d) as [t' c'' d''|t'];
      simpl in Hbody; try contradiction.
    + destruct Hbody as (HR & <- & <-). apply IH. exact HR.
    + exact Hbody.
Qed.

(** A loop whose body decreases a measure returns, given fuel above the
    measure. *)
Lemma while_count_terminates (I : tgui_t -> Prop) (m : tgui_t -> nat)
    (body : tgui_t -> Z -> Z -> flow) :
  (forall s c d s' c' d', I s -> body s c d = Continue s' c' d' ->
     I s' /\ (m s' < m s)%nat) ->
  forall fuel c d s, I s -> (m s < fuel)%nat ->
    exists s', while_count fuel body c d s = Done s'.
Proof.
  intros Hbody. induction fuel as [|fuel IH]; intros c d s Hs Hm; [lia|].
  simpl. destruct (c =? 0); [eauto|].
  destruct (body s c d) as [s' c' d'|s'] eqn:E; [|eauto].
  destruct (Hbody _ _ _ _ _ _ Hs E) as [Hs' Hlt].
  apply IH; [exact Hs'|lia].
Qed.

Lemma while_count_dec_inv (P : tgui_t -> Prop) (body : tgui_t -> Z -> Z -> flow) :
  (forall s c d, P s -> P (flow_state (body s c d))) ->
  forall fuel c d s, P s -> P (run_state (while_count_dec fuel body c d s)).
Proof.
  intros Hbody. unfold while_count_dec. apply while_count_inv.
  intros s c d. apply Hbody.
Qed.

Lemma while_count_dec_sim (R : tgui_t -> tgui_t -> Prop)
    (b1 b2 : tgui_t -> Z -> Z -> flow) :
  (forall s t c d, R s t -> flow_rel R (b1 s c d) (b2 t c d)) ->
  forall fuel c d s t, R s t ->
    run_rel R (while_count_dec fuel b1 c d s) (while_count_dec fuel b2 c d t).
Proof.
  intros Hbody. unfold while_count_dec. apply while_count_sim.
  intros s t c d. apply Hbody.
Qed.

(** ** Reasoning on states *)

(** Reduce field accesses through assignments; arithmetic, framebuffer
    accesses and the steps of the engine stay folded. *)
Ltac simp_state :=
  cbn [upd set_svga set_accel set_write_blitter set_type set_vram set_changedvram
       with_fb with_vram
       svga type accel vram_size vram_mask write_blitter
       svga_vram svga_changedvram svga_mon_changeframecount svga_rowoffset
       svga_bpp svga_crtc
       Accel.src_x Accel.src_y Accel.src_x_clip Accel.src_y_clip Accel.dst_x
       Accel.dst_y Accel.dst_y_clip Accel.dst_x_clip Accel.size_x Accel.size_y
       Accel.sv_size_y Accel.patloc Accel.fg_col Accel.bg_col Accel.style
       Accel.ckey Accel.rop Accel.flags Accel.pattern Accel.pattern_32bpp
       Accel.command Accel.offset Accel.ger22 Accel.err Accel.top Accel.left
       Accel.bottom Accel.right Accel.x Accel.y Accel.cx Accel.cy Accel.dx
       Accel.dy Accel.src Accel.dst Accel.src_old Accel.dst_old Accel.pat_x
       Accel.pat_y Accel.use_src Accel.pitch Accel.bpp Accel.fill_pattern
       Accel.mono_pattern Accel.pattern_8 Accel.pattern_16 Accel.pattern_32
       Accel.pattern_32_idx
       Accel.set_src_x Accel.set_src_y Accel.set_src_x_clip Accel.set_src_y_clip
       Accel.set_dst_x Accel.set_dst_y Accel.set_dst_y_clip Accel.set_dst_x_clip
       Accel.set_size_x Accel.set_size_y Accel.set_sv_size_y Accel.set_patloc
       Accel.set_fg_col Accel.set_bg_col Accel.set_style Accel.set_ckey
       Accel.set_rop Accel.set_flags Accel.set_pattern Accel.set_pattern_32bpp
       Accel.set_command Accel.set_ger22 Accel.set_top Accel.set_left
       Accel.set_bottom Accel.set_right Accel.set_x Accel.set_y Accel.set_dx
       Accel.set_dy Accel.set_src Accel.set_dst Accel.set_src_old
       Accel.set_dst_old Accel.set_pat_x Accel.set_pat_y Accel.set_use_src
       Accel.set_pitch Accel.set_bpp Accel.set_fill_pattern
       Accel.set_mono_pattern Accel.set_pattern_8 Accel.set_pattern_16
       Accel.set_pattern_32 Accel.set_pattern_32_idx
       flow_state run_state flow_map run_map flow_rel run_rel and_then
       xdir ydir trans_col pattern_data fst snd].

(** Case analysis on the tests of the goal, those whose condition holds
    no further test first. *)
Ltac case_ifs :=
  repeat (match goal with
          | |- context [if ?c then _ else _] =>
              lazymatch c with
              | context [if _ then _ else _] => fail
              | _ => destruct c eqn:?
              end
          end; simp_state).

(** Both sides run the same straight-line code with the same tests. *)
Ltac same_code := simp_state; case_ifs; first [reflexivity | congruence].

(** ** The entry code *)

Lemma entry_state_eq (count cpu_dat : Z) (s : tgui_t) :
  entry_state count cpu_dat s
  = entry_regs (if fst (entry_skip count cpu_dat s) =? -1
                then upd (fun a => Accel.set_x 0 (Accel.set_y 0 a)) s else s).
Proof.
  unfold entry_state, entry. destruct (entry_skip count cpu_dat s). reflexivity.
Qed.

Lemma entry_regs_frame (s : tgui_t) :
  svga (entry_regs s) = svga s /\ type (entry_regs s) = type s
  /\ write_blitter (entry_regs s) = write_blitter s
  /\ vram_size (entry_regs s) = vram_size s
  /\ vram_mask (entry_regs s) = vram_mask s
  /\ entry_blind (accel (entry_regs s)) = entry_blind (accel s).
Proof.
  unfold entry_regs, build_pattern, entry_blind.
  simp_state. case_ifs; repeat apply conj; reflexivity.
Qed.

(** The entry code leaves the display state, the blitter flag and all
    accelerator fields but [x], [y], the pattern cache, [pitch] and
    [pattern_32_idx] alone. *)
Lemma entry_state_frame (count cpu_dat : Z) (s : tgui_t) :
  let s' := entry_state count cpu_dat s in
  svga s' = svga s /\ type s' = type s /\ write_blitter s' = write_blitter s
  /\ vram_size s' = vram_size s /\ vram_mask s' = vram_mask s
  /\ entry_blind (accel s') = entry_blind (accel s).
Proof.
  cbv zeta. rewrite entry_state_eq.
  destruct (entry_regs_frame
              (if fst (entry_skip count cpu_dat s) =? -1
               then upd (fun a => Accel.set_x 0 (Accel.set_y 0 a)) s else s))
    as (-> & -> & -> & -> & -> & ->).
  destruct (fst (entry_skip count cpu_dat s) =? -1);
    repeat apply conj; reflexivity.
Qed.

Lemma entry_state_command (count cpu_dat : Z) (s : tgui_t) :
  (entry_state count cpu_dat s)#Accel.command = s#Accel.command.
Proof.
  pose proof (entry_state_frame count cpu_dat s) as (_ & _ & _ & _ & _ & H).
  apply (f_equal Accel.command) in H. exact H.
Qed.

Lemma entry_decompose (count cpu_dat : Z) (s : tgui_t) :
  entry count cpu_dat s
  = (entry_state count cpu_dat s, entry_locals s,
     fst (entry_skip count cpu_dat s), snd (entry_skip count cpu_dat s)).
Proof.
  unfold entry_state, entry. destruct (entry_skip count cpu_dat s). reflexivity.
Qed.

(** ** Unsupported fast line *)

(** On a chip below the TGUI 9660 the fast line command runs the entry
    code of [tgui_accel_command] and nothing else. *)
Lemma fastline_unsupported_entry (fuel : nat) (count cpu_dat : Z) (s : tgui_t) :
  s#Accel.command = TGUI_FASTLINE -> type s < TGUI_9660 ->
  tgui_accel_command fuel count cpu_dat s = Done (entry_state count cpu_dat s).
Proof.
  intros Hcmd Hty. unfold tgui_accel_command.
  rewrite entry_decompose.
  rewrite entry_state_command, Hcmd.
  change (TGUI_FASTLINE =? TGUI_BITBLT) with false.
  change (TGUI_FASTLINE =? TGUI_SCANLINE) with false.
  change (TGUI_FASTLINE =? TGUI_BRESENHAMLINE) with false.
  change (TGUI_FASTLINE =? TGUI_SHORTVECTOR) with false.
  change (TGUI_FASTLINE =? TGUI_FASTLINE) with true.
  cbv iota.
  pose proof (entry_state_frame count cpu_dat s) as (_ & -> & _).
  destruct (Z.ltb_spec (type s) TGUI_9660); [reflexivity|lia].
Qed.

(** C7, as the code has it. Starting the fast line command on a chip
    below the TGUI 9660 returns at once and draws nothing: the
    framebuffer, the change tracking and every accelerator register are
    as before, except for what the entry code of every command writes
    ([x] and [y] zeroed, the pattern cache and [pitch] recomputed,
    [pattern_32_idx] reset). *)
Theorem fastline_on_older_chip (fuel : nat) (s : tgui_t) :
  s#Accel.command = TGUI_FASTLINE -> type s < TGUI_9660 ->
  exists s', tgui_accel_command fuel (-1) 0 s = Done s'
    /\ svga s' = svga s
    /\ write_blitter s' = write_blitter s
    /\ entry_blind (accel s') = entry_blind (accel s)
    /\ s'#Accel.x = 0 /\ s'#Accel.y = 0 /\ s'#Accel.pattern_32_idx = 0.
Proof.
  intros Hcmd Hty. exists (entry_state (-1) 0 s).
  split; [apply fastline_unsupported_entry; assumption|].
  destruct (entry_state_frame (-1) 0 s) as (H1 & _ & H3 & _ & _ & H6).
  repeat apply conj; try assumption.
  all: rewrite entry_state_eq; unfold entry_skip;
    change (negb (-1 =? -1)) with false; cbn [andb fst];
    change (-1 =? -1) with true; cbv iota;
    unfold entry_regs, build_pattern; simp_state; case_ifs; reflexivity.
Qed.

(** ** The long write of command and ROP *)


(** ** Line directions *)

Arguments s16 : simpl never.
Arguments s32 : simpl never.
Arguments u32 : simpl never.

Lemma land_s16_fff (z : Z) : Z.land (s16 z) 0xfff = Z.land z 0xfff.
Proof.
  change 0xfff with (Z.ones 12). rewrite !Z.land_ones by lia.
  unfold s16. Z.div_mod_to_equations. lia.
Qed.

(** The value switched on is 32 times the 3-bit code held in bits
    13-15. *)
Lemma compass_code (v : Z) :
  Z.land (Z.shiftr v 8) 0xe0 = 32 * Z.land (Z.shiftr v 13) 7.
Proof.
  change 0xe0 with (Z.shiftl (Z.ones 3) 5). change 7 with (Z.ones 3).
  rewrite (Z.mul_comm 32). change 32 with (2 ^ 5). rewrite <- Z.shiftl_mul_pow2 by lia.
  apply Z.bits_inj'. intros i Hi.
  bits_unfold. bits_cases; rewrite ?Z.testbit_neg_r by lia;
    try reflexivity; f_equal; lia.
Qed.

Lemma compass_code_range (v : Z) : 0 <= Z.land (Z.shiftr v 13) 7 < 8.
Proof.
  change 7 with (Z.ones 3). pose proof (land_ones_range 3 (Z.shiftr v 13)). lia.
Qed.

Lemma accel_WRITE (s : tgui_t) (addr dat : Z) : accel (WRITE s addr dat) = accel s.
Proof. unfold WRITE. same_code. Qed.

Lemma accel_draw_line_pixel (s : tgui_t) : accel (draw_line_pixel s) = accel s.
Proof.
  unfold draw_line_pixel. destruct (clip_line s); [apply accel_WRITE|reflexivity].
Qed.

(** Evaluate the closed comparisons of the goal. *)
Ltac eval_tests :=
  repeat match goal with
    | |- context [?a =? ?b] =>
        let v := eval vm_compute in (a =? b) in
        lazymatch v with
        | true => change (a =? b) with true
        | false => change (a =? b) with false
        end
    end.

(** One step of [vector_step] followed by [line_next] moves by the
    compass step of the code, modulo 4096. *)
Lemma vector_step_compass (oct : Z) (s : tgui_t) :
  0 <= oct < 8 ->
  let s' := line_next (vector_step (32 * oct) s) in
  s'#Accel.dx = Z.land (s#Accel.dx + fst (compass oct)) 0xfff
  /\ s'#Accel.dy = Z.land (s#Accel.dy + snd (compass oct)) 0xfff.
Proof.
  intros Hoct.
  assert (Hc : oct = 0 \/ oct = 1 \/ oct = 2 \/ oct = 3
               \/ oct = 4 \/ oct = 5 \/ oct = 6 \/ oct = 7) by lia.
  destruct Hc as [->|[->|[->|[->|[->|[->|[->| ->]]]]]]];
    cbn [compass fst snd]; cbv zeta;
    unfold vector_step, line_next, inc_dx, dec_dx, inc_dy, dec_dy;
    eval_tests; cbv iota; simp_state;
    rewrite ?land_s16_fff, ?Z.add_0_r; split; reflexivity.
Qed.


(** ** Clipping *)

(** The TGUI 9400CXi never passes the clip test of the CPU-sourced blits
    and of the lines: a dot inside the clip rectangle is not drawn,
    where the TGUI 9440 draws it. *)
Lemma oldest_chip_never_draws :
  vram_of (dot_by_mmio TGUI_9400CXI 3 3) (3 + 3 * 1024) = 0
  /\ vram_of (dot_by_mmio TGUI_9440 3 3) (3 + 3 * 1024) = 0xab
  /\ (exists s, dot_by_mmio TGUI_9400CXI 3 3 = Done s
                /\ type s = TGUI_9400CXI
                /\ in_clip s (s#Accel.dx) (s#Accel.dy) = true
                /\ clip_line s = false).
Proof.
  split; [vm_compute; reflexivity|].
  split; [vm_compute; reflexivity|].
  eexists. split; [vm_compute; reflexivity|].
  repeat apply conj; vm_compute; reflexivity.
Qed.

(** C3, as the code has it. The clip rectangle is enforced, in the
    CPU-sourced blits and the lines, on the TGUI 9660 and 9680 only; the
    TGUI 9440 ignores it and always passes the test; the TGUI 9400CXi
    never passes it.  A dot outside the rectangle is drawn by the 9440
    and suppressed by the 9660 and the 9680. *)
Theorem clip_policy (s : tgui_t) :
  (type s = TGUI_9440 -> clip_line s = true /\ clip_blt s = true)
  /\ (TGUI_9660 <= type s ->
      clip_line s = in_clip s (Z.land (s#Accel.dx) 0xfff) (Z.land (s#Accel.dy) 0xfff)
      /\ clip_blt s = in_clip s (s#Accel.dx) (s#Accel.dy))
  /\ (type s = TGUI_9400CXI -> clip_line s = false /\ clip_blt s = false)
  /\ (clip_line s = false -> draw_line_pixel s = s)
  /\ (clip_line s = true ->
      draw_line_pixel s
      = WRITE s (s#Accel.dx + s#Accel.dy * s#Accel.pitch)
          (MIX s (READ s (s#Accel.dx + s#Accel.dy * s#Accel.pitch)) (s#Accel.fg_col) 0))
  /\ vram_of (dot_by_ports TGUI_9440 10 10) (10 + 10 * 1024) = 0xab
  /\ vram_of (dot_by_ports TGUI_9660 10 10) (10 + 10 * 1024) = 0
  /\ vram_of (dot_by_ports TGUI_9680 10 10) (10 + 10 * 1024) = 0.
Proof.
  repeat apply conj.
  - intros Hty. unfold clip_line, clip_blt. rewrite Hty. split; reflexivity.
  - intros Hty. unfold clip_line, clip_blt, in_clip.
    assert (E1 : (type s >=? TGUI_9660) = true) by (apply Z.geb_le; lia).
    assert (E2 : (type s =? TGUI_9440) = false)
      by (apply Z.eqb_neq; unfold TGUI_9440, TGUI_9660 in *; lia).
    rewrite E1, E2. split; reflexivity.
  - intros Hty. unfold clip_line, clip_blt. rewrite Hty. split; reflexivity.
  - intros Hc. unfold draw_line_pixel. rewrite Hc. reflexivity.
  - intros Hc. unfold draw_line_pixel. rewrite Hc. reflexivity.
  - vm_compute. reflexivity.
  - vm_compute. reflexivity.
  - vm_compute. reflexivity.
Qed.

Lemma clip_policy_witness :
  clip_line (run_state (dot_by_ports TGUI_9440 10 10)) = true
  /\ clip_line (run_state (dot_by_ports TGUI_9660 10 10)) = false.
Proof.
  split.
  - apply (clip_policy (run_state (dot_by_ports TGUI_9440 10 10))).
    vm_compute. reflexivity.
  - destruct (clip_policy (run_state (dot_by_ports TGUI_9660 10 10)))
      as (_ & H & _).
    rewrite (proj1 (H ltac:(vm_compute; discriminate))).
    vm_compute. reflexivity.
Defined.

(** ** The colour key register *)

(** A loop commutes with a change of state its body commutes with. *)
Lemma while_count_commute (T : tgui_t -> tgui_t) (body : tgui_t -> Z -> Z -> flow) :
  (forall s c d, body (T s) c d = flow_map T (body s c d)) ->
  forall fuel c d s,
    while_count fuel body c d (T s) = run_map T (while_count fuel body c d s).
Proof.
  intros Hbody. induction fuel as [|fuel IH]; intros c d s; simpl.
  - destruct (c =? 0); reflexivity.
  - destruct (c =? 0); [reflexivity|].
    rewrite Hbody. destruct (body s c d) as [s' c' d'|s']; simpl.
    + apply IH.
    + reflexivity.
Qed.

Lemma while_count_dec_commute (T : tgui_t -> tgui_t) (body : tgui_t -> Z -> Z -> flow) :
  (forall s c d, body (T s) c d = flow_map T (body s c d)) ->
  forall fuel c d s,
    while_count_dec fuel body c d (T s) = run_map T (while_count_dec fuel body c d s).
Proof.
  intros Hbody. unfold while_count_dec. apply while_count_commute.
  intros s c d. apply Hbody.
Qed.

Section ColourKey.

Variable k : Z.

Ltac ckey_step := intros; unfold with_ckey; same_code.

Lemma READ_with_ckey s addr : READ (with_ckey k s) addr = READ s addr.
Proof. unfold READ, vram_index. ckey_step. Qed.

Lemma WRITE_with_ckey s addr dat :
  WRITE (with_ckey k s) addr dat = with_ckey k (WRITE s addr dat).
Proof. unfold WRITE, vram_index, mark_changed. ckey_step. Qed.

Lemma draw_from_cpu_with_ckey l s c d :
  draw_from_cpu l (with_ckey k s) c d
  = (with_ckey k (fst (fst (draw_from_cpu l s c d))),
     snd (fst (draw_from_cpu l s c d)), snd (draw_from_cpu l s c d)).
Proof.
  unfold draw_from_cpu, READ, WRITE, vram_index, mark_changed,
    clip_blt, pattern_fetch, MIX.
  ckey_step.
Qed.

Lemma draw_from_mono_with_ckey l s d :
  draw_from_mono l (with_ckey k s) d = with_ckey k (draw_from_mono l s d).
Proof.
  unfold draw_from_mono, READ, WRITE, vram_index, mark_changed,
    clip_blt, pattern_fetch, MIX.
  ckey_step.
Qed.

Lemma draw_from_display_with_ckey l s :
  draw_from_display l (with_ckey k s) = with_ckey k (draw_from_display l s).
Proof.
  unfold draw_from_display, READ, WRITE, vram_index, mark_changed,
    pattern_fetch, MIX.
  ckey_step.
Qed.

Lemma draw_line_pixel_with_ckey s :
  draw_line_pixel (with_ckey k s) = with_ckey k (draw_line_pixel s).
Proof.
  unfold draw_line_pixel, READ, WRITE, vram_index, mark_changed, clip_line, MIX.
  ckey_step.
Qed.

Lemma bitblt_cpu_body_with_ckey l s c d :
  bitblt_cpu_body l (with_ckey k s) c d
  = flow_map (with_ckey k) (bitblt_cpu_body l s c d).
Proof.
  unfold bitblt_cpu_body. rewrite draw_from_cpu_with_ckey.
  destruct (draw_from_cpu l s c d) as [[s1 c1] d1]. cbn [fst snd].
  unfold step_x_cpu, end_row_cpu, advance_x, advance_row. ckey_step.
Qed.

Lemma bitblt_mono_body_with_ckey l s c d :
  bitblt_mono_body l (with_ckey k s) c d
  = flow_map (with_ckey k) (bitblt_mono_body l s c d).
Proof.
  unfold bitblt_mono_body. rewrite draw_from_mono_with_ckey.
  generalize (draw_from_mono l s d). intros s1.
  unfold step_x_cpu, end_row_cpu, advance_x, advance_row. ckey_step.
Qed.

Lemma bitblt_disp_body_with_ckey l s c d :
  bitblt_disp_body l (with_ckey k s) c d
  = flow_map (with_ckey k) (bitblt_disp_body l s c d).
Proof.
  unfold bitblt_disp_body. rewrite draw_from_display_with_ckey.
  generalize (draw_from_display l s). intros s1.
  unfold step_x, end_row_disp, advance_x, advance_row. ckey_step.
Qed.

Lemma scanline_body_with_ckey l s c d :
  scanline_body l (with_ckey k s) c d
  = flow_map (with_ckey k) (scanline_body l s c d).
Proof.
  unfold scanline_body. rewrite draw_from_display_with_ckey.
  generalize (draw_from_display l s). intros s1.
  unfold step_x, end_row_scanline, advance_x, advance_row. ckey_step.
Qed.

Lemma bresenham_body_with_ckey s c d :
  bresenham_body (with_ckey k s) c d
  = flow_map (with_ckey k) (bresenham_body s c d).
Proof.
  unfold bresenham_body. rewrite draw_line_pixel_with_ckey.
  generalize (draw_line_pixel s). intros s1.
  unfold bresenham_major, bresenham_minor, line_next, inc_dx, dec_dx, inc_dy, dec_dy.
  ckey_step.
Qed.

Lemma vector_body_with_ckey (code : tgui_t -> Z) s c d :
  (forall t, code (with_ckey k t) = code t) ->
  (let s := draw_line_pixel (with_ckey k s) in
   if s#Accel.y =? 0 then Return s
   else Continue (line_next (vector_step (code s) s)) c d)
  = flow_map (with_ckey k)
      (let s := draw_line_pixel s in
       if s#Accel.y =? 0 then Return s
       else Continue (line_next (vector_step (code s) s)) c d).
Proof.
  intros Hcode. cbv zeta. rewrite draw_line_pixel_with_ckey.
  generalize (draw_line_pixel s). intros s1. rewrite Hcode.
  generalize (code s1). intros v.
  unfold vector_step, line_next, inc_dx, dec_dx, inc_dy, dec_dy. ckey_step.
Qed.

Lemma shortvector_body_with_ckey s c d :
  shortvector_body (with_ckey k s) c d
  = flow_map (with_ckey k) (shortvector_body s c d).
Proof.
  apply (vector_body_with_ckey
           (fun s => Z.land (Z.shiftr (s#Accel.sv_size_y) 8) 0xe0)).
  reflexivity.
Qed.

Lemma fastline_body_with_ckey s c d :
  fastline_body (with_ckey k s) c d
  = flow_map (with_ckey k) (fastline_body s c d).
Proof.
  apply (vector_body_with_ckey
           (fun s => Z.land (Z.shiftr (s#Accel.size_y) 8) 0xe0)).
  reflexivity.
Qed.

Lemma load_pointers_with_ckey s :
  load_pointers (with_ckey k s) = with_ckey k (load_pointers s).
Proof. unfold load_pointers. ckey_step. Qed.

Lemma load_dxdy_with_ckey s :
  load_dxdy (with_ckey k s) = with_ckey k (load_dxdy s).
Proof. unfold load_dxdy. ckey_step. Qed.

Lemma load_clip_with_ckey s :
  load_clip (with_ckey k s) = with_ckey k (load_clip s).
Proof. unfold load_clip. ckey_step. Qed.

Lemma entry_with_ckey count cpu_dat s :
  entry count cpu_dat (with_ckey k s)
  = (with_ckey k (entry_state count cpu_dat s), entry_locals s,
     fst (entry_skip count cpu_dat s), snd (entry_skip count cpu_dat s)).
Proof.
  assert (E1 : entry_state count cpu_dat (with_ckey k s)
               = with_ckey k (entry_state count cpu_dat s)).
  { rewrite !entry_state_eq.
    replace (fst (entry_skip count cpu_dat (with_ckey k s)))
      with (fst (entry_skip count cpu_dat s)) by reflexivity.
    destruct (fst (entry_skip count cpu_dat s) =? -1);
      unfold entry_regs, build_pattern, entry_pitch; ckey_step. }
  assert (E2 : entry_locals (with_ckey k s) = entry_locals s).
  { unfold entry_locals, entry_xdir, entry_ydir, entry_trans_col, build_pattern.
    ckey_step. }
  assert (E3 : entry_skip count cpu_dat (with_ckey k s) = entry_skip count cpu_dat s)
    by reflexivity.
  rewrite entry_decompose, E1, E2, E3. reflexivity.
Qed.

Lemma field_with_ckey s :
  (with_ckey k s)#Accel.command = s#Accel.command
  /\ (with_ckey k s)#Accel.flags = s#Accel.flags
  /\ (with_ckey k s)#Accel.use_src = s#Accel.use_src
  /\ type (with_ckey k s) = type s
  /\ svga (with_ckey k s) = svga s.
Proof. repeat apply conj; reflexivity. Qed.

Lemma set_write_blitter_with_ckey v s :
  set_write_blitter v (with_ckey k s) = with_ckey k (set_write_blitter v s).
Proof. reflexivity. Qed.

Lemma set_y_with_ckey (f : Accel.t -> Z) s :
  (forall a, f (Accel.set_ckey k a) = f a) ->
  upd (fun a => Accel.set_y (f a) a) (with_ckey k s)
  = with_ckey k (upd (fun a => Accel.set_y (f a) a) s).
Proof.
  intros Hf. unfold with_ckey, upd, set_accel. cbn [accel svga type vram_size vram_mask write_blitter].
  rewrite Hf. reflexivity.
Qed.

(** The start of a blit: pointers, clip rectangle, blitter flag. *)
Lemma bitblt_start_with_ckey fuel l c d s :
  (let s := if nz (Z.land (svga_crtc (svga (with_ckey k s)) 0x21) 0x20)
            then set_write_blitter 1 (with_ckey k s) else with_ckey k s in
   if nz (s#Accel.use_src) then Done s
   else while_count fuel (bitblt_cpu_body l) c d s)
  = run_map (with_ckey k)
      (let s := if nz (Z.land (svga_crtc (svga s) 0x21) 0x20)
                then set_write_blitter 1 s else s in
       if nz (s#Accel.use_src) then Done s
       else while_count fuel (bitblt_cpu_body l) c d s).
Proof.
  destruct (field_with_ckey s) as (_ & _ & _ & _ & ->).
  rewrite set_write_blitter_with_ckey.
  destruct (nz (Z.land (svga_crtc (svga s) 0x21) 0x20)); cbv zeta.
  - destruct (field_with_ckey (set_write_blitter 1 s)) as (_ & _ & -> & _).
    destruct (nz _); [reflexivity|].
    apply while_count_commute, bitblt_cpu_body_with_ckey.
  - destruct (field_with_ckey s) as (_ & _ & -> & _).
    destruct (nz _); [reflexivity|].
    apply while_count_commute, bitblt_cpu_body_with_ckey.
Qed.

Lemma bitblt_mono_start_with_ckey fuel l c d s :
  (let s := if nz (Z.land (svga_crtc (svga (with_ckey k s)) 0x21) 0x20)
            then set_write_blitter 1 (with_ckey k s) else with_ckey k s in
   if nz (s#Accel.use_src) then Done s
   else while_count_dec fuel (bitblt_mono_body l) c d s)
  = run_map (with_ckey k)
      (let s := if nz (Z.land (svga_crtc (svga s) 0x21) 0x20)
                then set_write_blitter 1 s else s in
       if nz (s#Accel.use_src) then Done s
       else while_count_dec fuel (bitblt_mono_body l) c d s).
Proof.
  destruct (field_with_ckey s) as (_ & _ & _ & _ & ->).
  rewrite set_write_blitter_with_ckey.
  destruct (nz (Z.land (svga_crtc (svga s) 0x21) 0x20)); cbv zeta.
  - destruct (field_with_ckey (set_write_blitter 1 s)) as (_ & _ & -> & _).
    destruct (nz _); [reflexivity|].
    apply while_count_dec_commute, bitblt_mono_body_with_ckey.
  - destruct (field_with_ckey s) as (_ & _ & -> & _).
    destruct (nz _); [reflexivity|].
    apply while_count_dec_commute, bitblt_mono_body_with_ckey.
Qed.

Lemma tgui_accel_command_with_ckey fuel count cpu_dat s :
  tgui_accel_command fuel count cpu_dat (with_ckey k s)
  = run_map (with_ckey k) (tgui_accel_command fuel count cpu_dat s).
Proof.
  unfold tgui_accel_command.
  rewrite entry_with_ckey, entry_decompose.
  generalize (entry_state count cpu_dat s) (entry_locals s)
    (fst (entry_skip count cpu_dat s)) (snd (entry_skip count cpu_dat s)).
  clear. intros s l c d.
  destruct (field_with_ckey s) as (-> & Hfl & _ & -> & _).
  destruct (s#Accel.command =? TGUI_BITBLT).
  { destruct (c =? -1).
    - rewrite load_pointers_with_ckey, load_dxdy_with_ckey, load_clip_with_ckey.
      generalize (load_clip (load_dxdy (load_pointers s))). intros s1.
      destruct (field_with_ckey s1) as (_ & -> & _).
      destruct (_ =? TGUI_SRCCPU); [apply bitblt_start_with_ckey|].
      destruct (_ =? Z.lor TGUI_SRCMONO TGUI_SRCCPU);
        [apply bitblt_mono_start_with_ckey|].
      apply while_count_dec_commute, bitblt_disp_body_with_ckey.
    - rewrite Hfl.
      destruct (_ =? TGUI_SRCCPU);
        [apply while_count_commute, bitblt_cpu_body_with_ckey|].
      destruct (_ =? Z.lor TGUI_SRCMONO TGUI_SRCCPU);
        [apply while_count_dec_commute, bitblt_mono_body_with_ckey|].
      apply while_count_dec_commute, bitblt_disp_body_with_ckey. }
  destruct (s#Accel.command =? TGUI_SCANLINE).
  { destruct (c =? -1); rewrite ?load_pointers_with_ckey;
      apply while_count_dec_commute, scanline_body_with_ckey. }
  destruct (s#Accel.command =? TGUI_BRESENHAMLINE).
  { destruct (c =? -1).
    - rewrite load_dxdy_with_ckey.
      rewrite (set_y_with_ckey Accel.size_y) by reflexivity.
      rewrite load_clip_with_ckey.
      apply while_count_dec_commute, bresenham_body_with_ckey.
    - apply while_count_dec_commute, bresenham_body_with_ckey. }
  destruct (s#Accel.command =? TGUI_SHORTVECTOR).
  { destruct (c =? -1).
    - rewrite load_dxdy_with_ckey.
      rewrite (set_y_with_ckey (fun a => s16 (Z.land (Accel.sv_size_y a) 0xfff)))
        by reflexivity.
      rewrite load_clip_with_ckey.
      apply while_count_dec_commute, shortvector_body_with_ckey.
    - apply while_count_dec_commute, shortvector_body_with_ckey. }
  destruct (s#Accel.command =? TGUI_FASTLINE); [|reflexivity].
  destruct (type s <? TGUI_9660); [reflexivity|].
  destruct (c =? -1).
  - rewrite load_dxdy_with_ckey.
    rewrite (set_y_with_ckey Accel.size_y) by reflexivity.
    rewrite load_clip_with_ckey.
    apply while_count_dec_commute, fastline_body_with_ckey.
  - apply while_count_dec_commute, fastline_body_with_ckey.
Qed.

End ColourKey.

(** C10. Two devices that differ only in the colour key register run
    every command alike: the results differ only in that register, and
    the framebuffers are the same.  The transparent colour of the
    engine is the foreground or the background colour, by the reverse
    flag. *)
Theorem ckey_never_consulted (fuel : nat) (count cpu_dat k : Z) (s : tgui_t) :
  tgui_accel_command fuel count cpu_dat (with_ckey k s)
  = run_map (with_ckey k) (tgui_accel_command fuel count cpu_dat s)
  /\ svga (run_state (tgui_accel_command fuel count cpu_dat (with_ckey k s)))
     = svga (run_state (tgui_accel_command fuel count cpu_dat s))
  /\ trans_col (entry_locals (with_ckey k s)) = trans_col (entry_locals s)
  /\ trans_col (entry_locals s)
     = (let c := if nz (Z.land (s#Accel.flags) TGUI_TRANSREV)
                 then s#Accel.fg_col else s#Accel.bg_col in
        if s#Accel.bpp =? 0 then Z.land c 0xff
        else if s#Accel.bpp =? 1 then Z.land c 0xffff
        else c).
Proof.
  pose proof (tgui_accel_command_with_ckey k fuel count cpu_dat s) as H.
  split; [exact H|]. split; [|split; reflexivity].
  rewrite H. destruct (tgui_accel_command fuel count cpu_dat s); reflexivity.
Qed.

(** ** Framebuffer bounds *)

Lemma shiftr_ones (k j : Z) :
  0 <= j <= k -> Z.shiftr (Z.ones k) j = Z.ones (k - j).
Proof.
  intros Hj. apply Z.bits_inj'. intros i Hi.
  bits_unfold. bits_cases; reflexivity.
Qed.

Lemma vram_index_range (s : tgui_t) (addr k : Z) :
  2 <= k -> vram_mask s = 2 ^ k - 1 ->
  0 <= vram_index s addr < 2 ^ (k - Z.log2 (pixel_bits (s#Accel.bpp) / 8)).
Proof.
  intros Hk Hm. unfold vram_index, pixel_bits. rewrite Hm.
  replace (2 ^ k - 1) with (Z.ones k) by (rewrite Z.ones_equiv; lia).
  destruct (s#Accel.bpp =? 0).
  - change (Z.log2 (8 / 8)) with 0. rewrite Z.sub_0_r.
    apply land_ones_range. lia.
  - destruct (s#Accel.bpp =? 1).
    + change (Z.log2 (16 / 8)) with 1. rewrite shiftr_ones by lia.
      apply land_ones_range. lia.
    + change (Z.log2 (32 / 8)) with 2. rewrite shiftr_ones by lia.
      apply land_ones_range. lia.
Qed.

(** Every byte an access touches lies inside the framebuffer. *)
Lemma access_bytes_in_bounds (s : tgui_t) (addr b : Z) :
  vram_ok s -> In b (access_bytes s addr) -> 0 <= b < vram_size s.
Proof.
  intros (k & Hk & Hsz & Hm) Hin.
  rewrite Hsz in Hm. pose proof (vram_index_range s addr k ltac:(lia) Hm) as Hi.
  unfold access_bytes, pixel_bits in *. rewrite Hsz.
  destruct (s#Accel.bpp =? 0).
  - change (Z.log2 (8 / 8)) with 0 in Hi. rewrite Z.sub_0_r in Hi.
    simpl in Hin. lia.
  - destruct (s#Accel.bpp =? 1).
    + change (Z.log2 (16 / 8)) with 1 in Hi.
      replace (2 ^ k) with (2 * 2 ^ (k - 1))
        by (rewrite <- Z.pow_succ_r by lia; f_equal; lia).
      simpl in Hin. lia.
    + change (Z.log2 (32 / 8)) with 2 in Hi.
      replace (2 ^ k) with (4 * 2 ^ (k - 2))
        by (change 4 with (2 ^ 2); rewrite <- Z.pow_add_r by lia; f_equal; lia).
      simpl in Hin. lia.
Qed.

(** [WRITE] changes the bytes of its access and no other. *)
Lemma WRITE_outside (s : tgui_t) (addr dat a : Z) :
  ~ In a (access_bytes s addr) ->
  svga_vram (svga (WRITE s addr dat)) a = svga_vram (svga s) a.
Proof.
  unfold WRITE, access_bytes, wr32, wr16, wr8.
  destruct (s#Accel.bpp =? 0); [|destruct (s#Accel.bpp =? 1)];
    simpl; intros Hn;
    repeat match goal with
      | |- context [a =? ?i] =>
          destruct (Z.eqb_spec a i) as [->|]; [exfalso; apply Hn; auto 8|]
      end; reflexivity.
Qed.

(** [READ] depends on the bytes of its access and on no other. *)
Lemma READ_local (s : tgui_t) (addr : Z) (v : Z -> Z) :
  (forall b, In b (access_bytes s addr) -> v b = svga_vram (svga s) b) ->
  READ (with_vram v s) addr = READ s addr.
Proof.
  unfold READ, access_bytes, with_vram, vram_index, rd32, rd16, rd8.
  simp_state.
  destruct (s#Accel.bpp =? 0); [|destruct (s#Accel.bpp =? 1)];
    intros H; rewrite !H by (simpl; tauto); reflexivity.
Qed.

Lemma WRITE_geometry (s : tgui_t) (addr dat : Z) :
  vram_size (WRITE s addr dat) = vram_size s
  /\ vram_mask (WRITE s addr dat) = vram_mask s.
Proof. unfold WRITE. case_ifs; split; reflexivity. Qed.

Section Frame.

Variable s0 : tgui_t.
Hypothesis Hok : vram_ok s0.

Lemma frame_WRITE s addr dat :
  fb_frame s0 s -> fb_frame s0 (WRITE s addr dat).
Proof.
  intros (Hsz & Hm & Hout).
  destruct (WRITE_geometry s addr dat) as [E1 E2].
  split; [congruence|]. split; [congruence|].
  intros a Ha. rewrite WRITE_outside; [apply Hout; assumption|].
  intros Hin. apply Ha. rewrite <- Hsz.
  apply (access_bytes_in_bounds s addr); [|assumption].
  destruct Hok as (k & Hk & Hs0 & Hm0). exists k. repeat split; try lia; congruence.
Qed.

(** Steps that assign accelerator fields or the blitter flag keep the
    frame by computation. *)
Ltac frame_step := intros; case_ifs; first [assumption | apply frame_WRITE; assumption].

Lemma frame_draw_from_cpu l s c d :
  fb_frame s0 s -> fb_frame s0 (fst (fst (draw_from_cpu l s c d))).
Proof. unfold draw_from_cpu. frame_step. Qed.

Lemma frame_draw_from_mono l s d :
  fb_frame s0 s -> fb_frame s0 (draw_from_mono l s d).
Proof. unfold draw_from_mono. frame_step. Qed.

Lemma frame_draw_from_display l s :
  fb_frame s0 s -> fb_frame s0 (draw_from_display l s).
Proof. unfold draw_from_display. frame_step. Qed.

Lemma frame_draw_line_pixel s :
  fb_frame s0 s -> fb_frame s0 (draw_line_pixel s).
Proof. unfold draw_line_pixel. frame_step. Qed.

Lemma frame_bitblt_cpu_body l s c d :
  fb_frame s0 s -> fb_frame s0 (flow_state (bitblt_cpu_body l s c d)).
Proof.
  intros H. apply (frame_draw_from_cpu l s c d) in H. revert H.
  unfold bitblt_cpu_body. destruct (draw_from_cpu l s c d) as [[s1 c1] d1].
  cbn [fst]. clear. unfold step_x_cpu, end_row_cpu, advance_x, advance_row.
  simp_state. frame_step.
Qed.

Lemma frame_bitblt_mono_body l s c d :
  fb_frame s0 s -> fb_frame s0 (flow_state (bitblt_mono_body l s c d)).
Proof.
  intros H. apply (frame_draw_from_mono l s d) in H. revert H.
  unfold bitblt_mono_body. generalize (draw_from_mono l s d). clear. intros s1.
  unfold step_x_cpu, end_row_cpu, advance_x, advance_row.
  simp_state. frame_step.
Qed.

Lemma frame_bitblt_disp_body l s c d :
  fb_frame s0 s -> fb_frame s0 (flow_state (bitblt_disp_body l s c d)).
Proof.
  intros H. apply (frame_draw_from_display l s) in H. revert H.
  unfold bitblt_disp_body. generalize (draw_from_display l s). clear. intros s1.
  unfold step_x, end_row_disp, advance_x, advance_row.
  simp_state. frame_step.
Qed.

Lemma frame_scanline_body l s c d :
  fb_frame s0 s -> fb_frame s0 (flow_state (scanline_body l s c d)).
Proof.
  intros H. apply (frame_draw_from_display l s) in H. revert H.
  unfold scanline_body. generalize (draw_from_display l s). clear. intros s1.
  unfold step_x, end_row_scanline, advance_x, advance_row.
  simp_state. frame_step.
Qed.

Lemma frame_bresenham_body s c d :
  fb_frame s0 s -> fb_frame s0 (flow_state (bresenham_body s c d)).
Proof.
  intros H. apply frame_draw_line_pixel in H. revert H.
  unfold bresenham_body. generalize (draw_line_pixel s). clear. intros s1.
  unfold bresenham_major, bresenham_minor, line_next, inc_dx, dec_dx, inc_dy, dec_dy.
  simp_state. frame_step.
Qed.

Lemma frame_shortvector_body s c d :
  fb_frame s0 s -> fb_frame s0 (flow_state (shortvector_body s c d)).
Proof.
  intros H. apply frame_draw_line_pixel in H. revert H.
  unfold shortvector_body. generalize (draw_line_pixel s). clear. intros s1.
  unfold vector_step, line_next, inc_dx, dec_dx, inc_dy, dec_dy.
  simp_state. frame_step.
Qed.

Lemma frame_fastline_body s c d :
  fb_frame s0 s -> fb_frame s0 (flow_state (fastline_body s c d)).
Proof.
  intros H. apply frame_draw_line_pixel in H. revert H.
  unfold fastline_body. generalize (draw_line_pixel s). clear. intros s1.
  unfold vector_step, line_next, inc_dx, dec_dx, inc_dy, dec_dy.
  simp_state. frame_step.
Qed.

(** Steps that leave the display state and the geometry alone. *)
Lemma frame_same s s' :
  svga s' = svga s -> vram_size s' = vram_size s -> vram_mask s' = vram_mask s ->
  fb_frame s0 s -> fb_frame s0 s'.
Proof. unfold fb_frame. intros -> -> ->. tauto. Qed.

Lemma frame_load_pointers s : fb_frame s0 s -> fb_frame s0 (load_pointers s).
Proof. apply frame_same; reflexivity. Qed.

Lemma frame_load_dxdy s : fb_frame s0 s -> fb_frame s0 (load_dxdy s).
Proof. apply frame_same; reflexivity. Qed.

Lemma frame_load_clip s : fb_frame s0 s -> fb_frame s0 (load_clip s).
Proof. apply frame_same; unfold load_clip; simp_state; case_ifs; reflexivity. Qed.

Lemma frame_upd f s : fb_frame s0 s -> fb_frame s0 (upd f s).
Proof. apply frame_same; reflexivity. Qed.

Lemma frame_set_write_blitter v s :
  fb_frame s0 s -> fb_frame s0 (set_write_blitter v s).
Proof. apply frame_same; reflexivity. Qed.

Lemma frame_entry_state count cpu_dat s :
  fb_frame s0 s -> fb_frame s0 (entry_state count cpu_dat s).
Proof.
  destruct (entry_state_frame count cpu_dat s) as (H1 & _ & _ & H4 & H5 & _).
  apply frame_same; assumption.
Qed.

Lemma frame_tgui_accel_command fuel count cpu_dat s :
  fb_frame s0 s -> fb_frame s0 (run_state (tgui_accel_command fuel count cpu_dat s)).
Proof.
  intros H. apply (frame_entry_state count cpu_dat) in H. revert H.
  unfold tgui_accel_command. rewrite entry_decompose.
  generalize (entry_state count cpu_dat s) (entry_locals s)
    (fst (entry_skip count cpu_dat s)) (snd (entry_skip count cpu_dat s)).
  clear s count cpu_dat. intros s l c d H. cbv zeta.
  destruct (s#Accel.command =? TGUI_BITBLT).
  { assert (H1 : fb_frame s0 (if c =? -1
                              then load_clip (load_dxdy (load_pointers s)) else s)).
    { destruct (c =? -1); [|assumption].
      apply frame_load_clip, frame_load_dxdy, frame_load_pointers, H. }
    revert H1. generalize (if c =? -1
                           then load_clip (load_dxdy (load_pointers s)) else s).
    clear H s. intros s H.
    assert (H2 : fb_frame s0 (if nz (Z.land (svga_crtc (svga s) 0x21) 0x20)
                              then set_write_blitter 1 s else s)).
    { destruct (nz _); [apply frame_set_write_blitter|]; assumption. }
    revert H2. generalize (if nz (Z.land (svga_crtc (svga s) 0x21) 0x20)
                           then set_write_blitter 1 s else s).
    intros s2 H2.
    destruct (_ =? TGUI_SRCCPU).
    { destruct (c =? -1).
      - destruct (nz (s2#Accel.use_src)); [exact H2|].
        apply while_count_inv; [|exact H2].
        intros; apply frame_bitblt_cpu_body; assumption.
      - apply while_count_inv; [|exact H].
        intros; apply frame_bitblt_cpu_body; assumption. }
    destruct (_ =? Z.lor TGUI_SRCMONO TGUI_SRCCPU).
    { destruct (c =? -1).
      - destruct (nz (s2#Accel.use_src)); [exact H2|].
        apply while_count_dec_inv; [|exact H2].
        intros; apply frame_bitblt_mono_body; assumption.
      - apply while_count_dec_inv; [|exact H].
        intros; apply frame_bitblt_mono_body; assumption. }
    apply while_count_dec_inv; [|exact H].
    intros; apply frame_bitblt_disp_body; assumption. }
  destruct (s#Accel.command =? TGUI_SCANLINE).
  { apply while_count_dec_inv;
      [intros; apply frame_scanline_body; assumption|].
    destruct (c =? -1); [apply frame_load_pointers|]; assumption. }
  destruct (s#Accel.command =? TGUI_BRESENHAMLINE).
  { apply while_count_dec_inv;
      [intros; apply frame_bresenham_body; assumption|].
    destruct (c =? -1); [|assumption].
    apply frame_load_clip, frame_upd, frame_load_dxdy, H. }
  destruct (s#Accel.command =? TGUI_SHORTVECTOR).
  { apply while_count_dec_inv;
      [intros; apply frame_shortvector_body; assumption|].
    destruct (c =? -1); [|assumption].
    apply frame_load_clip, frame_upd, frame_load_dxdy, H. }
  destruct (s#Accel.command =? TGUI_FASTLINE); [|exact H].
  destruct (type s <? TGUI_9660); [exact H|].
  apply while_count_dec_inv;
    [intros; apply frame_fastline_body; assumption|].
  destruct (c =? -1); [|assumption].
  apply frame_load_clip, frame_upd, frame_load_dxdy, H.
Qed.

End Frame.

Lemma fb_frame_refl (s : tgui_t) : fb_frame s s.
Proof. repeat split. Qed.



(** ** Blits in step *)

Lemma MIX_pattern_copy (s : tgui_t) (D P S : Z) :
  s#Accel.rop = 0xf0 -> MIX s D P S = P.
Proof. intros H. unfold MIX. rewrite H. reflexivity. Qed.

Section InStep.

Variables F G : Z -> Z.

Lemma fb_rel_WRITE s t addr x :
  fb_rel F G s t -> fb_rel F G (WRITE s addr x) (WRITE t addr x).
Proof.
  intros (v & c & -> & Hv & Hrop).
  exists (svga_vram (svga (WRITE (with_fb v c s) addr x))),
         (svga_changedvram (svga (WRITE (with_fb v c s) addr x))).
  split; [|split].
  - unfold WRITE, with_fb, vram_index, mark_changed. simp_state. case_ifs; reflexivity.
  - intros a. specialize (Hv a).
    unfold WRITE, with_fb, vram_index, wr32, wr16, wr8. simp_state.
    case_ifs; try (left; reflexivity); exact Hv.
  - rewrite accel_WRITE. exact Hrop.
Qed.

(** Steps that assign accelerator fields only. *)
Ltac rel_step :=
  intros ? ? (v & c & -> & Hv & Hrop); unfold with_fb; simp_state; case_ifs;
  simp_state;
  try (exists v, c; split; [reflexivity|split; assumption]).

Lemma fb_rel_draw_from_cpu l s t c d :
  fb_rel F G s t ->
  fb_rel F G (fst (fst (draw_from_cpu l s c d))) (fst (fst (draw_from_cpu l t c d)))
  /\ snd (fst (draw_from_cpu l s c d)) = snd (fst (draw_from_cpu l t c d))
  /\ snd (draw_from_cpu l s c d) = snd (draw_from_cpu l t c d).
Proof.
  intros H. pose proof H as (v & c0 & -> & Hv & Hrop).
  unfold draw_from_cpu.
  replace (clip_blt (with_fb v c0 s)) with (clip_blt s) by reflexivity.
  replace (pattern_fetch l (with_fb v c0 s)) with (pattern_fetch l s) by reflexivity.
  replace (accel (with_fb v c0 s)) with (accel s) by reflexivity.
  destruct (clip_blt s); [|repeat apply conj; try reflexivity; exact H].
  destruct (s#Accel.bpp =? 0); [|destruct (s#Accel.bpp =? 1)]; cbv beta iota;
    match goal with |- context [if ?b then _ else _] => destruct b end;
    cbn [fst snd]; repeat apply conj; try reflexivity; try exact H;
    rewrite !MIX_pattern_copy by (rewrite ?accel_WRITE; exact Hrop);
    apply fb_rel_WRITE; exact H.
Qed.

Lemma fb_rel_draw_from_mono l s t d :
  fb_rel F G s t ->
  fb_rel F G (draw_from_mono l s d) (draw_from_mono l t d).
Proof.
  intros H. pose proof H as (v & c0 & -> & Hv & Hrop).
  unfold draw_from_mono.
  replace (clip_blt (with_fb v c0 s)) with (clip_blt s) by reflexivity.
  replace (pattern_fetch l (with_fb v c0 s)) with (pattern_fetch l s) by reflexivity.
  replace (accel (with_fb v c0 s)) with (accel s) by reflexivity.
  destruct (clip_blt s); [|exact H]. cbv zeta.
  match goal with |- context [if ?b then WRITE _ _ _ else _] => destruct b end;
    [|exact H].
  rewrite !MIX_pattern_copy by exact Hrop.
  apply fb_rel_WRITE; exact H.
Qed.

Lemma fb_rel_draw_from_display l s t :
  fb_rel_opaque F G s t ->
  fb_rel_opaque F G (draw_from_display l s) (draw_from_display l t).
Proof.
  intros [H Hop]. pose proof H as (v & c0 & -> & Hv & Hrop).
  unfold draw_from_display.
  replace (pattern_fetch l (with_fb v c0 s)) with (pattern_fetch l s) by reflexivity.
  replace (accel (with_fb v c0 s)) with (accel s) by reflexivity.
  rewrite Hop. cbn [negb orb].
  rewrite !MIX_pattern_copy by exact Hrop.
  split; [apply fb_rel_WRITE; exact H|].
  rewrite accel_WRITE. exact Hop.
Qed.

Lemma with_fb_upd v c f s : upd f (with_fb v c s) = with_fb v c (upd f s).
Proof. reflexivity. Qed.

Lemma with_fb_set_write_blitter v c w s :
  set_write_blitter w (with_fb v c s) = with_fb v c (set_write_blitter w s).
Proof. reflexivity. Qed.

(** The rest of a body assigns accelerator fields and the blitter flag
    only, and tests nothing of the framebuffer. *)
Ltac rest_in_step :=
  intros (v & c0 & -> & Hv & Hrop);
  simp_state; case_ifs;
  repeat apply conj; try reflexivity;
  exists v, c0;
  (split; [rewrite ?with_fb_upd, ?with_fb_set_write_blitter; reflexivity|]);
  (split; [simp_state; exact Hv | simp_state; exact Hrop]).

Lemma fb_rel_bitblt_cpu_body l s t c d :
  fb_rel F G s t ->
  flow_rel (fb_rel F G) (bitblt_cpu_body l s c d) (bitblt_cpu_body l t c d).
Proof.
  intros H. destruct (fb_rel_draw_from_cpu l s t c d H) as (H1 & E2 & E3).
  revert H1 E2 E3. unfold bitblt_cpu_body.
  destruct (draw_from_cpu l s c d) as [[s1 c1] d1].
  destruct (draw_from_cpu l t c d) as [[t1 c1'] d1'].
  cbn [fst snd]. intros H1 <- <-. revert H1. clear. revert s1 t1.
  unfold step_x_cpu, end_row_cpu, advance_x, advance_row.
  intros s1 t1. rest_in_step.
Qed.

Lemma fb_rel_bitblt_mono_body l s t c d :
  fb_rel F G s t ->
  flow_rel (fb_rel F G) (bitblt_mono_body l s c d) (bitblt_mono_body l t c d).
Proof.
  intros H. apply (fb_rel_draw_from_mono l s t d) in H. revert H.
  unfold bitblt_mono_body.
  generalize (draw_from_mono l s d) (draw_from_mono l t d). clear.
  unfold step_x_cpu, end_row_cpu, advance_x, advance_row.
  intros s1 t1. rest_in_step.
Qed.

Lemma fb_rel_bitblt_disp_body l s t c d :
  fb_rel_opaque F G s t ->
  flow_rel (fb_rel_opaque F G) (bitblt_disp_body l s c d) (bitblt_disp_body l t c d).
Proof.
  intros H. apply (fb_rel_draw_from_display l s t) in H. revert H.
  unfold bitblt_disp_body.
  generalize (draw_from_display l s) (draw_from_display l t). clear.
  unfold step_x, end_row_disp, advance_x, advance_row.
  intros s1 t1 [H Hop]. revert H.
  intros (v & c0 & -> & Hv & Hrop).
  simp_state. case_ifs. 
  all: repeat apply conj; try reflexivity.
  all: try (simp_state; exact Hop).
  all: exists v, c0.
  all: (split; [rewrite ?with_fb_upd, ?with_fb_set_write_blitter; reflexivity|]).
  all:  (split; [simp_state; exact Hv | simp_state; exact Hrop]).
Qed.
End InStep.

(** ** The fill run again *)

Section Again.

Variables F G : Z -> Z.

Lemma build_pattern_with_fb v c s :
  build_pattern (with_fb v c s)
  = (with_fb v c (fst (build_pattern s)), snd (build_pattern s)).
Proof.
  unfold build_pattern. change (accel (with_fb v c s)) with (accel s).
  repeat match goal with |- context [if ?b then _ else _] => destruct b end;
    cbn [fst snd]; rewrite with_fb_upd; reflexivity.
Qed.

Lemma entry_pitch_with_fb v c s : entry_pitch (with_fb v c s) = entry_pitch s.
Proof. reflexivity. Qed.

Lemma entry_regs_with_fb v c s :
  entry_regs (with_fb v c s) = with_fb v c (entry_regs s).
Proof.
  unfold entry_regs. cbv zeta.
  rewrite with_fb_upd, build_pattern_with_fb. cbn [fst].
  rewrite entry_pitch_with_fb, with_fb_upd. reflexivity.
Qed.

Lemma entry_locals_with_fb v c s : entry_locals (with_fb v c s) = entry_locals s.
Proof.
  unfold entry_locals. rewrite with_fb_upd, build_pattern_with_fb. reflexivity.
Qed.

Lemma entry_skip_start s : entry_skip (-1) 0 s = (-1, 0).
Proof. reflexivity. Qed.

Lemma entry_state_with_fb count cpu_dat v c s :
  entry_state count cpu_dat (with_fb v c s)
  = with_fb v c (entry_state count cpu_dat s).
Proof.
  rewrite !entry_state_eq.
  replace (fst (entry_skip count cpu_dat (with_fb v c s)))
    with (fst (entry_skip count cpu_dat s)) by reflexivity.
  destruct (fst (entry_skip count cpu_dat s) =? -1);
    rewrite ?with_fb_upd; apply entry_regs_with_fb.
Qed.

Lemma load_pointers_with_fb v c s :
  load_pointers (with_fb v c s) = with_fb v c (load_pointers s).
Proof. unfold load_pointers. cbv zeta. rewrite !with_fb_upd. reflexivity. Qed.

Lemma load_dxdy_with_fb v c s :
  load_dxdy (with_fb v c s) = with_fb v c (load_dxdy s).
Proof. unfold load_dxdy. cbv zeta. rewrite !with_fb_upd. reflexivity. Qed.

Lemma load_clip_with_fb v c s :
  load_clip (with_fb v c s) = with_fb v c (load_clip s).
Proof.
  unfold load_clip. cbv zeta. rewrite !with_fb_upd.
  generalize (upd (fun a => Accel.set_bottom (Z.land (Accel.dst_y_clip a) 0xfff) a)
    (upd (fun a => Accel.set_top (Z.land (Accel.src_y_clip a) 0xfff) a)
      (upd (fun a => Accel.set_right (Z.land (Accel.dst_x_clip a) 0xfff) a)
        (upd (fun a => Accel.set_left (Z.land (Accel.src_x_clip a) 0xfff) a) s)))).
  intros s1. change (accel (with_fb v c s1)) with (accel s1).
  destruct (s1#Accel.bpp =? 1); [reflexivity|].
  destruct (s1#Accel.bpp =? 3); reflexivity.
Qed.

(** The start of a blit leaves the framebuffer, the flags and the
    raster operation alone. *)
Lemma blit_start_frame (s : tgui_t) :
  let s' := load_clip (load_dxdy (load_pointers (entry_state (-1) 0 s))) in
  svga s' = svga s /\ s'#Accel.flags = s#Accel.flags
  /\ s'#Accel.rop = s#Accel.rop /\ s'#Accel.use_src = s#Accel.use_src
  /\ s'#Accel.size_x = s#Accel.size_x /\ s'#Accel.size_y = s#Accel.size_y
  /\ s'#Accel.x = 0 /\ s'#Accel.y = 0.
Proof.
  cbv zeta. rewrite entry_state_eq, entry_skip_start. cbn [fst].
  change (-1 =? -1) with true. cbv iota.
  unfold load_clip, load_dxdy, load_pointers, entry_regs, build_pattern.
  simp_state. case_ifs; repeat apply conj; reflexivity.
Qed.

Lemma fb_rel_start s v c :
  (forall a, svga_vram (svga s) a = v a
             \/ (svga_vram (svga s) a = F a /\ v a = G a)) ->
  s#Accel.rop = 0xf0 ->
  fb_rel F G (load_clip (load_dxdy (load_pointers (entry_state (-1) 0 s))))
    (load_clip (load_dxdy (load_pointers (entry_state (-1) 0 (with_fb v c s))))).
Proof.
  intros Hv Hrop. exists v, c.
  destruct (blit_start_frame s) as (Hs & _ & Hr & _).
  split; [|split].
  - rewrite entry_state_with_fb.
    rewrite load_pointers_with_fb, load_dxdy_with_fb, load_clip_with_fb.
    reflexivity.
  - rewrite Hs. exact Hv.
  - rewrite Hr. exact Hrop.
Qed.

Lemma fb_rel_fields s t :
  fb_rel F G s t ->
  accel t = accel s /\ svga_crtc (svga t) = svga_crtc (svga s).
Proof. intros (v & c & -> & _). split; reflexivity. Qed.

Lemma fb_rel_set_write_blitter w s t :
  fb_rel F G s t -> fb_rel F G (set_write_blitter w s) (set_write_blitter w t).
Proof.
  intros (v & c & -> & Hv & Hrop). exists v, c.
  split; [reflexivity|]. split; assumption.
Qed.

(** Both runs of a blit whose pixels do not depend on the framebuffer
    proceed in step. *)
Lemma fb_rel_blit fuel s v c :
  (forall a, svga_vram (svga s) a = v a
             \/ (svga_vram (svga s) a = F a /\ v a = G a)) ->
  s#Accel.command = TGUI_BITBLT ->
  s#Accel.rop = 0xf0 ->
  (reads_display s = true -> nz (Z.land (s#Accel.flags) TGUI_TRANSENA) = false) ->
  run_rel (fb_rel F G) (tgui_accel_command fuel (-1) 0 s)
                       (tgui_accel_command fuel (-1) 0 (with_fb v c s)).
Proof.
  intros Hv Hcmd Hrop Hop.
  pose proof (fb_rel_start s v c Hv Hrop) as H.
  destruct (blit_start_frame s) as (_ & Hfl & _).
  unfold tgui_accel_command.
  rewrite !entry_decompose.
  rewrite !entry_skip_start. cbn [fst snd].
  rewrite entry_locals_with_fb.
  rewrite !entry_state_command.
  change ((with_fb v c s)#Accel.command) with (s#Accel.command).
  rewrite Hcmd.
  change (TGUI_BITBLT =? TGUI_BITBLT) with true.
  change (-1 =? -1) with true. cbv iota.
  revert H Hfl.
  generalize (load_clip (load_dxdy (load_pointers (entry_state (-1) 0 s)))).
  generalize (load_clip (load_dxdy (load_pointers (entry_state (-1) 0 (with_fb v c s))))).
  generalize (entry_locals s).
  intros l t1 s1 H Hfl.
  destruct H as (v' & c' & -> & Hv' & Hrop').
  assert (H : fb_rel F G s1 (with_fb v' c' s1))
    by (exists v', c'; repeat apply conj; [reflexivity|exact Hv'|exact Hrop']).
  pose proof (fb_rel_set_write_blitter 1 _ _ H) as Hw.
  cbv zeta.
  change (accel (set_write_blitter 1 (with_fb v' c' s1))) with (accel s1).
  change (accel (set_write_blitter 1 s1)) with (accel s1).
  change (accel (with_fb v' c' s1)) with (accel s1).
  change (svga_crtc (svga (with_fb v' c' s1))) with (svga_crtc (svga s1)).
  rewrite Hfl.
  unfold reads_display in Hop.
  destruct (Z.land (s#Accel.flags) (Z.lor TGUI_SRCMONO TGUI_SRCDISP) =? TGUI_SRCCPU).
  { destruct (nz (Z.land (svga_crtc (svga s1) 33) 32)).
    - change (accel (set_write_blitter 1 (with_fb v' c' s1))) with (accel s1).
      change (accel (set_write_blitter 1 s1)) with (accel s1).
      destruct (nz (s1#Accel.use_src)); [exact Hw|].
      apply while_count_sim; [apply fb_rel_bitblt_cpu_body|exact Hw].
    - change (accel (with_fb v' c' s1)) with (accel s1).
      destruct (nz (s1#Accel.use_src)); [exact H|].
      apply while_count_sim; [apply fb_rel_bitblt_cpu_body|exact H]. }
  destruct (Z.land (s#Accel.flags) (Z.lor TGUI_SRCMONO TGUI_SRCDISP)
            =? Z.lor TGUI_SRCMONO TGUI_SRCCPU).
  { destruct (nz (Z.land (svga_crtc (svga s1) 33) 32)).
    - change (accel (set_write_blitter 1 (with_fb v' c' s1))) with (accel s1).
      change (accel (set_write_blitter 1 s1)) with (accel s1).
      destruct (nz (s1#Accel.use_src)); [exact Hw|].
      apply while_count_dec_sim; [apply fb_rel_bitblt_mono_body|exact Hw].
    - change (accel (with_fb v' c' s1)) with (accel s1).
      destruct (nz (s1#Accel.use_src)); [exact H|].
      apply while_count_dec_sim; [apply fb_rel_bitblt_mono_body|exact H]. }
  specialize (Hop eq_refl).
  assert (H' : fb_rel_opaque F G s1 (with_fb v' c' s1))
    by (split; [exact H|rewrite Hfl; exact Hop]).
  pose proof (while_count_dec_sim (fb_rel_opaque F G) _ _
                (fb_rel_bitblt_disp_body F G l) fuel (-1) 0 _ _ H') as R.
  destruct (while_count_dec fuel (bitblt_disp_body l) (-1) 0 s1),
           (while_count_dec fuel (bitblt_disp_body l) (-1) 0 (with_fb v' c' s1));
    simpl in R |- *; try contradiction; apply R.
Qed.

End Again.

(** ** The blit returns *)

Lemma s16_small (z : Z) : -0x8000 <= z < 0x8000 -> s16 z = z.
Proof. intros H. unfold s16. rewrite Z.mod_small by lia. lia. Qed.

Lemma accel_draw_from_cpu l s c d :
  accel (fst (fst (draw_from_cpu l s c d))) = accel s.
Proof.
  unfold draw_from_cpu.
  destruct (clip_blt s); [|reflexivity].
  destruct (s#Accel.bpp =? 0); [|destruct (s#Accel.bpp =? 1)]; cbv beta iota;
    match goal with |- context [if ?b then _ else _] => destruct b end;
    cbn [fst snd]; rewrite ?accel_WRITE; reflexivity.
Qed.

Lemma accel_draw_from_mono l s d : accel (draw_from_mono l s d) = accel s.
Proof.
  unfold draw_from_mono.
  destruct (clip_blt s); [|reflexivity]. cbv zeta.
  match goal with |- context [if ?b then WRITE _ _ _ else _] => destruct b end;
    rewrite ?accel_WRITE; reflexivity.
Qed.

Lemma accel_draw_from_display l s : accel (draw_from_display l s) = accel s.
Proof.
  unfold draw_from_display. cbv zeta.
  match goal with |- context [if ?b then WRITE _ _ _ else _] => destruct b end;
    rewrite ?accel_WRITE; reflexivity.
Qed.

(** The invariant and the measure of a blit read the accelerator
    registers only. *)
Lemma blit_inv_accel s t : accel t = accel s -> blit_inv s -> blit_inv t.
Proof. unfold blit_inv. intros ->. exact (fun H => H). Qed.

Lemma blit_measure_accel s t : accel t = accel s -> blit_measure t = blit_measure s.
Proof. unfold blit_measure. intros ->. reflexivity. Qed.

(** One more pixel of a row, or the first pixel of the next row: the
    blit is closer to its end. *)
Lemma blit_progress (sx sy x y : Z) :
  sx < 0x7fff -> sy < 0x7fff -> 0 <= x <= Z.max 0 sx -> 0 <= y <= Z.max 0 sy ->
  s16 (x + 1) = x + 1 /\ s16 (y + 1) = y + 1
  /\ (x + 1 <= sx ->
      (Z.to_nat ((Z.max 0 sy - y) * (Z.max 0 sx + 1) + (Z.max 0 sx - (x + 1)))
       < Z.to_nat ((Z.max 0 sy - y) * (Z.max 0 sx + 1) + (Z.max 0 sx - x)))%nat)
  /\ (y + 1 <= sy ->
      (Z.to_nat ((Z.max 0 sy - (y + 1)) * (Z.max 0 sx + 1) + (Z.max 0 sx - 0))
       < Z.to_nat ((Z.max 0 sy - y) * (Z.max 0 sx + 1) + (Z.max 0 sx - x)))%nat).
Proof.
  intros Hsx Hsy Hx Hy.
  split; [apply s16_small; lia|]. split; [apply s16_small; lia|].
  split; intros H; apply Z2Nat.inj_lt; nia.
Qed.

Ltac blit_step :=
  match goal with
  | Hinv : blit_inv ?s |- _ =>
      let Hsx := fresh "Hsx" in let Hsy := fresh "Hsy" in
      let Hx := fresh "Hx" in let Hy := fresh "Hy" in
      let Ex := fresh "Ex" in let Ey := fresh "Ey" in
      let Mx := fresh "Mx" in let My := fresh "My" in
      let E := fresh "E" in
      destruct Hinv as (Hsx & Hsy & Hx & Hy);
      destruct (blit_progress _ _ _ _ Hsx Hsy Hx Hy) as (Ex & Ey & Mx & My);
      unfold blit_inv, blit_measure; simp_state; rewrite ?Ex, ?Ey;
      case_ifs; intros E; inversion E; subst; clear E;
      unfold blit_inv, blit_measure; simp_state; rewrite ?Ex, ?Ey in *;
      (split; [repeat apply conj; lia|]);
      first [apply Mx; lia | apply My; lia]
  end.

Lemma blit_progress_cpu l s c d s' c' d' :
  blit_inv s -> bitblt_cpu_body l s c d = Continue s' c' d' ->
  blit_inv s' /\ (blit_measure s' < blit_measure s)%nat.
Proof.
  intros Hinv. unfold bitblt_cpu_body.
  pose proof (accel_draw_from_cpu l s c d) as Ha.
  destruct (draw_from_cpu l s c d) as [[s1 c1] d1]. cbn [fst snd] in Ha.
  rewrite <- (blit_measure_accel _ _ Ha).
  apply (blit_inv_accel _ _ Ha) in Hinv. clear Ha. revert Hinv.
  unfold step_x_cpu, end_row_cpu, advance_x, advance_row.
  intros Hinv. blit_step.
Qed.

Lemma blit_progress_mono l s c d s' c' d' :
  blit_inv s -> bitblt_mono_body l s c d = Continue s' c' d' ->
  blit_inv s' /\ (blit_measure s' < blit_measure s)%nat.
Proof.
  intros Hinv. unfold bitblt_mono_body.
  pose proof (accel_draw_from_mono l s d) as Ha.
  rewrite <- (blit_measure_accel _ _ Ha).
  apply (blit_inv_accel _ _ Ha) in Hinv. clear Ha. revert Hinv.
  generalize (draw_from_mono l s d). intros s1.
  unfold step_x_cpu, end_row_cpu, advance_x, advance_row.
  intros Hinv. blit_step.
Qed.

Lemma blit_progress_disp l s c d s' c' d' :
  blit_inv s -> bitblt_disp_body l s c d = Continue s' c' d' ->
  blit_inv s' /\ (blit_measure s' < blit_measure s)%nat.
Proof.
  intros Hinv. unfold bitblt_disp_body.
  pose proof (accel_draw_from_display l s) as Ha.
  rewrite <- (blit_measure_accel _ _ Ha).
  apply (blit_inv_accel _ _ Ha) in Hinv. clear Ha. revert Hinv.
  generalize (draw_from_display l s). intros s1.
  unfold step_x, end_row_disp, advance_x, advance_row.
  intros Hinv. blit_step.
Qed.

Lemma while_count_dec_terminates (I : tgui_t -> Prop) (m : tgui_t -> nat)
    (body : tgui_t -> Z -> Z -> flow) :
  (forall s c d s' c' d', I s -> body s c d = Continue s' c' d' ->
     I s' /\ (m s' < m s)%nat) ->
  forall fuel c d s, I s -> (m s < fuel)%nat ->
    exists s', while_count_dec fuel body c d s = Done s'.
Proof.
  intros Hbody. unfold while_count_dec. apply while_count_terminates.
  intros s c d s' c' d'. apply Hbody.
Qed.

(** A blit of a rectangle below 32767 x 32767 returns, given fuel for
    each of its pixels. *)
Lemma blit_returns fuel s :
  s#Accel.command = TGUI_BITBLT ->
  s#Accel.size_x < 0x7fff -> s#Accel.size_y < 0x7fff ->
  (blit_pixels s <= fuel)%nat ->
  exists s', tgui_accel_command fuel (-1) 0 s = Done s'.
Proof.
  intros Hcmd Hsx Hsy Hfuel.
  destruct (blit_start_frame s) as (_ & _ & _ & _ & Esx & Esy & Ex & Ey).
  unfold tgui_accel_command.
  rewrite entry_decompose.
  rewrite entry_skip_start. cbn [fst snd].
  rewrite entry_state_command, Hcmd.
  change (TGUI_BITBLT =? TGUI_BITBLT) with true.
  change (-1 =? -1) with true. cbv iota.
  revert Esx Esy Ex Ey.
  generalize (load_clip (load_dxdy (load_pointers (entry_state (-1) 0 s)))).
  generalize (entry_locals s).
  intros l s1 Esx Esy Ex Ey. cbv zeta.
  assert (Hinv : blit_inv s1) by (unfold blit_inv; rewrite Esx, Esy, Ex, Ey; lia).
  assert (Hm : (blit_measure s1 < fuel)%nat).
  { unfold blit_measure. rewrite Esx, Esy, Ex, Ey.
    unfold blit_pixels in Hfuel.
    eapply Nat.lt_le_trans; [|exact Hfuel].
    apply Z2Nat.inj_lt; nia. }
  assert (Hinv' : forall w, blit_inv (set_write_blitter w s1)) by (intros w; exact Hinv).
  assert (Hm' : forall w, (blit_measure (set_write_blitter w s1) < fuel)%nat)
    by (intros w; exact Hm).
  destruct (_ =? TGUI_SRCCPU).
  { destruct (nz (Z.land _ _)); (destruct (nz _); [eauto|]);
      eapply while_count_terminates; eauto using blit_progress_cpu. }
  destruct (_ =? Z.lor TGUI_SRCMONO TGUI_SRCCPU).
  { destruct (nz (Z.land _ _)); (destruct (nz _); [eauto|]);
      eapply while_count_dec_terminates; eauto using blit_progress_mono. }
  eapply while_count_dec_terminates; eauto using blit_progress_disp.
Qed.

(** C9, counterexample. A solid fill with raster operation 0xf0 that
    reads its source from the display with the transparency test on:
    the first run leaves byte 10 alone (its source pixel, byte 11, has
    the transparent colour) and fills byte 11; the second run, from the
    same registers, finds byte 11 filled and writes byte 10. *)
Lemma keyed_fill_not_idempotent :
  keyed_fill#Accel.command = TGUI_BITBLT
  /\ keyed_fill#Accel.rop = 0xf0
  /\ nz (Z.land (keyed_fill#Accel.flags) TGUI_SOLIDFILL) = true
  /\ exists s1 s2,
       tgui_accel_command 2 (-1) 0 keyed_fill = Done s1
       /\ tgui_accel_command 2 (-1) 0 (restart_on s1 keyed_fill) = Done s2
       /\ svga_vram (svga s1) 10 = 0
       /\ svga_vram (svga s2) 10 = 0xab.
Proof.
  split; [reflexivity|]. split; [reflexivity|]. split; [reflexivity|].
  eexists. eexists.
  split; [vm_compute; reflexivity|].
  split; [vm_compute; reflexivity|].
  split; vm_compute; reflexivity.
Qed.

(** C9, as the code has it. A blit with raster operation 0xf0 (the
    pattern alone, so in particular a solid fill) whose pixels are not
    chosen by the framebuffer, that is, one that does not read its
    source from the display with the transparency test on: whenever the
    command returns, the command started again from the same registers
    on the framebuffer it left returns as well, and leaves every byte
    as it found it.  The command does return for a rectangle below
    32767 x 32767, given fuel for each pixel. *)
Theorem solid_fill_idempotent (fuel : nat) (s : tgui_t) :
  s#Accel.command = TGUI_BITBLT ->
  s#Accel.rop = 0xf0 ->
  (reads_display s = true -> nz (Z.land (s#Accel.flags) TGUI_TRANSENA) = false) ->
  (forall s1, tgui_accel_command fuel (-1) 0 s = Done s1 ->
     exists s2, tgui_accel_command fuel (-1) 0 (restart_on s1 s) = Done s2
       /\ forall a, svga_vram (svga s2) a = svga_vram (svga s1) a)
  /\ (s#Accel.size_x < 0x7fff -> s#Accel.size_y < 0x7fff ->
      (blit_pixels s <= fuel)%nat ->
      exists s1, tgui_accel_command fuel (-1) 0 s = Done s1).
Proof.
  intros Hcmd Hrop Hop. split; [|intros; apply blit_returns; assumption].
  intros s1 E1.
  pose proof (fb_rel_blit (svga_vram (svga s)) (svga_vram (svga s1)) fuel s
                (svga_vram (svga s1)) (svga_changedvram (svga s1))) as R.
  specialize (R (fun a => or_intror (conj eq_refl eq_refl)) Hcmd Hrop Hop).
  fold (restart_on s1 s) in R. rewrite E1 in R.
  destruct (tgui_accel_command fuel (-1) 0 (restart_on s1 s)) as [s2|s2];
    [|contradiction].
  exists s2. split; [reflexivity|].
  destruct R as (v & c & -> & Hv & _). intros a.
  change (v a = svga_vram (svga s1) a).
  destruct (Hv a) as [H|[_ H]]; [symmetry|]; exact H.
Qed.

Lemma solid_fill_idempotent_witness :
  plain_fill#Accel.command = TGUI_BITBLT
  /\ plain_fill#Accel.rop = 0xf0
  /\ nz (Z.land (plain_fill#Accel.flags) TGUI_TRANSENA) = false
  /\ ((forall s1, tgui_accel_command 2 (-1) 0 plain_fill = Done s1 ->
        exists s2, tgui_accel_command 2 (-1) 0 (restart_on s1 plain_fill) = Done s2
          /\ forall a, svga_vram (svga s2) a = svga_vram (svga s1) a)
      /\ (plain_fill#Accel.size_x < 0x7fff -> plain_fill#Accel.size_y < 0x7fff ->
          (blit_pixels plain_fill <= 2)%nat ->
          exists s1, tgui_accel_command 2 (-1) 0 plain_fill = Done s1)).
Proof.
  split; [reflexivity|]. split; [reflexivity|]. split; [reflexivity|].
  apply (solid_fill_idempotent 2 plain_fill); reflexivity.
Defined.


(** C7, counterexample. The fast line command on a TGUI 9440 set up
    for a solid fill: the command draws nothing, but the entry code has
    filled the pattern cache with the foreground colour and computed
    the pitch. *)
Lemma fastline_rewrites_pattern_cache :
  fastline_start#Accel.command = TGUI_FASTLINE
  /\ type fastline_start = TGUI_9440
  /\ exists s', tgui_accel_command 0 (-1) 0 fastline_start = Done s'
       /\ aget (fastline_start#Accel.fill_pattern) 0 = 0
       /\ aget (s'#Accel.fill_pattern) 0 = 0xab
       /\ fastline_start#Accel.pitch = 0
       /\ s'#Accel.pitch = 1024.
Proof.
  split; [reflexivity|]. split; [reflexivity|].
  eexists. split; [vm_compute; reflexivity|].
  repeat apply conj; vm_compute; reflexivity.
Qed.

Lemma fastline_on_older_chip_witness :
  fastline_start#Accel.command = TGUI_FASTLINE
  /\ type fastline_start < TGUI_9660
  /\ exists s', tgui_accel_command 0 (-1) 0 fastline_start = Done s'
       /\ svga s' = svga fastline_start
       /\ write_blitter s' = write_blitter fastline_start
       /\ entry_blind (accel s') = entry_blind (accel fastline_start)
       /\ s'#Accel.x = 0 /\ s'#Accel.y = 0 /\ s'#Accel.pattern_32_idx = 0.
Proof.
  split; [reflexivity|]. split; [reflexivity|].
  apply (fastline_on_older_chip 0 fastline_start); reflexivity.
Defined.

(** ** Streaming a blit in chunks *)

Lemma for8_cell_writes (idx val : Z -> Z -> Z) (arr : list Z) :
  for8 (fun y => for8 (fun x arr => aset arr (idx y x) (val y x))) arr
  = apply_writes (cell_writes idx val) arr.
Proof. reflexivity. Qed.

Lemma apply_writes_absorb (ws : list (Z * Z)) (i v : Z) (arr : list Z) :
  aset (apply_writes ws (aset arr i v)) i v = aset (apply_writes ws arr) i v.
Proof.
  revert arr. induction ws as [|[j w] ws IH]; intros arr.
  - apply list_insert_insert_eq.
  - unfold apply_writes in *. cbn [fold_left fst snd]. unfold aset in *.
    destruct (decide (Z.to_nat j = Z.to_nat i)) as [E|E].
    + rewrite E, list_insert_insert_eq. reflexivity.
    + rewrite list_insert_insert_ne by exact E. apply IH.
Qed.

(** Assigning the same cells a second time changes nothing. *)
Lemma apply_writes_idem (ws : list (Z * Z)) (arr : list Z) :
  apply_writes ws (apply_writes ws arr) = apply_writes ws arr.
Proof.
  induction ws as [|[i v] ws IH] using rev_ind; [reflexivity|].
  unfold apply_writes in *. rewrite !fold_left_app. cbn [fold_left fst snd].
  rewrite (apply_writes_absorb ws i v). unfold apply_writes.
  rewrite IH. reflexivity.
Qed.

Lemma for8_idem (idx val : Z -> Z -> Z) (arr : list Z) :
  for8 (fun y => for8 (fun x arr => aset arr (idx y x) (val y x)))
    (for8 (fun y => for8 (fun x arr => aset arr (idx y x) (val y x))) arr)
  = for8 (fun y => for8 (fun x arr => aset arr (idx y x) (val y x))) arr.
Proof. rewrite !for8_cell_writes. apply apply_writes_idem. Qed.

Ltac beside :=
  unfold beside_entry, beside_cache; repeat first [apply conj | intro]; reflexivity.

(** The pattern cache after an assignment beside it. *)
Lemma build_pattern_upd (g : Accel.t -> Accel.t) (s : tgui_t) :
  beside_cache g ->
  build_pattern (upd g s) = (upd g (fst (build_pattern s)), snd (build_pattern s)).
Proof.
  intros (Hv & H1 & H2 & H3 & H4 & H5).
  unfold build_pattern. cbv zeta.
  change (accel (upd g s)) with (g (accel s)).
  destruct (Hv (accel s)) as (-> & -> & -> & -> & -> & -> & -> & -> & -> & -> & ->).
  repeat match goal with |- context [if ?b then _ else _] => destruct b end;
    cbn [fst snd]; unfold upd;
    cbn [accel set_accel svga type vram_size vram_mask write_blitter];
    rewrite ?H1, ?H2, ?H3, ?H4, ?H5; reflexivity.
Qed.

Lemma build_pattern_svga (s : tgui_t) : svga (fst (build_pattern s)) = svga s.
Proof.
  unfold build_pattern. cbv zeta.
  repeat match goal with |- context [if ?b then _ else _] => destruct b end;
    reflexivity.
Qed.

(** Built a second time, the cache is the same. *)
Lemma build_pattern_idem (s : tgui_t) :
  build_pattern (fst (build_pattern s)) = (fst (build_pattern s), snd (build_pattern s)).
Proof.
  unfold build_pattern. cbv zeta.
  destruct (nz (Z.land (Accel.flags (accel s)) TGUI_SOLIDFILL)) eqn:E1.
  { cbn [fst snd]. simp_state. rewrite E1, for8_idem.
    unfold upd. simp_state. reflexivity. }
  destruct (nz (Z.land (Accel.flags (accel s)) TGUI_PATMONO)) eqn:E2.
  { cbn [fst snd]. simp_state. rewrite E1, E2, for8_idem.
    unfold upd. simp_state. reflexivity. }
  destruct (Accel.bpp (accel s) =? 0) eqn:E3.
  { cbn [fst snd]. simp_state. rewrite E1, E2, E3, for8_idem.
    unfold upd. simp_state. reflexivity. }
  destruct (Accel.bpp (accel s) =? 1) eqn:E4.
  { cbn [fst snd]. simp_state. rewrite E1, E2, E3, E4, for8_idem.
    unfold upd. simp_state. reflexivity. }
  cbn [fst snd]. simp_state. rewrite E1, E2, E3, E4, for8_idem.
  unfold upd. simp_state. reflexivity.
Qed.

Lemma entry_pitch_svga (s t : tgui_t) : svga t = svga s -> entry_pitch t = entry_pitch s.
Proof. unfold entry_pitch. intros ->. reflexivity. Qed.

(** [entry_regs] as three assignments to the accelerator. *)
Lemma entry_regs_eq (s : tgui_t) :
  entry_regs s
  = upd (Accel.set_pitch (entry_pitch s))
      (upd (Accel.set_pattern_32_idx 0) (fst (build_pattern s))).
Proof.
  unfold entry_regs. cbv zeta.
  rewrite build_pattern_upd by beside. cbn [fst].
  rewrite (entry_pitch_svga s) by (cbn [upd set_accel svga]; apply build_pattern_svga).
  reflexivity.
Qed.

Lemma entry_locals_eq (s : tgui_t) :
  entry_locals s
  = mk_locals (entry_xdir s) (entry_ydir s) (entry_trans_col s) (snd (build_pattern s)).
Proof.
  unfold entry_locals. rewrite build_pattern_upd by beside. reflexivity.
Qed.

Lemma entry_regs_idem (s : tgui_t) : entry_regs (entry_regs s) = entry_regs s.
Proof.
  rewrite (entry_regs_eq (entry_regs s)).
  rewrite (entry_regs_eq s) at 1 2.
  rewrite !build_pattern_upd by beside. cbn [fst].
  rewrite build_pattern_idem. cbn [fst].
  rewrite (entry_pitch_svga s)
    by (cbn [upd set_accel svga]; apply build_pattern_svga).
  rewrite entry_regs_eq.
  generalize (fst (build_pattern s)) (entry_pitch s). intros t p.
  unfold upd. simp_state. reflexivity.
Qed.

(** [entry_regs] writes the registers of the entry code only. *)
Lemma entry_regs_with_entry_of (s : tgui_t) :
  entry_regs s = with_entry_of (entry_regs s) s.
Proof.
  rewrite (entry_regs_eq s). generalize (entry_pitch s). intros p.
  unfold build_pattern. cbv zeta.
  destruct s as [g ty a sz m wb]. destruct a.
  repeat match goal with |- context [if ?b then _ else _] => destruct b end;
    reflexivity.
Qed.

Lemma with_entry_of_with_fb t v c s :
  with_entry_of t (with_fb v c s) = with_fb v c (with_entry_of t s).
Proof. reflexivity. Qed.

Lemma entry_regs_upd (g : Accel.t -> Accel.t) (s : tgui_t) :
  beside_entry g -> entry_regs (upd g s) = upd g (entry_regs s).
Proof.
  intros (Hc & Hp & Hi).
  rewrite !entry_regs_eq, build_pattern_upd by exact Hc. cbn [fst].
  change (entry_pitch (upd g s)) with (entry_pitch s).
  generalize (fst (build_pattern s)) (entry_pitch s). intros t p.
  unfold upd. cbn [accel set_accel svga type vram_size vram_mask write_blitter].
  rewrite Hp, Hi. reflexivity.
Qed.

Section WithEntry.

Variable t : tgui_t.

Lemma draw_from_cpu_with_entry_of l s c d :
  draw_from_cpu l (with_entry_of t s) c d
  = (with_entry_of t (fst (fst (draw_from_cpu l s c d))),
     snd (fst (draw_from_cpu l s c d)), snd (draw_from_cpu l s c d)).
Proof.
  unfold draw_from_cpu, READ, WRITE, vram_index, mark_changed,
    clip_blt, pattern_fetch, MIX.
  unfold with_entry_of. same_code.
Qed.

End WithEntry.

Lemma with_fb_same (s : tgui_t) :
  with_fb (svga_vram (svga s)) (svga_changedvram (svga s)) s = s.
Proof. destruct s as [[]]. reflexivity. Qed.

(** A drawn pixel changes the framebuffer and its change tracking
    only. *)
Lemma WRITE_with_fb (s : tgui_t) (addr dat : Z) :
  exists v c, WRITE s addr dat = with_fb v c s.
Proof.
  unfold WRITE. cbv zeta.
  destruct (s#Accel.bpp =? 0); [|destruct (s#Accel.bpp =? 1)];
    eexists; eexists; reflexivity.
Qed.

Lemma draw_from_cpu_with_fb l s c d :
  exists v c0, fst (fst (draw_from_cpu l s c d)) = with_fb v c0 s.
Proof.
  assert (Hs : exists v c0, s = with_fb v c0 s)
    by (eexists; eexists; symmetry; apply with_fb_same).
  unfold draw_from_cpu.
  destruct (clip_blt s); [|exact Hs].
  destruct (s#Accel.bpp =? 0); [|destruct (s#Accel.bpp =? 1)]; cbv beta iota;
    match goal with |- context [if ?b then _ else _] => destruct b end;
    cbn [fst snd]; first [exact Hs | apply WRITE_with_fb].
Qed.

(** The entry code and the drawing of a pixel do not see each other. *)
Lemma entry_regs_draw_from_cpu l s c d :
  entry_regs (fst (fst (draw_from_cpu l s c d)))
  = fst (fst (draw_from_cpu l (entry_regs s) c d)).
Proof.
  rewrite (entry_regs_with_entry_of s) at 1.
  rewrite draw_from_cpu_with_entry_of. cbn [fst].
  destruct (draw_from_cpu_with_fb l s c d) as (v & c0 & ->).
  rewrite entry_regs_with_fb, with_entry_of_with_fb.
  rewrite <- entry_regs_with_entry_of. reflexivity.
Qed.

Lemma entry_regs_type (s : tgui_t) : type (entry_regs s) = type s.
Proof. apply entry_regs_frame. Qed.

Lemma entry_regs_step_x_cpu l s :
  entry_regs (step_x_cpu l s) = step_x_cpu l (entry_regs s).
Proof.
  unfold step_x_cpu, advance_x. cbv zeta.
  change (type (upd (fun a => Accel.set_pat_x (s32 (Accel.pat_x a + xdir l)) a)
            (upd (fun a => Accel.set_dst (u32 (Accel.dst a + xdir l)) a)
               (upd (fun a => Accel.set_src (u32 (Accel.src a + xdir l)) a)
                  (entry_regs s)))))
    with (type (entry_regs s)).
  rewrite entry_regs_type.
  change (type (upd (fun a => Accel.set_pat_x (s32 (Accel.pat_x a + xdir l)) a)
            (upd (fun a => Accel.set_dst (u32 (Accel.dst a + xdir l)) a)
               (upd (fun a => Accel.set_src (u32 (Accel.src a + xdir l)) a) s))))
    with (type s).
  destruct (type s >=? TGUI_9660); rewrite !entry_regs_upd by beside; reflexivity.
Qed.

Lemma entry_regs_cpu_pixel l s b :
  entry_regs (cpu_pixel l s b) = cpu_pixel l (entry_regs s) b.
Proof.
  unfold cpu_pixel. rewrite entry_regs_step_x_cpu, entry_regs_draw_from_cpu.
  reflexivity.
Qed.

Lemma build_pattern_regs (s : tgui_t) :
  Accel.flags (accel (fst (build_pattern s))) = s#Accel.flags
  /\ Accel.fg_col (accel (fst (build_pattern s))) = s#Accel.fg_col
  /\ Accel.bg_col (accel (fst (build_pattern s))) = s#Accel.bg_col
  /\ Accel.bpp (accel (fst (build_pattern s))) = s#Accel.bpp.
Proof.
  unfold build_pattern. cbv zeta.
  repeat match goal with |- context [if ?b then (_, _) else _] => destruct b end;
    repeat apply conj; reflexivity.
Qed.

(** The locals of the next call are those of this one. *)
Lemma entry_locals_entry_regs (s : tgui_t) : entry_locals (entry_regs s) = entry_locals s.
Proof.
  rewrite !entry_locals_eq, entry_regs_eq.
  rewrite !build_pattern_upd by beside. cbn [snd].
  rewrite build_pattern_idem. cbn [snd].
  destruct (build_pattern_regs s) as (Hfl & Hfg & Hbg & Hbpp).
  unfold entry_xdir, entry_ydir, entry_trans_col.
  cbn [upd set_accel accel Accel.flags Accel.set_pitch Accel.set_pattern_32_idx
       Accel.bpp Accel.fg_col Accel.bg_col].
  rewrite Hfl, Hfg, Hbg, Hbpp. reflexivity.
Qed.

Lemma entry_locals_upd (g : Accel.t -> Accel.t) (s : tgui_t) :
  beside_cache g -> entry_locals (upd g s) = entry_locals s.
Proof.
  intros Hc. rewrite !entry_locals_eq, build_pattern_upd by exact Hc. cbn [snd].
  destruct Hc as (Hv & _).
  destruct (Hv (accel s)) as (Hfl & Hfg & Hbg & Hbpp & _).
  unfold entry_xdir, entry_ydir, entry_trans_col.
  change (accel (upd g s)) with (g (accel s)).
  rewrite Hfl, Hfg, Hbg, Hbpp. reflexivity.
Qed.

Lemma entry_locals_step_x_cpu l' s :
  entry_locals (step_x_cpu l' s) = entry_locals s.
Proof.
  unfold step_x_cpu, advance_x. cbv zeta.
  match goal with |- context [if ?b then _ else _] => destruct b end;
    rewrite !entry_locals_upd by beside; reflexivity.
Qed.

Lemma entry_locals_cpu_pixel l s b : entry_locals (cpu_pixel l s b) = entry_locals s.
Proof.
  unfold cpu_pixel. rewrite entry_locals_step_x_cpu.
  destruct (draw_from_cpu_with_fb l s 0 (Z.shiftl b 24)) as (v & c0 & ->).
  apply entry_locals_with_fb.
Qed.

(** *** The bytes of a chunk, in the order the blit takes them *)

Ltac byte_masks :=
  unfold u32, u16, u8;
  change 0xff000000 with (Z.shiftl (Z.ones 8) 24);
  change 0x00ff0000 with (Z.shiftl (Z.ones 8) 16);
  change 0xff00 with (Z.shiftl (Z.ones 8) 8);
  change 0xffffffff with (Z.ones 32);
  change 0xffff with (Z.ones 16);
  change 0xff with (Z.ones 8).

Ltac byte_bits :=
  apply Z.bits_inj'; intros n Hn; byte_masks; bits_unfold; bits_cases;
  rewrite ?andb_true_r, ?andb_false_r, ?orb_false_r, ?orb_false_l,
    ?andb_true_l, ?andb_false_l; try reflexivity;
  try (f_equal; lia).

Lemma byte_write_top (v : Z) : Z.shiftr (u32 (Z.shiftl (u8 v) 24)) 24 = u8 v.
Proof. byte_bits. Qed.

Lemma shiftr_shiftl_24 (b : Z) : Z.shiftr (Z.shiftl b 24) 24 = b.
Proof. apply Z.bits_inj'; intros n Hn. bits_unfold. bits_cases. f_equal. lia. Qed.

Lemma word_write_top (v : Z) :
  let d := u32 (Z.shiftl (Z.lor (Z.shiftr (Z.land (u16 v) 0xff00) 8)
                                (Z.shiftl (Z.land (u16 v) 0x00ff) 8)) 16) in
  Z.shiftr d 24 = u8 v /\ Z.shiftr (u32 (Z.shiftl d 8)) 24 = u8 (Z.shiftr v 8).
Proof. cbv zeta. split; byte_bits. Qed.

Lemma long_write_top (v : Z) :
  let d := Z.lor (Z.lor (Z.shiftr (Z.land (u32 v) 0xff000000) 24)
                        (Z.shiftr (Z.land (u32 v) 0x00ff0000) 8))
                 (Z.lor (Z.shiftl (Z.land (u32 v) 0x0000ff00) 8)
                        (u32 (Z.shiftl (Z.land (u32 v) 0x000000ff) 24))) in
  Z.shiftr d 24 = u8 v
  /\ Z.shiftr (u32 (Z.shiftl d 8)) 24 = u8 (Z.shiftr v 8)
  /\ Z.shiftr (u32 (Z.shiftl (u32 (Z.shiftl d 8)) 8)) 24 = u8 (Z.shiftr v 16)
  /\ Z.shiftr (u32 (Z.shiftl (u32 (Z.shiftl (u32 (Z.shiftl d 8)) 8)) 8)) 24
     = u8 (Z.shiftr v 24).
Proof. cbv zeta. repeat apply conj; byte_bits. Qed.

(** *** One call of the command per chunk *)

Lemma streaming_weaken (n m : Z) (s : tgui_t) :
  0 <= m <= n -> streaming n s -> streaming m s.
Proof.
  intros Hm (Hcmd & Hmode & Hbpp & Hwb & Hx0 & Hxn & Hsx & Hclip).
  unfold streaming. repeat apply conj; try assumption; try lia.
  destruct Hclip as [Hty|(Hty & Hl & Hr & Hdx & Hdn & Hdy)]; [left; exact Hty|].
  right. repeat apply conj; try assumption; try lia.
  - unfold entry_xdir in *. destruct (nz (Z.land _ _)); lia.
  - unfold entry_xdir in *. destruct (nz (Z.land _ _)); lia.
Qed.

Lemma streaming_clip_blt (n : Z) (s : tgui_t) :
  streaming n s -> clip_blt s = true.
Proof.
  intros (_ & _ & _ & _ & _ & _ & _ & Hclip). unfold clip_blt.
  destruct Hclip as [Hty|(Hty & Hl & Hr & Hdx & Hdn & Hdy)].
  - rewrite Hty. reflexivity.
  - apply orb_true_iff. right. rewrite !andb_true_iff.
    repeat apply conj;
      first [apply Z.geb_le; lia | apply Z.leb_le; lia].
Qed.

Lemma streaming_entry_regs (n : Z) (s : tgui_t) :
  streaming n s -> streaming n (entry_regs s).
Proof.
  intros H. rewrite entry_regs_with_entry_of. exact H.
Qed.

Lemma streaming_cpu_pixel (n : Z) (l : locals) (s : tgui_t) (b : Z) :
  xdir l = entry_xdir s -> 1 <= n -> streaming n s ->
  streaming (n - 1) (cpu_pixel l s b).
Proof.
  intros Hl Hn (Hcmd & Hmode & Hbpp & Hwb & Hx0 & Hxn & Hsx & Hclip).
  unfold cpu_pixel.
  destruct (draw_from_cpu_with_fb l s 0 (Z.shiftl b 24)) as (v & c0 & ->).
  unfold streaming, clip_passes, entry_xdir, step_x_cpu, advance_x in *.
  cbv zeta. simp_state. rewrite Hl.
  destruct Hclip as [Hty|(Hty & Hle & Hr & Hdx & Hdn & Hdy)].
  - rewrite Hty. change (TGUI_9440 >=? TGUI_9660) with false. simp_state.
    rewrite (s16_small (Accel.x (accel s) + 1)) by lia.
    repeat apply conj; try assumption; try lia; left; reflexivity.
  - destruct (Z.geb_spec (type s) TGUI_9660) as [_|]; [|lia]. simp_state.
    rewrite (s16_small (Accel.x (accel s) + 1)) by lia.
    repeat apply conj; try assumption; try lia; right;
      destruct (nz (Z.land (Accel.flags (accel s)) 512));
      rewrite s16_small by lia; repeat apply conj; try assumption; lia.
Qed.

(** In 8 bpp a drawn pixel takes the top byte of the data and moves the
    data up by one byte. *)
Lemma draw_from_cpu_8 l s c d :
  s#Accel.bpp = 0 -> clip_blt s = true ->
  draw_from_cpu l s c d
  = (fst (fst (draw_from_cpu l s 0 (Z.shiftl (Z.shiftr d 24) 24))),
     c, u32 (Z.shiftl d 8)).
Proof.
  intros Hbpp Hclip. unfold draw_from_cpu. rewrite Hclip, Hbpp.
  change (0 =? 0) with true. cbv beta iota.
  rewrite shiftr_shiftl_24.
  match goal with |- context [if ?b then _ else _] => destruct b end;
    reflexivity.
Qed.

Lemma while_count_zero fuel body d s : while_count fuel body 0 d s = Done s.
Proof. destruct fuel; reflexivity. Qed.

(** A pixel that is not the last of its row. *)
Lemma bitblt_cpu_body_inside (n : Z) l s c d :
  xdir l = entry_xdir s -> 1 <= n -> streaming n s ->
  bitblt_cpu_body l s c d
  = Continue (cpu_pixel l s (Z.shiftr d 24)) (s32 (c - 1)) (u32 (Z.shiftl d 8)).
Proof.
  intros Hl Hn H.
  pose proof (streaming_cpu_pixel n l s (Z.shiftr d 24) Hl Hn H)
    as (_ & _ & _ & _ & Hx0 & Hxn & _).
  pose proof H as (_ & _ & Hbpp & _).
  unfold bitblt_cpu_body.
  rewrite (draw_from_cpu_8 l s c d Hbpp (streaming_clip_blt n s H)).
  cbv beta iota. fold (cpu_pixel l s (Z.shiftr d 24)).
  destruct (Z.gtb_spec ((cpu_pixel l s (Z.shiftr d 24))#Accel.x)
                       ((cpu_pixel l s (Z.shiftr d 24))#Accel.size_x));
    [lia|reflexivity].
Qed.

Lemma while_count_inside (n : Z) fuel l s c d :
  xdir l = entry_xdir s -> 1 <= n -> streaming n s -> c <> 0 ->
  while_count (S fuel) (bitblt_cpu_body l) c d s
  = while_count fuel (bitblt_cpu_body l) (s32 (c - 1)) (u32 (Z.shiftl d 8))
      (cpu_pixel l s (Z.shiftr d 24)).
Proof.
  intros Hl Hn H Hc. cbn [while_count].
  destruct (Z.eqb_spec c 0) as [|_]; [contradiction|].
  rewrite (bitblt_cpu_body_inside n l s c d Hl Hn H). reflexivity.
Qed.

(** The last pixel of a chunk, wherever it is in its row. *)
Lemma while_count_last fuel l s d :
  s#Accel.bpp = 0 -> clip_blt s = true ->
  while_count (S fuel) (bitblt_cpu_body l) 1 d s
  = Done (cpu_last_pixel l s (Z.shiftr d 24)).
Proof.
  intros Hbpp Hclip. unfold cpu_last_pixel. cbn [while_count].
  change (1 =? 0) with false. cbv iota.
  unfold bitblt_cpu_body.
  rewrite (draw_from_cpu_8 l s 1 d Hbpp Hclip).
  rewrite (draw_from_cpu_8 l s 1 (Z.shiftl (Z.shiftr d 24) 24) Hbpp Hclip).
  rewrite shiftr_shiftl_24. cbv beta iota.
  generalize (step_x_cpu l (fst (fst (draw_from_cpu l s 0
                (Z.shiftl (Z.shiftr d 24) 24))))).
  intros s2. change (s32 (1 - 1)) with 0.
  destruct (s2#Accel.x >? s2#Accel.size_x);
    [|rewrite while_count_zero; reflexivity].
  unfold end_row_cpu. cbv zeta.
  repeat match goal with |- context [if ?b then inl _ else _] => destruct b end;
    rewrite ?while_count_zero; reflexivity.
Qed.

Lemma cpu_last_pixel_inside (n : Z) l s b :
  xdir l = entry_xdir s -> 1 <= n -> streaming n s ->
  cpu_last_pixel l s b = cpu_pixel l s b.
Proof.
  intros Hl Hn H. unfold cpu_last_pixel.
  rewrite (bitblt_cpu_body_inside n l s 1 (Z.shiftl b 24) Hl Hn H).
  rewrite shiftr_shiftl_24. reflexivity.
Qed.

Lemma land_srcmono (f : Z) :
  Z.land f (Z.lor TGUI_SRCMONO TGUI_SRCDISP) = TGUI_SRCCPU ->
  nz (Z.land f TGUI_SRCMONO) = false.
Proof.
  intros H.
  replace (Z.land f TGUI_SRCMONO)
    with (Z.land (Z.land f (Z.lor TGUI_SRCMONO TGUI_SRCDISP)) TGUI_SRCMONO)
    by (rewrite <- Z.land_assoc; reflexivity).
  rewrite H. reflexivity.
Qed.

(** A call with data runs the loop of the CPU-sourced blit on the
    state the entry code leaves. *)
Lemma tgui_accel_command_stream (n : Z) fuel count d s :
  streaming n s -> (count =? -1) = false ->
  tgui_accel_command fuel count d s
  = while_count fuel (bitblt_cpu_body (entry_locals s)) (Z.shiftr count 3) d
      (entry_regs s).
Proof.
  intros (Hcmd & Hmode & _) Hcount.
  pose proof (land_srcmono _ Hmode) as Hmono.
  assert (Hskip : entry_skip count d s = (count, d)).
  { unfold entry_skip. rewrite Hmono, andb_false_r. reflexivity. }
  unfold tgui_accel_command.
  rewrite entry_decompose, Hskip. cbn [fst snd].
  rewrite entry_state_command, Hcmd.
  change (TGUI_BITBLT =? TGUI_BITBLT) with true. cbv iota.
  rewrite Hcount. cbv zeta.
  rewrite entry_state_eq, Hskip. cbn [fst]. rewrite Hcount.
  replace ((entry_regs s)#Accel.flags) with (s#Accel.flags)
    by (rewrite (entry_regs_with_entry_of s); reflexivity).
  rewrite Hmode. change (TGUI_SRCCPU =? TGUI_SRCCPU) with true. cbv iota.
  reflexivity.
Qed.

Lemma entry_xdir_entry_regs (s : tgui_t) : entry_xdir (entry_regs s) = entry_xdir s.
Proof. rewrite (entry_regs_with_entry_of s). reflexivity. Qed.

Lemma xdir_entry_locals (s : tgui_t) : xdir (entry_locals s) = entry_xdir s.
Proof. reflexivity. Qed.

(** The call for one byte draws one pixel. *)
Lemma byte_call (n : Z) fuel d s :
  0 <= n -> streaming n s ->
  tgui_accel_command (S fuel) 8 d s
  = Done (cpu_last_pixel (entry_locals s) (entry_regs s) (Z.shiftr d 24)).
Proof.
  intros Hn H.
  rewrite (tgui_accel_command_stream n) by (exact H || reflexivity).
  change (Z.shiftr 8 3) with 1.
  apply streaming_entry_regs in H.
  pose proof H as (_ & _ & Hbpp & _).
  apply while_count_last; [exact Hbpp|exact (streaming_clip_blt n _ H)].
Qed.

(** After a pixel inside its row the registers of the entry code are
    settled: the next call finds them as it would leave them. *)
Lemma settled_cpu_pixel (n : Z) s b :
  1 <= n -> streaming n s ->
  let s' := cpu_pixel (entry_locals s) (entry_regs s) b in
  entry_regs s' = s' /\ entry_locals s' = entry_locals s /\ streaming (n - 1) s'.
Proof.
  intros Hn H. cbv zeta. split; [|split].
  - rewrite entry_regs_cpu_pixel, entry_regs_idem. reflexivity.
  - rewrite entry_locals_cpu_pixel. apply entry_locals_entry_regs.
  - apply streaming_cpu_pixel;
      [rewrite entry_xdir_entry_regs; reflexivity|exact Hn|].
    apply streaming_entry_regs, H.
Qed.

Lemma settled_entry_regs (n : Z) (s : tgui_t) :
  streaming n s -> settled n (entry_locals s) (entry_regs s).
Proof.
  intros H. split; [apply entry_regs_idem|].
  split; [apply entry_locals_entry_regs|apply streaming_entry_regs, H].
Qed.

Lemma settled_pixel (n : Z) l s b :
  1 <= n -> settled n l s -> settled (n - 1) l (cpu_pixel l s b).
Proof.
  intros Hn (He & Hl & H).
  pose proof (settled_cpu_pixel n s b Hn H) as H'. cbv zeta in H'.
  rewrite He, Hl in H'. exact H'.
Qed.

Lemma settled_xdir (n : Z) l s : settled n l s -> xdir l = entry_xdir s.
Proof. intros (_ & <- & _). reflexivity. Qed.

Lemma settled_weaken (n m : Z) l s : 0 <= m <= n -> settled n l s -> settled m l s.
Proof.
  intros Hm (He & Hl & H).
  split; [exact He|]. split; [exact Hl|exact (streaming_weaken n m s Hm H)].
Qed.

Lemma settled_armed (n : Z) l s : settled n l s -> nz (write_blitter s) = true.
Proof. intros (_ & _ & _ & _ & _ & H & _). exact H. Qed.

(** A call on a settled state runs the loop at once. *)
Lemma settled_call (n : Z) fuel count d l s :
  settled n l s -> (count =? -1) = false ->
  tgui_accel_command fuel count d s
  = while_count fuel (bitblt_cpu_body l) (Z.shiftr count 3) d s.
Proof.
  intros (He & Hl & H) Hc.
  rewrite (tgui_accel_command_stream n fuel count d s H Hc), He, Hl. reflexivity.
Qed.

Lemma settled_inside (n : Z) fuel l s c d :
  1 <= n -> settled n l s -> c <> 0 ->
  while_count (S fuel) (bitblt_cpu_body l) c d s
  = while_count fuel (bitblt_cpu_body l) (s32 (c - 1)) (u32 (Z.shiftl d 8))
      (cpu_pixel l s (Z.shiftr d 24)).
Proof.
  intros Hn Hs Hc. apply (while_count_inside n); try assumption.
  - exact (settled_xdir n l s Hs).
  - apply Hs.
Qed.

Lemma settled_last (n : Z) fuel l s d :
  settled n l s ->
  while_count (S fuel) (bitblt_cpu_body l) 1 d s
  = Done (cpu_last_pixel l s (Z.shiftr d 24)).
Proof.
  intros (_ & _ & H). pose proof H as (_ & _ & Hbpp & _).
  apply while_count_last; [exact Hbpp|exact (streaming_clip_blt n s H)].
Qed.

Lemma settled_last_inside (n : Z) l s b :
  1 <= n -> settled n l s -> cpu_last_pixel l s b = cpu_pixel l s b.
Proof.
  intros Hn Hs. apply (cpu_last_pixel_inside n); try assumption.
  - exact (settled_xdir n l s Hs).
  - apply Hs.
Qed.

(** The three ways to write four bytes to a settled blit. *)
Lemma settled_long (fuel : nat) l s d :
  settled 3 l s ->
  tgui_accel_command (S (S (S (S fuel)))) 32 d s
  = Done (cpu_last_pixel l
            (cpu_pixel l
               (cpu_pixel l (cpu_pixel l s (Z.shiftr d 24))
                  (Z.shiftr (u32 (Z.shiftl d 8)) 24))
               (Z.shiftr (u32 (Z.shiftl (u32 (Z.shiftl d 8)) 8)) 24))
            (Z.shiftr (u32 (Z.shiftl (u32 (Z.shiftl (u32 (Z.shiftl d 8)) 8)) 8)) 24)).
Proof.
  intros H3.
  pose proof (settled_pixel 3 l s (Z.shiftr d 24) ltac:(lia) H3) as H2.
  pose proof (settled_pixel (3 - 1) l _ (Z.shiftr (u32 (Z.shiftl d 8)) 24)
                ltac:(lia) H2)
    as H1.
  pose proof (settled_pixel (3 - 1 - 1) l _
                (Z.shiftr (u32 (Z.shiftl (u32 (Z.shiftl d 8)) 8)) 24) ltac:(lia) H1)
    as H0.
  rewrite (settled_call 3 _ 32 d l s H3) by reflexivity.
  change (Z.shiftr 32 3) with 4.
  rewrite (settled_inside 3) by (lia || assumption).
  change (s32 (4 - 1)) with 3.
  rewrite (settled_inside (3 - 1)) by (lia || assumption).
  change (s32 (3 - 1)) with 2.
  rewrite (settled_inside (3 - 1 - 1)) by (lia || assumption).
  change (s32 (2 - 1)) with 1.
  apply (settled_last (3 - 1 - 1 - 1)). exact H0.
Qed.

Lemma settled_word (n : Z) (fuel : nat) l s d :
  1 <= n -> settled n l s ->
  tgui_accel_command (S (S fuel)) 16 d s
  = Done (cpu_last_pixel l (cpu_pixel l s (Z.shiftr d 24))
            (Z.shiftr (u32 (Z.shiftl d 8)) 24)).
Proof.
  intros Hn Hs.
  pose proof (settled_pixel n l s (Z.shiftr d 24) Hn Hs) as H'.
  rewrite (settled_call n _ 16 d l s Hs) by reflexivity.
  change (Z.shiftr 16 3) with 2.
  rewrite (settled_inside n) by (lia || assumption).
  change (s32 (2 - 1)) with 1.
  apply (settled_last (n - 1)). exact H'.
Qed.

Lemma settled_byte (n : Z) (fuel : nat) l s d :
  settled n l s ->
  tgui_accel_command (S fuel) 8 d s = Done (cpu_last_pixel l s (Z.shiftr d 24)).
Proof.
  intros Hs.
  rewrite (settled_call n _ 8 d l s Hs) by reflexivity.
  change (Z.shiftr 8 3) with 1.
  apply (settled_last n). exact Hs.
Qed.


(** The first call of a sequence runs the entry code; the rest is as on
    the settled state. *)
Lemma first_call (n : Z) fuel count d s :
  streaming n s -> (count =? -1) = false ->
  tgui_accel_command fuel count d s = tgui_accel_command fuel count d (entry_regs s).
Proof.
  intros H Hc.
  rewrite (settled_call n fuel count d _ _ (settled_entry_regs n s H) Hc).
  apply (tgui_accel_command_stream n); assumption.
Qed.

(** C2, counterexample. A copy into a rectangle three pixels wide: the
    long write stops at the end of the row and drops its fourth byte;
    written as four bytes, the fourth byte is the first pixel of the
    next row. *)
Lemma row_end_drops_rest_of_long :
  copy_3x2#Accel.command = TGUI_BITBLT
  /\ Z.land (copy_3x2#Accel.flags) (Z.lor TGUI_SRCMONO TGUI_SRCDISP) = TGUI_SRCCPU
  /\ write_blitter copy_3x2 = 1
  /\ exists s1 s2,
       tgui_accel_write_fb_l no_linear_write 4 0 0x04030201 copy_3x2 = Done s1
       /\ fb_four_bytes no_linear_write 4 0 0x04030201 copy_3x2 = Done s2
       /\ map (svga_vram (svga s1)) [0; 1; 2; 1024] = [1; 2; 3; 0]
       /\ map (svga_vram (svga s2)) [0; 1; 2; 1024] = [1; 2; 3; 4].
Proof.
  split; [reflexivity|]. split; [reflexivity|]. split; [reflexivity|].
  eexists. eexists.
  split; [vm_compute; reflexivity|].
  split; [vm_compute; reflexivity|].
  split; vm_compute; reflexivity.
Qed.

(** C2, as the code has it. An 8 bpp CPU-sourced blit that waits for
    data, with at least four pixels left in the current row, all of
    them passing the clip test: the four bytes of a long written as two
    words or as four bytes, at ascending addresses, leave the device in
    the state the long write leaves it in, framebuffer included; and
    the writes return. *)
Theorem cpu_blit_chunks_agree (wr_b wr_w wr_l : Z -> Z -> svga_t -> svga_t)
    (fuel : nat) (addr val : Z) (s : tgui_t) :
  streaming 3 s -> (4 <= fuel)%nat ->
  exists s',
    tgui_accel_write_fb_l wr_l fuel addr val s = Done s'
    /\ fb_two_words wr_w fuel addr val s = Done s'
    /\ fb_four_bytes wr_b fuel addr val s = Done s'.
Proof.
  intros H Hfuel.
  destruct fuel as [|[|[|[|fuel]]]]; try lia. clear Hfuel.
  pose proof (settled_entry_regs 3 s H) as H3.
  set (l := entry_locals s) in *. set (s0 := entry_regs s) in *.
  pose proof (settled_pixel 3 l s0 (u8 val) ltac:(lia) H3) as H2.
  pose proof (settled_pixel (3 - 1) l _ (u8 (Z.shiftr val 8)) ltac:(lia) H2) as H1.
  pose proof (settled_pixel (3 - 1 - 1) l _ (u8 (Z.shiftr val 16)) ltac:(lia) H1)
    as H0.
  pose proof H as (_ & _ & _ & Hwb & _).
  eexists. split; [|split].
  - unfold tgui_accel_write_fb_l. rewrite Hwb.
    rewrite (first_call 3) by (exact H || reflexivity). fold s0.
    rewrite (settled_long fuel l s0 _ H3).
    destruct (long_write_top val) as (-> & -> & -> & ->). reflexivity.
  - unfold fb_two_words, tgui_accel_write_fb_w. rewrite Hwb.
    rewrite (first_call 3) by (exact H || reflexivity). fold s0.
    rewrite (settled_word 3 _ l s0 _ ltac:(lia) H3).
    destruct (word_write_top val) as (-> & ->).
    rewrite (settled_last_inside (3 - 1)) by (lia || assumption).
    cbn [and_then]. rewrite (settled_armed _ _ _ H1).
    rewrite (settled_word (3 - 1 - 1) _ l _ _ ltac:(lia) H1).
    destruct (word_write_top (Z.shiftr val 16)) as (-> & ->).
    rewrite Z.shiftr_shiftr by lia. reflexivity.
  - unfold fb_four_bytes, tgui_accel_write_fb_b. rewrite Hwb.
    rewrite (first_call 3) by (exact H || reflexivity). fold s0.
    rewrite (settled_byte 3 _ l s0 _ H3), byte_write_top.
    rewrite (settled_last_inside 3) by (lia || assumption).
    cbn [and_then]. rewrite (settled_armed _ _ _ H2).
    rewrite (settled_byte (3 - 1) _ l _ _ H2), byte_write_top.
    rewrite (settled_last_inside (3 - 1)) by (lia || assumption).
    cbn [and_then]. rewrite (settled_armed _ _ _ H1).
    rewrite (settled_byte (3 - 1 - 1) _ l _ _ H1), byte_write_top.
    rewrite (settled_last_inside (3 - 1 - 1)) by (lia || assumption).
    cbn [and_then]. rewrite (settled_armed _ _ _ H0).
    rewrite (settled_byte (3 - 1 - 1 - 1) _ l _ _ H0), byte_write_top.
    reflexivity.
Qed.

Lemma cpu_blit_chunks_agree_witness :
  streaming 3 copy_4x2
  /\ exists s',
       tgui_accel_write_fb_l no_linear_write 4 0 0x04030201 copy_4x2 = Done s'
       /\ fb_two_words no_linear_write 4 0 0x04030201 copy_4x2 = Done s'
       /\ fb_four_bytes no_linear_write 4 0 0x04030201 copy_4x2 = Done s'.
Proof.
  assert (H : streaming 3 copy_4x2).
  { unfold streaming, clip_passes.
    repeat apply conj; try reflexivity; try (vm_compute; discriminate).
    left. reflexivity. }
  split; [exact H|].
  apply (cpu_blit_chunks_agree no_linear_write no_linear_write no_linear_write
           4 0 0x04030201 copy_4x2 H).
  lia.
Defined.

(** * Further properties *)

(** ** The raster operations, all 256 *)

Lemma bnot_testbit (z n : Z) :
  0 <= n < 32 -> Z.testbit (bnot z) n = negb (Z.testbit z n).
Proof.
  intros Hn. unfold bnot, u32. change 0xffffffff with (Z.ones 32).
  rewrite Z.land_spec, Z.lnot_spec, testbit_ones by lia.
  destruct (Z.ltb_spec n 32); [apply andb_true_r|lia].
Qed.

(** One code: the bit of the result is the bit of the code at the row
    the operand bits select. *)
Ltac rop_case :=
  intros D P S out n Hn;
  cbv beta iota delta [ROPMIX];
  repeat first [ rewrite Z.lor_spec | rewrite Z.land_spec | rewrite Z.lxor_spec
               | rewrite bnot_testbit by exact Hn | rewrite Z.bits_0 ];
  generalize (Z.testbit D n) (Z.testbit P n) (Z.testbit S n);
  intros [] [] []; reflexivity.

Lemma ropmix_codes :
  Forall (fun R => forall D P S out n, 0 <= n < 32 ->
            Z.testbit (ROPMIX R D P S out) n
            = Z.testbit R (rop_index (Z.testbit D n) (Z.testbit P n) (Z.testbit S n)))
         (map Z.of_nat (seq 0 256)).
Proof.
  cbv [seq map Z.of_nat Pos.of_succ_nat Pos.succ].
  repeat (constructor; [rop_case|]). constructor.
Qed.

Lemma ropmix_bit (R D P S out n : Z) :
  0 <= R < 256 -> 0 <= n < 32 ->
  Z.testbit (ROPMIX R D P S out) n
  = Z.testbit R (rop_index (Z.testbit D n) (Z.testbit P n) (Z.testbit S n)).
Proof.
  intros HR Hn.
  pose proof ropmix_codes as H. rewrite List.Forall_forall in H.
  apply H; [|exact Hn].
  replace R with (Z.of_nat (Z.to_nat R)) by lia.
  apply in_map, in_seq. lia.
Qed.

(** X1. [ROPMIX] is the ternary raster operation of its code, for all
    256 codes: bit [n] of the result is the bit of the code in the row
    of the truth table that bit [n] of the pattern, of the source and
    of the destination select. *)
Theorem ropmix_is_ternary_rop (R D P S out n : Z) :
  0 <= R < 256 -> 0 <= n < 32 ->
  Z.testbit (ROPMIX R D P S out) n
  = Z.testbit R (4 * Z.b2z (Z.testbit P n) + 2 * Z.b2z (Z.testbit S n)
                 + Z.b2z (Z.testbit D n)).
Proof. apply ropmix_bit. Qed.

Lemma ropmix_is_ternary_rop_witness :
  Z.testbit (ROPMIX 0xb8 0x0f 0x33 0x55 0) 2
  = Z.testbit 0xb8 (4 * Z.b2z (Z.testbit 0x33 2) + 2 * Z.b2z (Z.testbit 0x55 2)
                    + Z.b2z (Z.testbit 0x0f 2)).
Proof. apply (ropmix_is_ternary_rop 0xb8 0x0f 0x33 0x55 0 2); lia. Defined.

(** *** The source flag of a raster operation *)

Lemma u32_testbit (z n : Z) :
  0 <= n -> Z.testbit (u32 z) n = (n <? 32) && Z.testbit z n.
Proof.
  intros Hn. unfold u32. change 0xffffffff with (Z.ones 32).
  rewrite Z.land_spec, testbit_ones by lia. apply andb_comm.
Qed.

Ltac source_free c :=
  intros D P S S'; apply Z.bits_inj'; intros n Hn;
  rewrite !u32_testbit by exact Hn;
  destruct (Z.ltb_spec n 32); [|reflexivity]; cbn [andb];
  rewrite !(ropmix_bit c) by lia;
  generalize (Z.testbit D n) (Z.testbit P n) (Z.testbit S n) (Z.testbit S' n);
  intros [] [] [] []; reflexivity.

Ltac source_used H :=
  pose proof (H 0 0 0 1) as H00; pose proof (H 1 0 0 1) as H10;
  pose proof (H 0 1 0 1) as H01; pose proof (H 1 1 0 1) as H11;
  vm_compute in H00, H10, H01, H11;
  first [discriminate H00 | discriminate H10 | discriminate H01 | discriminate H11].

Ltac use_src_case :=
  match goal with
  | |- rop_use_src ?c = 0 <-> _ =>
      split;
      [ intros H; first [ discriminate H | source_free c ]
      | intros H; first [ reflexivity | exfalso; source_used H ] ]
  end.

Lemma use_src_codes :
  Forall (fun R => rop_use_src R = 0
                   <-> forall D P S S',
                         u32 (ROPMIX R D P S 0) = u32 (ROPMIX R D P S' 0))
         (map Z.of_nat (seq 0 256)).
Proof.
  cbv [seq map Z.of_nat Pos.of_succ_nat Pos.succ].
  repeat (constructor; [use_src_case|]). constructor.
Qed.

(** X2. The flag [use_src] that a write to the ROP register computes is
    zero exactly for the raster operations whose result does not depend
    on the source operand. *)
Theorem use_src_iff_source_matters (R : Z) :
  0 <= R < 256 ->
  (rop_use_src R = 0
   <-> forall D P S S', u32 (ROPMIX R D P S 0) = u32 (ROPMIX R D P S' 0)).
Proof.
  intros HR.
  pose proof use_src_codes as H. rewrite List.Forall_forall in H.
  apply H.
  replace R with (Z.of_nat (Z.to_nat R)) by lia.
  apply in_map, in_seq. lia.
Qed.

Lemma use_src_iff_source_matters_witness :
  rop_use_src 0xf0 = 0
  /\ (forall D P S S', u32 (ROPMIX 0xf0 D P S 0) = u32 (ROPMIX 0xf0 D P S' 0))
  /\ rop_use_src 0xcc <> 0.
Proof.
  split; [reflexivity|]. split.
  - apply (use_src_iff_source_matters 0xf0); [lia|reflexivity].
  - discriminate.
Defined.

(** ** The register file *)

Lemma s16_mod (z : Z) : s16 z mod 0x10000 = z mod 0x10000.
Proof. unfold s16. Z.div_mod_to_equations. lia. Qed.

Lemma s16_testbit (z i : Z) : 0 <= i < 16 -> Z.testbit (s16 z) i = Z.testbit z i.
Proof.
  intros Hi.
  rewrite <- (Z.mod_pow2_bits_low (s16 z) 16 i) by lia.
  rewrite <- (Z.mod_pow2_bits_low z 16 i) by lia.
  change (2 ^ 16) with 0x10000. rewrite s16_mod. reflexivity.
Qed.

Ltac reg_masks :=
  unfold put_byte, u32, u16, u8;
  change 0xffffff00 with (Z.shiftl (Z.ones 24) 8);
  change 0xffff00ff with (Z.lor (Z.ones 8) (Z.shiftl (Z.ones 16) 16));
  change 0xff00ffff with (Z.lor (Z.ones 16) (Z.shiftl (Z.ones 8) 24));
  change 0x00ffffff with (Z.ones 24);
  change 0xff000000 with (Z.shiftl (Z.ones 8) 24);
  change 0x00ff0000 with (Z.shiftl (Z.ones 8) 16);
  change 0xff00 with (Z.shiftl (Z.ones 8) 8);
  change 0x3f00 with (Z.shiftl (Z.ones 6) 8);
  change 0xf00 with (Z.shiftl (Z.ones 4) 8);
  change 0xffffffff with (Z.ones 32);
  change 0xffff with (Z.ones 16);
  change 0xff with (Z.ones 8).

(** Bit tests through the register arithmetic, [s16] included. *)
Ltac reg_unfold :=
  repeat match goal with
    | |- context [Z.testbit (Z.land ?a ?b) ?m] => rewrite (Z.land_spec a b m)
    | |- context [Z.testbit (Z.lor ?a ?b) ?m] => rewrite (Z.lor_spec a b m)
    | |- context [Z.testbit (Z.shiftl ?a ?n) ?m] =>
        rewrite (testbit_shiftl a n m) by lia
    | |- context [Z.testbit (Z.shiftr ?a ?n) ?m] =>
        rewrite (testbit_shiftr a n m) by lia
    | |- context [Z.testbit (Z.ones ?n) ?m] =>
        rewrite (Z.testbit_ones n m) by lia
    | |- context [Z.testbit (s16 ?a) ?m] =>
        rewrite (s16_testbit a m) by lia
    end.

(** Equality of two bytes, bit by bit. *)
Ltac reg_bits :=
  apply Z.bits_inj'; intros i Hi; reg_masks;
  rewrite !(Z.land_spec _ (Z.ones 8) i), !(testbit_ones 8 i) by lia;
  destruct (Z.ltb_spec i 8); [|rewrite !andb_false_r; reflexivity];
  rewrite !andb_true_r;
  reg_unfold; bits_cases; rewrite ?Z.testbit_neg_r by lia;
  rewrite ?andb_true_r, ?andb_false_r, ?orb_false_r, ?orb_false_l;
  try reflexivity; try (f_equal; lia).

Ltac at_port p :=
  let p' := eval vm_compute in (u16 p) in
  change (u16 p) with p'; cbv beta iota zeta.

Ltac port_round_trip :=
  match goal with
  | |- exists s', tgui_accel_out _ ?p _ _ = Done s' /\ _ =>
      unfold tgui_accel_out; at_port p;
      eexists; split; [reflexivity|];
      unfold tgui_accel_in, sync_bpp; at_port p;
      simp_state; case_ifs; reg_bits
  end.

(** X3. A byte written to one of the storing register ports is the
    byte read back from it. *)
Theorem register_byte_round_trip (fuel : nat) (p v : Z) (s : tgui_t) :
  In p byte_ports ->
  exists s', tgui_accel_out fuel p v s = Done s' /\ tgui_accel_in p s' = u8 v.
Proof.
  unfold byte_ports. intros H.
  repeat (destruct H as [<-|H]; [port_round_trip|]).
  destruct H.
Qed.

(** *** Whole registers *)

Ltac word_bits :=
  apply Z.bits_inj'; intros i Hi; reg_masks;
  reg_unfold; bits_cases; rewrite ?Z.testbit_neg_r by lia;
  rewrite ?andb_true_r, ?andb_false_r, ?orb_false_r, ?orb_false_l;
  try reflexivity; try (f_equal; lia).

(** Four bytes written in ascending order make up the register. *)
Lemma put_bytes_ascending (old v : Z) :
  put_byte (put_byte (put_byte (put_byte old 0xffffff00 (u8 v) 0)
                        0xffff00ff (u8 (Z.shiftr v 8)) 8)
              0xff00ffff (u8 (Z.shiftr v 16)) 16)
    0x00ffffff (u8 (Z.shiftr v 24)) 24
  = u32 v.
Proof. word_bits. Qed.

(** The flags register: the write of the top byte clears bits 16 to
    23. *)
Lemma put_bytes_flags (old v : Z) :
  put_byte (put_byte (put_byte (put_byte old 0xffffff00 (u8 v) 0)
                        0xffff00ff (u8 (Z.shiftr v 8)) 8)
              0xff00ffff (u8 (Z.shiftr v 16)) 16)
    0x0000ffff (u8 (Z.shiftr v 24)) 24
  = Z.land (u32 v) 0xff00ffff.
Proof. word_bits. Qed.

(** The four bytes of a register, read in ascending order. *)
Lemma bytes_of_register (r : Z) :
  u32 (Z.lor (u16 (Z.lor (u8 (Z.land r 0xff)) (Z.shiftl (u8 (Z.shiftr r 8)) 8)))
             (Z.shiftl (u16 (Z.lor (u8 (Z.shiftr r 16))
                                   (Z.shiftl (u8 (Z.shiftr r 24)) 8))) 16))
  = u32 r.
Proof. word_bits. Qed.

Lemma u32_idem (z : Z) : u32 (u32 z) = u32 z.
Proof. word_bits. Qed.

Lemma u32_land_mask (z : Z) : u32 (Z.land (u32 z) 0xff00ffff) = Z.land (u32 z) 0xff00ffff.
Proof. word_bits. Qed.

(** Evaluation of the port numbers of a goal. *)
Ltac closed_port c :=
  lazymatch c with
  | Zpos _ => idtac
  | Z0 => idtac
  | ?a + ?b => closed_port a; closed_port b
  end.

Ltac norm_ports_closed :=
  repeat match goal with
    | |- context [u16 ?c] =>
        closed_port c;
        let c' := eval vm_compute in (u16 c) in
        progress change (u16 c) with c'
    end.

Lemma and_then_done (r : run) (s1 : tgui_t) (k : tgui_t -> run) :
  r = Done s1 -> and_then r k = k s1.
Proof. intros ->. reflexivity. Qed.

(** One byte write at a known port. *)
Ltac out_step :=
  match goal with
  | |- tgui_accel_out _ ?p _ _ = Done _ =>
      unfold tgui_accel_out; at_port p; reflexivity
  end.

Ltac out_steps :=
  unfold tgui_accel_out_l;
  match goal with
  | |- context [u16 ?p =? 0x2124] =>
      let c := eval vm_compute in (u16 p =? 0x2124) in
      change (u16 p =? 0x2124) with c; cbv iota
  end;
  erewrite and_then_done by out_step;
  erewrite and_then_done by out_step;
  erewrite and_then_done by out_step.

Lemma in_l_long_register (p : Z) (t : tgui_t) :
  In p (0x2128 :: long_ports) ->
  tgui_accel_in_l p t = u32 (long_register p (accel t)).
Proof.
  unfold long_ports. intros H.
  repeat (destruct H as [<-|H];
          [unfold tgui_accel_in_l, tgui_accel_in_w, tgui_accel_in, long_register;
           norm_ports_closed; cbv beta iota zeta; apply bytes_of_register|]).
  destruct H.
Qed.

Lemma out_l_long_register (fuel : nat) (p v : Z) (s : tgui_t) :
  In p long_ports ->
  exists s', tgui_accel_out_l fuel p v s = Done s'
    /\ long_register p (accel s') = u32 v.
Proof.
  unfold long_ports. intros H.
  repeat (destruct H as [<-|H];
          [eexists; split; [out_steps; out_step|];
           unfold long_register; simp_state; apply put_bytes_ascending|]).
  destruct H.
Qed.

(** X4. A long written to the foreground colour, the background
    colour, the style or the colour key register is the long read back
    from it. *)
Theorem register_long_round_trip (fuel : nat) (p v : Z) (s : tgui_t) :
  In p long_ports ->
  exists s', tgui_accel_out_l fuel p v s = Done s' /\ tgui_accel_in_l p s' = u32 v.
Proof.
  intros H. destruct (out_l_long_register fuel p v s H) as (s' & E & Hr).
  exists s'. split; [exact E|].
  rewrite in_l_long_register by (right; exact H).
  rewrite Hr. apply u32_idem.
Qed.

Lemma register_long_round_trip_witness :
  In 0x212c long_ports
  /\ exists s', tgui_accel_out_l 0 0x212c 0x12345678 (tgui_init TGUI_9440 1 8 128)
                = Done s'
                /\ tgui_accel_in_l 0x212c s' = u32 0x12345678.
Proof.
  assert (H : In 0x212c long_ports) by (left; reflexivity).
  split; [exact H|].
  exact (register_long_round_trip 0 0x212c 0x12345678 (tgui_init TGUI_9440 1 8 128) H).
Defined.

(** X5. A long written to the flags register is stored without its
    bits 16 to 23: the write of the top byte keeps the low 16 bits of
    the register only. *)
Theorem flags_long_write_loses_byte_2 (fuel : nat) (v : Z) (s : tgui_t) :
  exists s', tgui_accel_out_l fuel 0x2128 v s = Done s'
    /\ s'#Accel.flags = Z.land (u32 v) 0xff00ffff
    /\ tgui_accel_in_l 0x2128 s' = Z.land (u32 v) 0xff00ffff.
Proof.
  eexists. split; [out_steps; out_step|].
  assert (Hf : forall a b c d,
    (upd (fun x => Accel.set_flags (put_byte (Accel.flags x) 0x0000ffff d 24) x)
       (upd (fun x => Accel.set_flags (put_byte (Accel.flags x) 0xff00ffff c 16) x)
          (upd (fun x => Accel.set_flags (put_byte (Accel.flags x) 0xffff00ff b 8) x)
             (upd (fun x => Accel.set_flags (put_byte (Accel.flags x) 0xffffff00 a 0) x)
                s))))#Accel.flags
    = put_byte (put_byte (put_byte (put_byte (s#Accel.flags) 0xffffff00 a 0)
                            0xffff00ff b 8) 0xff00ffff c 16) 0x0000ffff d 24)
    by reflexivity.
  split.
  - rewrite Hf. apply put_bytes_flags.
  - rewrite in_l_long_register by (left; reflexivity).
    unfold long_register. rewrite Hf, put_bytes_flags. apply u32_land_mask.
Qed.

Lemma register_byte_round_trip_witness :
  In 0x2168 byte_ports
  /\ exists s', tgui_accel_out 0 0x2168 0x1ab (tgui_init TGUI_9440 1 8 128) = Done s'
                /\ tgui_accel_in 0x2168 s' = u8 0x1ab.
Proof.
  assert (H : In 0x2168 byte_ports) by (unfold byte_ports; simpl; tauto).
  split; [exact H|].
  exact (register_byte_round_trip 0 0x2168 0x1ab (tgui_init TGUI_9440 1 8 128) H).
Defined.

(** *** The register window *)

(** A property of every byte value, from its 256 cases. *)
Lemma forall_byte (P : Z -> Prop) :
  Forall P (map Z.of_nat (seq 0 256)) -> forall a, 0 <= a < 256 -> P a.
Proof.
  intros H a Ha. rewrite List.Forall_forall in H. apply H.
  replace a with (Z.of_nat (Z.to_nat a)) by lia.
  apply in_map, in_seq. lia.
Qed.

Ltac each_byte tac :=
  cbv [seq map Z.of_nat Pos.of_succ_nat Pos.succ];
  repeat (constructor; [tac|]); constructor.

Lemma land_7f_ff (z : Z) : Z.land z 0x7f = Z.land (Z.land z 0xff) 0x7f.
Proof. rewrite <- Z.land_assoc. reflexivity. Qed.

Lemma land_ff_range (z : Z) : 0 <= Z.land z 0xff < 256.
Proof. apply (land_ones_range 8). lia. Qed.

(** X6. A read through the memory-mapped register window gives what
    the port of the same offset gives, for the offsets the window
    decodes; an offset it does not decode, and any offset outside the
    aperture, reads 0xff (an undecoded port reads 0). *)
Theorem window_read_matches_port_read (addr : Z) (s : tgui_t) :
  tgui_accel_read addr s
  = if outside_aperture s addr then 0xff
    else if window_readable (Z.land addr 0xff)
         then tgui_accel_in (0x2100 + Z.land addr 0xff) s
         else 0xff.
Proof.
  unfold tgui_accel_read.
  destruct (outside_aperture s addr); [reflexivity|].
  rewrite (land_7f_ff addr).
  pose proof (land_ff_range addr) as Ha. revert Ha.
  generalize (Z.land addr 0xff). intros a Ha. revert s. pattern a.
  apply forall_byte; [|exact Ha].
  each_byte ltac:(intros s; reflexivity).
Qed.

(** *** The memory-mapped I/O window *)

Lemma outside_small (s : tgui_t) (x : Z) :
  Z.land (svga_crtc (svga s) 0x36) 0x03 = 1
  \/ Z.land (svga_crtc (svga s) 0x36) 0x03 = 2 ->
  0 <= x < 0x10000 -> outside_aperture s x = true.
Proof.
  intros Hsel Hx. unfold outside_aperture. cbv zeta.
  pose proof (land_range 16 x (u32 (Z.lnot 0xff)) ltac:(lia) Hx) as Hr.
  change (2 ^ 16) with 0x10000 in Hr.
  destruct Hsel as [->| ->].
  - change (1 =? 2) with false. change (1 =? 1) with true. cbv iota.
    destruct (Z.eqb_spec (Z.land x (u32 (Z.lnot 255))) 0xb7f00); [lia|reflexivity].
  - change (2 =? 2) with true. cbv iota.
    destruct (Z.eqb_spec (Z.land x (u32 (Z.lnot 255))) 0xbff00); [lia|reflexivity].
Qed.

Lemma accel_write_small fuel (s : tgui_t) (x val : Z) :
  Z.land (svga_crtc (svga s) 0x36) 0x03 = 1
  \/ Z.land (svga_crtc (svga s) 0x36) 0x03 = 2 ->
  0 <= x < 0x10000 -> tgui_accel_write fuel x val s = Done s.
Proof.
  intros Hsel Hx. unfold tgui_accel_write.
  rewrite (outside_small s x Hsel Hx). reflexivity.
Qed.

Section MmioModes.

Variable tgui_out : Z -> Z -> tgui_t -> tgui_t.
Variable tgui_in : Z -> tgui_t -> Z * tgui_t.

(** X7. With the register window selected at 0xb7f00 or 0xbff00
    (bits 0-1 of CRTC register 0x36 are 1 or 2), no access through the
    memory-mapped I/O handlers reaches an accelerator register: the
    handlers pass the offset below 0x100 on, and the aperture test of
    the window refuses it. Writes of any width leave the device as it
    is, reads give 0xff. *)
Theorem mmio_offsets_refused_in_window_modes (fuel : nat) (addr val : Z) (s : tgui_t) :
  Z.land (svga_crtc (svga s) 0x36) 0x03 = 1
  \/ Z.land (svga_crtc (svga s) 0x36) 0x03 = 2 ->
  Z.land addr 0xffff <= 0xff ->
  tgui_mmio_write tgui_out fuel addr val s = Done s
  /\ tgui_mmio_write_w tgui_out fuel addr val s = Done s
  /\ tgui_mmio_write_l tgui_out fuel addr val s = Done s
  /\ tgui_mmio_read tgui_in addr s = (0xff, s).
Proof.
  intros Hsel Hsmall.
  assert (Ha : 0 <= Z.land addr 0xffff) by (apply (land_ones_range 16); lia).
  unfold tgui_mmio_write, tgui_mmio_write_w, tgui_mmio_write_l, tgui_mmio_read.
  cbv zeta. revert Hsmall Ha. generalize (Z.land addr 0xffff). intros a Hsmall Ha.
  assert (E0 : (Z.land (svga_crtc (svga s) 0x36) 0x03 =? 0) = false)
    by (apply Z.eqb_neq; lia).
  assert (E1 : (Z.land (svga_crtc (svga s) 0x36) 0x03 >? 0) = true)
    by (apply Z.gtb_lt; lia).
  assert (E2 : (a <=? 0xff) = true) by (apply Z.leb_le; exact Hsmall).
  rewrite E0, E1, E2. cbn [andb].
  assert (W : forall x v, 0 <= x < 0x10000 -> tgui_accel_write fuel x v s = Done s)
    by (intros; apply accel_write_small; assumption).
  assert (U : forall k, 0 <= k <= 3 -> 0 <= u32 (a + k) < 0x10000)
    by (intros k Hk; rewrite u32_small by lia; lia).
  repeat apply conj.
  - apply W. lia.
  - unfold tgui_accel_write_w. rewrite W by lia. cbn [and_then].
    apply W, (U 1). lia.
  - unfold tgui_accel_write_l.
    destruct (Z.land a 0xff =? 0x24).
    + rewrite (outside_small s a Hsel) by lia. reflexivity.
    + unfold tgui_accel_write_w.
      rewrite (W a) by lia. cbn [and_then].
      rewrite (W (u32 (a + 1))) by (apply (U 1); lia). cbn [and_then].
      rewrite (W (u32 (a + 2))) by (apply (U 2); lia). cbn [and_then].
      apply W. rewrite !u32_small by (rewrite ?u32_small by lia; lia). lia.
  - unfold tgui_accel_read. rewrite (outside_small s a Hsel) by lia. reflexivity.
Qed.

End MmioModes.

Lemma mmio_offsets_refused_in_window_modes_witness :
  Z.land 0x10024 0xffff <= 0xff
  /\ tgui_mmio_write (fun _ _ s => s) 1 0x10024 TGUI_BITBLT
       (with_crtc 0x36 0x01 one_pixel_fill)
     = Done (with_crtc 0x36 0x01 one_pixel_fill).
Proof.
  assert (H : Z.land 0x10024 0xffff <= 0xff) by (apply Z.leb_le; reflexivity).
  split; [exact H|].
  apply (mmio_offsets_refused_in_window_modes (fun _ _ s => s) (fun _ s => (0, s))
           1 0x10024 TGUI_BITBLT (with_crtc 0x36 0x01 one_pixel_fill));
    [left; reflexivity|exact H].
Defined.

(** ** The remapped layout *)

Lemma dword_remap_nonneg (a : Z) : 0 <= a < 2 ^ 32 -> 0 <= dword_remap a.
Proof.
  intros Ha. unfold dword_remap.
  repeat (apply Z.lor_nonneg; split); apply Z.land_nonneg; right;
    first [ apply Z.leb_le; reflexivity | lia ].
Qed.

Lemma dword_remap_source_nonneg (i : Z) : 0 <= i -> 0 <= dword_remap_source i.
Proof. intros Hi. unfold dword_remap_source. bits_cases; lia. Qed.

(** A framebuffer of [2 ^ m] bytes, [m] at least 18, holds the
    remapped image of each of its addresses. *)
Lemma dword_remap_range (m a : Z) :
  18 <= m <= 32 -> 0 <= a < 2 ^ m -> 0 <= dword_remap a < 2 ^ m.
Proof.
  intros Hm Ha.
  assert (Ha32 : 0 <= a < 2 ^ 32).
  { split; [lia|]. apply Z.lt_le_trans with (2 ^ m); [lia|].
    apply Z.pow_le_mono_r; lia. }
  split; [apply dword_remap_nonneg; exact Ha32|].
  apply range_of_bits; [lia|apply dword_remap_nonneg; exact Ha32|].
  intros i Hi. rewrite dword_remap_testbit by lia.
  unfold dword_remap_source. bits_cases.
  apply (testbit_small m); [exact Ha|lia].
Qed.

(** The transform moves bits, so it goes through sums without carry. *)
Lemma dword_remap_add (x y : Z) :
  0 <= x < 2 ^ 32 -> 0 <= y < 2 ^ 32 -> Z.land x y = 0 ->
  dword_remap (x + y) = dword_remap x + dword_remap y
  /\ Z.land (dword_remap x) (dword_remap y) = 0.
Proof.
  intros Hx Hy Hxy.
  assert (Hl : Z.land (dword_remap x) (dword_remap y) = 0).
  { apply Z.bits_inj'. intros i Hi.
    rewrite Z.land_spec, !dword_remap_testbit, Z.bits_0 by lia.
    rewrite <- Z.land_spec, Hxy. apply Z.bits_0. }
  split; [|exact Hl].
  rewrite (Z.add_nocarry_lxor x y Hxy), (Z.lxor_lor x y Hxy).
  rewrite (Z.add_nocarry_lxor _ _ Hl), (Z.lxor_lor _ _ Hl).
  apply Z.bits_inj'. intros i Hi.
  rewrite Z.lor_spec, !dword_remap_testbit by (try apply lor_range; lia).
  apply Z.lor_spec.
Qed.

Lemma dword_unmap_remap (c : Z) :
  0 <= c < 2 ^ 32 -> dword_unmap (dword_remap c) = c.
Proof.
  intros Hc. apply Z.bits_inj'. intros i Hi.
  unfold dword_unmap. change 3 with (Z.ones 2).
  bits_unfold. bits_cases; rewrite ?Z.testbit_neg_r by lia;
    repeat rewrite dword_remap_testbit by lia;
    unfold dword_remap_source; bits_cases;
    rewrite ?orb_false_r, ?orb_false_l; try reflexivity;
    try (f_equal; lia);
    symmetry; apply (testbit_small 32); (exact Hc || lia).
Qed.

Lemma dword_remap_inj (a b : Z) :
  0 <= a < 2 ^ 32 -> 0 <= b < 2 ^ 32 -> dword_remap a = dword_remap b -> a = b.
Proof.
  intros Ha Hb E.
  rewrite <- (dword_unmap_remap a Ha), <- (dword_unmap_remap b Hb), E. reflexivity.
Qed.

(** X8. The remapping is one to one on the 32-bit addresses, and
    [dword_unmap] undoes it: no two addresses share a place in the
    remapped layout. *)
Theorem dword_remap_one_to_one (a b : Z) :
  0 <= a < 2 ^ 32 -> 0 <= b < 2 ^ 32 ->
  dword_unmap (dword_remap a) = a
  /\ (dword_remap a = dword_remap b -> a = b).
Proof.
  intros Ha Hb. split; [apply dword_unmap_remap; exact Ha|].
  apply dword_remap_inj; assumption.
Qed.

Lemma dword_remap_one_to_one_witness :
  dword_unmap (dword_remap 0x12345) = 0x12345
  /\ (dword_remap 0x12345 = dword_remap 0x54321 -> 0x12345 = 0x54321).
Proof. apply (dword_remap_one_to_one 0x12345 0x54321); in_range. Defined.

(** ** Expanded writes *)

Lemma ext_step_remap (i : Z) :
  0 <= i < 15 -> dword_remap i + ext_step i = dword_remap (i + 1).
Proof.
  intros Hi.
  assert (H : In i (map Z.of_nat (seq 0 15)))
    by (replace i with (Z.of_nat (Z.to_nat i)) by lia; apply in_map, in_seq; lia).
  cbv [seq map Z.of_nat Pos.of_succ_nat Pos.succ] in H.
  repeat (destruct H as [<-|H]; [reflexivity|]). destruct H.
Qed.

Lemma pow2_le_32 (m : Z) : 0 <= m <= 32 -> 2 ^ m <= 2 ^ 32.
Proof. intros Hm. apply Z.pow_le_mono_r; lia. Qed.

Lemma pow2_ge_18 (m : Z) : 18 <= m -> 2 ^ 18 <= 2 ^ m.
Proof. intros Hm. apply Z.pow_le_mono_r; lia. Qed.

Lemma pow2_k (k : Z) : 0 <= k <= 4 -> 0 < 2 ^ k <= 16.
Proof.
  intros Hk. split; [apply Z.pow_pos_nonneg; lia|].
  change 16 with (2 ^ 4). apply Z.pow_le_mono_r; lia.
Qed.

Lemma aligned_land (k a i : Z) :
  0 <= k -> Z.land a (Z.ones k) = 0 -> 0 <= i < 2 ^ k -> Z.land a i = 0.
Proof.
  intros Hk Hal Hi.
  rewrite <- (land_ones_small k i) by lia.
  rewrite (Z.land_comm i), Z.land_assoc, Hal. reflexivity.
Qed.

Section Aligned.

Variables m k a : Z.
Hypothesis Hm : 18 <= m <= 32.
Hypothesis Hk : 0 <= k <= 4.
Hypothesis Ha : 0 <= a < 2 ^ m.
Hypothesis Hal : Z.land a (Z.ones k) = 0.

(** Inside an aligned group the remapped address is the remapped base
    plus the remapped offset, and it lies in the framebuffer. *)
Lemma aligned_remap (i : Z) :
  0 <= i < 2 ^ k ->
  dword_remap (a + i) = dword_remap a + dword_remap i
  /\ 0 <= dword_remap (a + i) < 2 ^ m.
Proof.
  intros Hi.
  pose proof (pow2_k k Hk) as Hp. pose proof (pow2_le_32 m ltac:(lia)) as H32.
  pose proof (pow2_ge_18 m ltac:(lia)) as H18.
  change (2 ^ 18) with 262144 in H18.
  pose proof (aligned_land k a i ltac:(lia) Hal Hi) as Hl.
  split; [apply dword_remap_add; [lia|lia|exact Hl]|].
  apply dword_remap_range; [exact Hm|].
  rewrite (Z.add_nocarry_lxor a i Hl), (Z.lxor_lor a i Hl).
  apply lor_range; lia.
Qed.

Lemma aligned_step (i : Z) :
  0 <= i -> i + 1 < 2 ^ k ->
  Z.land (u32 (dword_remap (a + i) + ext_step i)) (2 ^ m - 1)
  = dword_remap (a + (i + 1)).
Proof.
  intros Hi Hi1. pose proof (pow2_k k Hk) as Hp.
  pose proof (pow2_le_32 m ltac:(lia)) as H32.
  destruct (aligned_remap i ltac:(lia)) as (E & _).
  destruct (aligned_remap (i + 1) ltac:(lia)) as (E1 & R1).
  rewrite E, <- Z.add_assoc, ext_step_remap, <- E1 by lia.
  rewrite u32_small by lia.
  replace (2 ^ m - 1) with (Z.ones m) by (rewrite Z.ones_equiv; lia).
  apply land_ones_small; lia.
Qed.

(** The loop of an expanded write, as its effect on the framebuffer. *)
Lemma ext_loop_spec (pixel : Z -> option Z) (v : Z -> Z) (n : nat) :
  Z.of_nat n <= 2 ^ k ->
  fst (ext_loop n (2 ^ m - 1) pixel v (dword_remap a)) = ext_write_spec n pixel a v
  /\ (Z.of_nat n < 2 ^ k ->
      snd (ext_loop n (2 ^ m - 1) pixel v (dword_remap a))
      = dword_remap (a + Z.of_nat n)).
Proof.
  unfold ext_loop, ext_write_spec, for_n.
  induction n as [|n IH]; intros Hn.
  - split; [reflexivity|]. intros _. cbn. rewrite Z.add_0_r. reflexivity.
  - rewrite seq_S, map_app, !fold_left_app. cbn [map fold_left fst snd Nat.add].
    destruct (IH ltac:(lia)) as (IH1 & IH2). rewrite IH1, IH2 by lia.
    split; [reflexivity|]. intros Hlt.
    rewrite aligned_step by lia. f_equal. lia.
Qed.

End Aligned.

Lemma for_n_S {A : Type} (n : nat) (f : Z -> A -> A) (a : A) :
  for_n (S n) f a = f (Z.of_nat n) (for_n n f a).
Proof.
  unfold for_n. rewrite seq_S, map_app, fold_left_app. reflexivity.
Qed.

Lemma for_n_ext {A : Type} (n : nat) (f h : Z -> A -> A) (a : A) :
  (forall i x, 0 <= i < Z.of_nat n -> f i x = h i x) ->
  for_n n f a = for_n n h a.
Proof.
  induction n as [|n IH]; intros E; [reflexivity|].
  rewrite !for_n_S, IH by (intros; apply E; lia). apply E. lia.
Qed.

Lemma ext_loop_ext (n : nat) (mask : Z) (p q : Z -> option Z) (v : Z -> Z) (a : Z) :
  (forall i, 0 <= i < Z.of_nat n -> p i = q i) ->
  ext_loop n mask p v a = ext_loop n mask q v a.
Proof.
  intros E. unfold ext_loop. apply for_n_ext. intros i x Hi.
  rewrite (E i Hi). reflexivity.
Qed.

Lemma land_1_cases (i : Z) : Z.land i 1 = 0 \/ Z.land i 1 = 1.
Proof.
  change 1 with (Z.ones 1) at 1 2. rewrite Z.land_ones by lia.
  pose proof (Z.mod_pos_bound i 2 ltac:(lia)). change (2 ^ 1) with 2. lia.
Qed.

(** The five loops store, for each bit, the byte [ext_pixel] tells. *)
Lemma ext_loops_pixel (e : ext_t) (n : nat) (top mask val : Z) (v : Z -> Z) (a : Z) :
  ext_loops e n top mask val v a
  = ext_loop n (svga_vram_mask e) (ext_pixel e top mask val) v a.
Proof.
  unfold ext_loops, ext_pixel, ext_bit.
  destruct (nz (Z.land (gdc e 16) EXT_CTRL_LATCH_COPY)); [reflexivity|].
  destruct (nz (Z.land (gdc e 16) EXT_CTRL_MONO_TRANSPARENT));
    destruct (nz (Z.land (gdc e 16) EXT_CTRL_16BIT));
    apply ext_loop_ext; intros i _; cbn [andb];
    destruct (nz (Z.land val (Z.shiftr top i)));
    destruct (nz (Z.land mask (Z.shiftr top i))); try reflexivity;
    destruct (land_1_cases i) as [-> | ->]; reflexivity.
Qed.

(** The base of an access is in the framebuffer and aligned. *)
Lemma ext_base_aligned (e : ext_t) (m k addr : Z) :
  ext_ok e m -> 3 <= k <= 4 ->
  0 <= ext_base e k addr < 2 ^ m
  /\ Z.land (ext_base e k addr) (Z.ones k) = 0.
Proof.
  intros (Hm & Hmask) Hk. unfold ext_base. rewrite Hmask.
  assert (Hp : 0 < 2 ^ m) by (apply Z.pow_pos_nonneg; lia).
  split.
  - apply land_range; [lia|]. rewrite Z.land_comm. apply land_range; lia.
  - rewrite <- Z.land_assoc.
    assert (E : Z.land (u32 (Z.lnot (Z.ones k))) (Z.ones k) = 0)
      by (assert (K : k = 3 \/ k = 4) by lia; destruct K as [-> | ->]; reflexivity).
    rewrite E. apply Z.land_0_r.
Qed.

Lemma ext_write_spec_S (n : nat) (pixel : Z -> option Z) (base : Z) (v : Z -> Z) :
  ext_write_spec (S n) pixel base v
  = match pixel (Z.of_nat n) with
    | Some b => wr8 (ext_write_spec n pixel base v) (dword_remap (base + Z.of_nat n)) b
    | None => ext_write_spec n pixel base v
    end.
Proof. unfold ext_write_spec. rewrite for_n_S. reflexivity. Qed.

Lemma ext_write_spec_other (n : nat) (pixel : Z -> option Z) (base : Z)
    (v : Z -> Z) (x : Z) :
  (forall i, 0 <= i < Z.of_nat n -> x <> dword_remap (base + i)) ->
  ext_write_spec n pixel base v x = v x.
Proof.
  induction n as [|n IH]; intros H; [reflexivity|].
  rewrite ext_write_spec_S.
  assert (IH' : ext_write_spec n pixel base v x = v x)
    by (apply IH; intros i Hi; apply H; lia).
  destruct (pixel (Z.of_nat n)); [|exact IH'].
  unfold wr8. destruct (Z.eqb_spec x (dword_remap (base + Z.of_nat n))) as [E|_].
  - exfalso. apply (H (Z.of_nat n)); [lia|exact E].
  - exact IH'.
Qed.

Lemma ext_write_spec_at (n : nat) (pixel : Z -> option Z) (base : Z)
    (v : Z -> Z) (i : Z) :
  0 <= base -> base + Z.of_nat n <= 2 ^ 32 -> 0 <= i < Z.of_nat n ->
  ext_write_spec n pixel base v (dword_remap (base + i))
  = match pixel i with
    | Some b => u8 b
    | None => v (dword_remap (base + i))
    end.
Proof.
  intros Hb. induction n as [|n IH]; intros Hn Hi; [lia|].
  rewrite ext_write_spec_S.
  destruct (Z.eq_dec i (Z.of_nat n)) as [->|Hne].
  - destruct (pixel (Z.of_nat n)).
    + unfold wr8. rewrite Z.eqb_refl. reflexivity.
    + apply ext_write_spec_other. intros j Hj E.
      apply dword_remap_inj in E; lia.
  - assert (Hw : forall b, wr8 (ext_write_spec n pixel base v)
                             (dword_remap (base + Z.of_nat n)) b
                             (dword_remap (base + i))
                           = ext_write_spec n pixel base v (dword_remap (base + i))).
    { intros b. unfold wr8.
      destruct (Z.eqb_spec (dword_remap (base + i))
                           (dword_remap (base + Z.of_nat n))) as [E|_];
        [|reflexivity].
      apply dword_remap_inj in E; lia. }
    destruct (pixel (Z.of_nat n)); rewrite ?Hw; apply IH; lia.
Qed.

Lemma aligned_room (m k a : Z) :
  18 <= m <= 32 -> 0 <= k <= 4 -> 0 <= a < 2 ^ m -> Z.land a (Z.ones k) = 0 ->
  a + 2 ^ k <= 2 ^ m.
Proof.
  intros Hm Hk Ha Hal.
  pose proof (pow2_k k Hk) as Hp.
  pose proof (pow2_ge_18 m ltac:(lia)) as H18. change (2 ^ 18) with 262144 in H18.
  assert (Hl : Z.land a (2 ^ k - 1) = 0)
    by (apply (aligned_land k a); lia).
  pose proof (lor_range m a (2 ^ k - 1) ltac:(lia) Ha ltac:(lia)) as R.
  rewrite <- (Z.lxor_lor a _ Hl), <- (Z.add_nocarry_lxor a _ Hl) in R. lia.
Qed.

(** The loops of an expanded write of [n] bits at an aligned base [b]:
    the bytes of the group and the bytes they leave alone. *)
Lemma ext_loops_group (e : ext_t) (m k b : Z) (n : nat) (top mask val : Z) (v : Z -> Z) :
  ext_ok e m -> 0 <= k <= 4 -> Z.of_nat n <= 2 ^ k ->
  0 <= b < 2 ^ m -> Z.land b (Z.ones k) = 0 ->
  let v' := fst (ext_loops e n top mask val v (dword_remap b)) in
  (forall i, 0 <= i < Z.of_nat n ->
     0 <= dword_remap (b + i) < 2 ^ m
     /\ v' (dword_remap (b + i))
        = match ext_pixel e top mask val i with
          | Some x => u8 x
          | None => v (dword_remap (b + i))
          end)
  /\ (forall x, (forall i, 0 <= i < Z.of_nat n -> x <> dword_remap (b + i)) ->
      v' x = v x).
Proof.
  intros Hok Hk Hn Hb Hal v'. pose proof Hok as (Hm & Hmask).
  assert (E : v' = ext_write_spec n (ext_pixel e top mask val) b v).
  { unfold v'. rewrite ext_loops_pixel, Hmask.
    apply (ext_loop_spec m k b Hm Hk Hb Hal). exact Hn. }
  pose proof (aligned_room m k b Hm Hk Hb Hal) as Hroom.
  pose proof (pow2_le_32 m ltac:(lia)) as H32.
  rewrite E. split.
  - intros i Hi. split.
    + apply (aligned_remap m k b Hm Hk Hb Hal). lia.
    + apply ext_write_spec_at; lia.
  - intros x Hx. apply ext_write_spec_other. exact Hx.
Qed.

(** ** Expanded writes, reads and the latch copy *)

Lemma below_16 (P : Z -> Prop) :
  Forall P (map Z.of_nat (seq 0 16)) -> forall i, 0 <= i < 16 -> P i.
Proof.
  intros H i Hi. rewrite List.Forall_forall in H. apply H.
  replace i with (Z.of_nat (Z.to_nat i)) by lia. apply in_map, in_seq. lia.
Qed.

Ltac each_below_16 tac :=
  apply below_16; cbv [seq map Z.of_nat Pos.of_succ_nat Pos.succ];
  repeat (constructor; [tac|]); constructor.

Lemma ext_decoded_geb (e : ext_t) (addr : Z) :
  ext_decoded e addr -> (Z.land (u32 addr) (decode_mask e) >=? vram_max e) = false.
Proof. unfold ext_decoded. intros H. rewrite Z.geb_leb. apply Z.leb_gt. exact H. Qed.

Lemma ext_write_vram (e : ext_t) (addr val : Z) (g : svga_t) :
  ext_decoded e addr ->
  svga_vram (tgui_ext_linear_write e addr val g)
  = fst (ext_loops e 8 0x80 (gdc e 0x17) (u8 val) (svga_vram g)
           (dword_remap (ext_base e (ext_align e) addr))).
Proof.
  intros Hd. unfold tgui_ext_linear_write, ext_base, ext_align.
  cbv zeta. rewrite (ext_decoded_geb e addr Hd).
  destruct (nz (Z.land (gdc e 16) EXT_CTRL_LATCH_COPY)); reflexivity.
Qed.

Lemma ext_writew_vram (e : ext_t) (addr val : Z) (g : svga_t) :
  ext_decoded e addr ->
  svga_vram (tgui_ext_linear_writew e addr val g)
  = fst (ext_loops e 16 0x8000 (ext_word_mask e) (ext_word val) (svga_vram g)
           (dword_remap (ext_base e 4 addr))).
Proof.
  intros Hd. unfold tgui_ext_linear_writew, ext_base.
  cbv zeta. rewrite (ext_decoded_geb e addr Hd). reflexivity.
Qed.

Lemma ext_align_range (e : ext_t) : 3 <= ext_align e <= 4.
Proof. unfold ext_align. destruct (nz _); lia. Qed.

Lemma ext_align_room (e : ext_t) : 8 <= 2 ^ ext_align e.
Proof. unfold ext_align. destruct (nz _); [change (2 ^ 4) with 16|change (2 ^ 3) with 8]; lia. Qed.

Lemma ext_writew_group (e : ext_t) (m addr val : Z) (g : svga_t) :
  ext_ok e m -> ext_decoded e addr ->
  (forall i, 0 <= i < 16 ->
     0 <= dword_remap (ext_base e 4 addr + i) < 2 ^ m
     /\ svga_vram (tgui_ext_linear_writew e addr val g)
          (dword_remap (ext_base e 4 addr + i))
        = match ext_pixel e 0x8000 (ext_word_mask e) (ext_word val) i with
          | Some x => u8 x
          | None => svga_vram g (dword_remap (ext_base e 4 addr + i))
          end)
  /\ (forall x, (forall i, 0 <= i < 16 -> x <> dword_remap (ext_base e 4 addr + i)) ->
      svga_vram (tgui_ext_linear_writew e addr val g) x = svga_vram g x).
Proof.
  intros Hok Hd. rewrite (ext_writew_vram e addr val g Hd).
  destruct (ext_base_aligned e m 4 addr Hok ltac:(lia)) as (Hb & Hal).
  apply (ext_loops_group e m 4 _ 16 _ _ _ _ Hok ltac:(lia)
           ltac:(apply Z.leb_le; reflexivity) Hb Hal).
Qed.

(** X9. An expanded byte write that is decoded stores, for each of its
    eight data bits from the top, the byte the mode selects at the
    remapped address of byte [i] after the aligned base; these eight
    places lie in the framebuffer and no other byte changes. *)
Theorem ext_byte_write_group (e : ext_t) (m addr val : Z) (g : svga_t) :
  ext_ok e m -> ext_decoded e addr ->
  (forall i, 0 <= i < 8 ->
     0 <= dword_remap (ext_base e (ext_align e) addr + i) < 2 ^ m
     /\ svga_vram (tgui_ext_linear_write e addr val g)
          (dword_remap (ext_base e (ext_align e) addr + i))
        = match ext_pixel e 0x80 (gdc e 0x17) (u8 val) i with
          | Some x => u8 x
          | None => svga_vram g (dword_remap (ext_base e (ext_align e) addr + i))
          end)
  /\ (forall x,
        (forall i, 0 <= i < 8 -> x <> dword_remap (ext_base e (ext_align e) addr + i)) ->
        svga_vram (tgui_ext_linear_write e addr val g) x = svga_vram g x).
Proof.
  intros Hok Hd. rewrite (ext_write_vram e addr val g Hd).
  pose proof (ext_align_range e) as Hk. pose proof (ext_align_room e) as Hr.
  destruct (ext_base_aligned e m (ext_align e) addr Hok Hk) as (Hb & Hal).
  apply (ext_loops_group e m (ext_align e) _ 8 _ _ _ _ Hok ltac:(lia)
           ltac:(exact Hr) Hb Hal).
Qed.

(** X10. An expanded word write that is decoded does the same for
    sixteen bits, taken from the top of the data with its two bytes
    exchanged, at a base aligned to 16 bytes; the long write is the word
    write of the low half of its data. *)
Theorem ext_word_write_group (e : ext_t) (m addr val : Z) (g : svga_t) :
  ext_ok e m -> ext_decoded e addr ->
  (forall i, 0 <= i < 16 ->
     0 <= dword_remap (ext_base e 4 addr + i) < 2 ^ m
     /\ svga_vram (tgui_ext_linear_writew e addr val g)
          (dword_remap (ext_base e 4 addr + i))
        = match ext_pixel e 0x8000 (ext_word_mask e) (ext_word val) i with
          | Some x => u8 x
          | None => svga_vram g (dword_remap (ext_base e 4 addr + i))
          end)
  /\ (forall x, (forall i, 0 <= i < 16 -> x <> dword_remap (ext_base e 4 addr + i)) ->
      svga_vram (tgui_ext_linear_writew e addr val g) x = svga_vram g x)
  /\ tgui_ext_linear_writel e addr val g
     = tgui_ext_linear_writew e addr (Z.land val 0xffff) g.
Proof.
  intros Hok Hd.
  destruct (ext_writew_group e m addr val g Hok Hd) as (H1 & H2).
  split; [exact H1|]. split; [exact H2|].
  unfold tgui_ext_linear_writel, tgui_ext_linear_writew.
  replace (u16 (u32 val)) with (u16 val); [|unfold u16, u32; word_bits].
  replace (u16 (Z.land val 65535)) with (u16 val); [|unfold u16; word_bits].
  reflexivity.
Qed.

(** *** The read that fills the latch *)

Lemma aget_aset_eq (l : list Z) (i x : Z) :
  0 <= i < Z.of_nat (length l) -> aget (aset l i x) i = x.
Proof.
  intros Hi. unfold aget, aset. rewrite nth_lookup, list_lookup_insert_eq by lia.
  reflexivity.
Qed.

Lemma aget_aset_ne (l : list Z) (i j x : Z) :
  0 <= i -> 0 <= j -> i <> j -> aget (aset l i x) j = aget l j.
Proof.
  intros Hi Hj Hne. unfold aget, aset.
  rewrite !nth_lookup, list_lookup_insert_ne by lia. reflexivity.
Qed.

Lemma length_aset (l : list Z) (i x : Z) : length (aset l i x) = length l.
Proof. apply length_insert. Qed.

Lemma for_n_aset_length (n : nat) (f : Z -> Z) (l : list Z) :
  length (for_n n (fun i l => aset l i (f i)) l) = length l.
Proof.
  induction n as [|n IH]; [reflexivity|]. rewrite for_n_S, length_aset. exact IH.
Qed.

Lemma for_n_aset_at (n : nat) (f : Z -> Z) (l : list Z) (i : Z) :
  Z.of_nat n <= Z.of_nat (length l) -> 0 <= i < Z.of_nat n ->
  aget (for_n n (fun i l => aset l i (f i)) l) i = f i.
Proof.
  induction n as [|n IH]; intros Hn Hi; [lia|].
  rewrite for_n_S. destruct (Z.eq_dec i (Z.of_nat n)) as [->|Hne].
  - apply aget_aset_eq. rewrite for_n_aset_length. lia.
  - rewrite aget_aset_ne by lia. apply IH; lia.
Qed.

Lemma aligned_step_u32 (m a i : Z) :
  18 <= m <= 32 -> 0 <= a < 2 ^ m -> Z.land a (Z.ones 4) = 0 ->
  0 <= i -> i + 1 < 16 ->
  u32 (dword_remap (a + i) + ext_step i) = dword_remap (a + (i + 1)).
Proof.
  intros Hm Ha Hal Hi Hi1.
  pose proof (pow2_le_32 m ltac:(lia)) as H32.
  destruct (aligned_remap m 4 a Hm ltac:(lia) Ha Hal i
              ltac:(change (2 ^ 4) with 16; lia)) as (E & _).
  destruct (aligned_remap m 4 a Hm ltac:(lia) Ha Hal (i + 1)
              ltac:(change (2 ^ 4) with 16; lia)) as (E1 & R1).
  rewrite E, <- Z.add_assoc, ext_step_remap, <- E1 by lia.
  apply u32_small. lia.
Qed.

Lemma ext_fill_spec (m a : Z) (v : Z -> Z) (l : list Z) (n : nat) :
  18 <= m <= 32 -> 0 <= a < 2 ^ m -> Z.land a (Z.ones 4) = 0 ->
  Z.of_nat n < 16 ->
  ext_fill n v l (dword_remap a)
  = (for_n n (fun i l => aset l i (rd8 v (dword_remap (a + i)))) l,
     dword_remap (a + Z.of_nat n)).
Proof.
  intros Hm Ha Hal. unfold ext_fill.
  induction n as [|n IH]; intros Hn.
  - cbn. rewrite Z.add_0_r. reflexivity.
  - rewrite !for_n_S, IH by lia. cbn [fst snd].
    rewrite (aligned_step_u32 m a) by lia. do 2 f_equal. lia.
Qed.

Lemma ext_fill_S (n : nat) (v : Z -> Z) (l : list Z) (a0 : Z) :
  ext_fill (S n) v l a0
  = (aset (fst (ext_fill n v l a0)) (Z.of_nat n) (rd8 v (snd (ext_fill n v l a0))),
     u32 (snd (ext_fill n v l a0) + ext_step (Z.of_nat n))).
Proof. unfold ext_fill. rewrite for_n_S. reflexivity. Qed.

Lemma ext_fill_last (m a : Z) (v : Z -> Z) (l : list Z) (n : nat) :
  18 <= m <= 32 -> 0 <= a < 2 ^ m -> Z.land a (Z.ones 4) = 0 ->
  Z.of_nat n = 15 ->
  ext_fill (S n) v l (dword_remap a)
  = (for_n (S n) (fun i l => aset l i (rd8 v (dword_remap (a + i)))) l,
     u32 (dword_remap a + 0x40)).
Proof.
  intros Hm Ha Hal Hn.
  rewrite ext_fill_S, (ext_fill_spec m a v l n Hm Ha Hal) by lia.
  rewrite for_n_S. cbn [fst snd]. rewrite Hn.
  destruct (aligned_remap m 4 a Hm ltac:(lia) Ha Hal 15 ltac:(in_range)) as (E15 & _).
  rewrite E15, <- Z.add_assoc. reflexivity.
Qed.

Lemma ext_fill_16 (m a : Z) (v : Z -> Z) (l : list Z) :
  18 <= m <= 32 -> 0 <= a < 2 ^ m -> Z.land a (Z.ones 4) = 0 ->
  ext_fill 16 v l (dword_remap a)
  = (for_n 16 (fun i l => aset l i (rd8 v (dword_remap (a + i)))) l,
     u32 (dword_remap a + 0x40)).
Proof.
  intros Hm Ha Hal. apply (ext_fill_last m a v l 15 Hm Ha Hal). reflexivity.
Qed.

Lemma land_u32_ones (m x : Z) :
  0 <= m <= 32 -> Z.land (u32 x) (2 ^ m - 1) = x mod 2 ^ m.
Proof.
  intros Hm. replace (2 ^ m - 1) with (Z.ones m) by (rewrite Z.ones_equiv; lia).
  unfold u32. change 4294967295 with (Z.ones 32).
  rewrite !Z.land_ones by lia.
  apply Z.mod_mod_divide.
  exists (2 ^ (32 - m)). rewrite <- Z.pow_add_r by lia. f_equal. lia.
Qed.

Lemma ext_read_result (e : ext_t) (addr : Z) (g : svga_t) (m : Z) :
  ext_ok e m -> ext_decoded e addr ->
  tgui_ext_linear_read e addr g
  = (rd8 (svga_vram g)
         (Z.land (u32 (dword_remap (ext_base e 4 addr) + 0x40)) (svga_vram_mask e)),
     set_copy_latch
       (for_n 16 (fun i l => aset l i (rd8 (svga_vram g)
                                            (dword_remap (ext_base e 4 addr + i))))
              (copy_latch e)) e).
Proof.
  intros Hok Hd. pose proof Hok as (Hm & _).
  destruct (ext_base_aligned e m 4 addr Hok ltac:(lia)) as (Hb & Hal).
  unfold tgui_ext_linear_read. cbv zeta. rewrite (ext_decoded_geb e addr Hd).
  change (Z.land (Z.land (Z.land (u32 addr) (decode_mask e)) (svga_vram_mask e))
                 (u32 (Z.lnot 15))) with (ext_base e 4 addr).
  rewrite (ext_fill_16 m _ _ _ Hm Hb Hal). reflexivity.
Qed.

(** X11. An expanded read that is decoded loads the latch with the
    sixteen bytes of the aligned group around its address, in the order
    of the linear addresses; the byte it returns is none of them: it is
    read 0x40 places after the remapped base, wrapped into video
    memory. *)
Theorem ext_read_fills_latch (e : ext_t) (m addr : Z) (g : svga_t) :
  ext_ok e m -> ext_decoded e addr -> length (copy_latch e) = 16%nat ->
  (forall i, 0 <= i < 16 ->
     aget (copy_latch (snd (tgui_ext_linear_read e addr g))) i
     = rd8 (svga_vram g) (dword_remap (ext_base e 4 addr + i)))
  /\ length (copy_latch (snd (tgui_ext_linear_read e addr g))) = 16%nat
  /\ fst (tgui_ext_linear_read e addr g)
     = rd8 (svga_vram g)
           (Z.land (u32 (dword_remap (ext_base e 4 addr) + 0x40)) (svga_vram_mask e))
  /\ (forall i, 0 <= i < 16 ->
        Z.land (u32 (dword_remap (ext_base e 4 addr) + 0x40)) (svga_vram_mask e)
        <> dword_remap (ext_base e 4 addr + i)).
Proof.
  intros Hok Hd Hlen. rewrite (ext_read_result e addr g m Hok Hd).
  cbn [fst snd copy_latch set_copy_latch].
  split; [|split; [|split]].
  - intros i Hi.
    apply (for_n_aset_at 16 (fun i => rd8 (svga_vram g)
                                          (dword_remap (ext_base e 4 addr + i))));
      rewrite ?Hlen; lia.
  - rewrite for_n_aset_length. exact Hlen.
  - reflexivity.
  - intros i Hi. pose proof Hok as (Hm & Hmask).
    destruct (ext_base_aligned e m 4 addr Hok ltac:(lia)) as (Hb & Hal).
    destruct (aligned_remap m 4 _ Hm ltac:(lia) Hb Hal i
                ltac:(change (2 ^ 4) with 16; lia)) as (E & _).
    destruct (aligned_remap m 4 _ Hm ltac:(lia) Hb Hal 15 ltac:(in_range)) as (E15 & R15).
    change (dword_remap 15) with 0x33 in E15.
    assert (Hi33 : 0 <= dword_remap i <= 0x33).
    { clear E. revert i Hi. each_below_16 ltac:(split; apply Z.leb_le; reflexivity). }
    pose proof (pow2_ge_18 m ltac:(lia)) as H18. change (2 ^ 18) with 262144 in H18.
    rewrite Hmask, land_u32_ones, E by lia.
    set (r := dword_remap (ext_base e 4 addr)) in *.
    destruct (Z_lt_le_dec (r + 0x40) (2 ^ m)) as [Hlt|Hge].
    + rewrite Z.mod_small by lia. lia.
    + replace (r + 64) with ((r + 64 - 2 ^ m) + 1 * 2 ^ m) by lia.
      rewrite Z.mod_add, Z.mod_small by lia. lia.
Qed.

(** *** The latch copy *)

Lemma rd8_byte (v : Z -> Z) (x : Z) : u8 (rd8 v x) = rd8 v x.
Proof. unfold rd8, u8. rewrite <- Z.land_assoc. reflexivity. Qed.

Lemma ext_pixel_latch (e : ext_t) (top mask val i : Z) :
  Z.land (gdc e 0x10) EXT_CTRL_LATCH_COPY <> 0 ->
  ext_pixel e top mask val i
  = if ext_bit top val i then Some (aget (copy_latch e) i) else None.
Proof.
  intros H. unfold ext_pixel, nz.
  destruct (Z.eqb_spec (Z.land (gdc e 16) EXT_CTRL_LATCH_COPY) 0); [contradiction|].
  reflexivity.
Qed.

Lemma ext_align_latch (e : ext_t) :
  Z.land (gdc e 0x10) EXT_CTRL_LATCH_COPY <> 0 -> ext_align e = 4.
Proof.
  intros H. unfold ext_align, nz.
  destruct (Z.eqb_spec (Z.land (gdc e 16) EXT_CTRL_LATCH_COPY) 0); [contradiction|].
  reflexivity.
Qed.

(** X12. Under latch copy a read followed by a write copies a group:
    each byte of the written group whose data bit is set takes the byte
    at the same place of the group that was read, and the others keep
    their value. A word write copies up to sixteen bytes, a byte write
    the first eight. *)
Theorem ext_latch_copy (e : ext_t) (m src dst val : Z) (g : svga_t) :
  ext_ok e m -> ext_decoded e src -> ext_decoded e dst ->
  length (copy_latch e) = 16%nat ->
  Z.land (gdc e 0x10) EXT_CTRL_LATCH_COPY <> 0 ->
  (forall i, 0 <= i < 16 ->
     svga_vram (tgui_ext_linear_writew (snd (tgui_ext_linear_read e src g)) dst val g)
       (dword_remap (ext_base e 4 dst + i))
     = if ext_bit 0x8000 (ext_word val) i
       then rd8 (svga_vram g) (dword_remap (ext_base e 4 src + i))
       else svga_vram g (dword_remap (ext_base e 4 dst + i)))
  /\ (forall i, 0 <= i < 8 ->
     svga_vram (tgui_ext_linear_write (snd (tgui_ext_linear_read e src g)) dst val g)
       (dword_remap (ext_base e 4 dst + i))
     = if ext_bit 0x80 (u8 val) i
       then rd8 (svga_vram g) (dword_remap (ext_base e 4 src + i))
       else svga_vram g (dword_remap (ext_base e 4 dst + i))).
Proof.
  intros Hok Hs Hd Hlen Hl.
  rewrite (ext_read_result e src g m Hok Hs). cbn [snd].
  set (L := for_n 16 _ (copy_latch e)).
  assert (HL : forall i, 0 <= i < 16 ->
                 aget L i = rd8 (svga_vram g) (dword_remap (ext_base e 4 src + i))).
  { intros i Hi.
    apply (for_n_aset_at 16 (fun i => rd8 (svga_vram g)
                                          (dword_remap (ext_base e 4 src + i))));
      rewrite ?Hlen; lia. }
  set (e' := set_copy_latch L e).
  assert (Hok' : ext_ok e' m) by exact Hok.
  assert (Hd' : ext_decoded e' dst) by exact Hd.
  assert (Hl' : Z.land (gdc e' 0x10) EXT_CTRL_LATCH_COPY <> 0) by exact Hl.
  split; intros i Hi.
  - destruct (ext_writew_group e' m dst val g Hok' Hd') as (H & _).
    destruct (H i Hi) as (_ & E).
    change (ext_base e' 4 dst) with (ext_base e 4 dst) in E. rewrite E.
    rewrite (ext_pixel_latch e' _ _ _ _ Hl').
    destruct (ext_bit 32768 (ext_word val) i); [|reflexivity].
    change (copy_latch e') with L. rewrite HL by lia. apply rd8_byte.
  - rewrite (ext_write_vram e' dst val g Hd'), (ext_align_latch e' Hl').
    destruct (ext_base_aligned e' m 4 dst Hok' ltac:(lia)) as (Hb & Hal).
    destruct (ext_loops_group e' m 4 _ 8 128 (gdc e' 0x17) (u8 val) (svga_vram g)
                Hok' ltac:(lia) ltac:(apply Z.leb_le; reflexivity) Hb Hal) as (H & _).
    destruct (H i Hi) as (_ & E).
    change (ext_base e' 4 dst) with (ext_base e 4 dst) in *. rewrite E.
    rewrite (ext_pixel_latch e' _ _ _ _ Hl').
    destruct (ext_bit 128 (u8 val) i); [|reflexivity].
    change (copy_latch e') with L. rewrite HL by lia. apply rd8_byte.
Qed.

(** *** The page an expanded write marks *)

Lemma same_page (m k b i : Z) :
  18 <= m <= 32 -> 0 <= k <= 4 -> 0 <= b < 2 ^ m -> Z.land b (Z.ones k) = 0 ->
  0 <= i < 2 ^ k ->
  Z.shiftr (dword_remap (b + i)) 12 = Z.shiftr (dword_remap b) 12.
Proof.
  intros Hm Hk Hb Hal Hi.
  pose proof (pow2_k k Hk) as Hp. pose proof (pow2_le_32 m ltac:(lia)) as H32.
  pose proof (aligned_land k b i ltac:(lia) Hal Hi) as Hl.
  destruct (dword_remap_add b i ltac:(lia) ltac:(lia) Hl) as (E & Hl').
  rewrite E, (Z.add_nocarry_lxor _ _ Hl'), (Z.lxor_lor _ _ Hl'), Z.shiftr_lor.
  assert (Hz : Z.shiftr (dword_remap i) 12 = 0).
  { assert (Hi16 : 0 <= i < 16) by lia. clear - Hi16. revert i Hi16.
    each_below_16 ltac:(reflexivity). }
  rewrite Hz. apply Z.lor_0_r.
Qed.

Lemma ext_write_changed (e : ext_t) (addr val : Z) (g : svga_t) :
  ext_decoded e addr ->
  svga_changedvram (tgui_ext_linear_write e addr val g)
  = fun a => if a =? Z.shiftr (dword_remap (ext_base e (ext_align e) addr)) 12
             then svga_mon_changeframecount g else svga_changedvram g a.
Proof.
  intros Hd. unfold tgui_ext_linear_write, ext_base, ext_align.
  cbv zeta. rewrite (ext_decoded_geb e addr Hd).
  destruct (nz (Z.land (gdc e 16) EXT_CTRL_LATCH_COPY)); reflexivity.
Qed.

Lemma ext_writew_changed (e : ext_t) (addr val : Z) (g : svga_t) :
  ext_decoded e addr ->
  svga_changedvram (tgui_ext_linear_writew e addr val g)
  = fun a => if a =? Z.shiftr (dword_remap (ext_base e 4 addr)) 12
             then svga_mon_changeframecount g else svga_changedvram g a.
Proof.
  intros Hd. unfold tgui_ext_linear_writew, ext_base.
  cbv zeta. rewrite (ext_decoded_geb e addr Hd). reflexivity.
Qed.

(** X13. Every byte an expanded write can store lies in the one 4 KB
    page the write marks as changed, and the mark of no other page
    moves; so for the byte write and for the word write. *)
Theorem ext_write_marks_its_page (e : ext_t) (m addr val : Z) (g : svga_t) :
  ext_ok e m -> ext_decoded e addr ->
  (forall i, 0 <= i < 8 ->
     svga_changedvram (tgui_ext_linear_write e addr val g)
       (Z.shiftr (dword_remap (ext_base e (ext_align e) addr + i)) 12)
     = svga_mon_changeframecount g)
  /\ (forall i, 0 <= i < 16 ->
     svga_changedvram (tgui_ext_linear_writew e addr val g)
       (Z.shiftr (dword_remap (ext_base e 4 addr + i)) 12)
     = svga_mon_changeframecount g)
  /\ (forall p, p <> Z.shiftr (dword_remap (ext_base e (ext_align e) addr)) 12 ->
        svga_changedvram (tgui_ext_linear_write e addr val g) p = svga_changedvram g p)
  /\ (forall p, p <> Z.shiftr (dword_remap (ext_base e 4 addr)) 12 ->
        svga_changedvram (tgui_ext_linear_writew e addr val g) p = svga_changedvram g p).
Proof.
  intros Hok Hd. pose proof Hok as (Hm & _).
  rewrite (ext_write_changed e addr val g Hd), (ext_writew_changed e addr val g Hd).
  pose proof (ext_align_range e) as Hk. pose proof (ext_align_room e) as Hr.
  destruct (ext_base_aligned e m (ext_align e) addr Hok Hk) as (Hb & Hal).
  destruct (ext_base_aligned e m 4 addr Hok ltac:(lia)) as (Hb4 & Hal4).
  split; [|split; [|split]].
  - intros i Hi.
    rewrite (same_page m (ext_align e)) by (assumption || lia).
    rewrite Z.eqb_refl. reflexivity.
  - intros i Hi.
    rewrite (same_page m 4) by (assumption || (change (2 ^ 4) with 16; lia) || lia).
    rewrite Z.eqb_refl. reflexivity.
  - intros p Hp. destruct (Z.eqb_spec p (Z.shiftr (dword_remap (ext_base e (ext_align e) addr)) 12));
      [contradiction|reflexivity].
  - intros p Hp. destruct (Z.eqb_spec p (Z.shiftr (dword_remap (ext_base e 4 addr)) 12));
      [contradiction|reflexivity].
Qed.

(** ** What a register write does and does not do *)

Ltac window_case :=
  let H := fresh "H" in
  intros fuel val s H;
  first
    [ exfalso; apply H; reflexivity
    | hnf; unfold sync_bpp; case_ifs; split; reflexivity ].

Lemma quiet_window (fuel : nat) (a val : Z) (s : tgui_t) :
  0 <= a < 256 -> a <> 0x24 -> quiet s (tgui_accel_out fuel (a + 0x2100) val s).
Proof.
  intros Ha. revert fuel val s. pattern a.
  apply forall_byte; [|exact Ha].
  each_byte window_case.
Qed.

(** X14. Through the register window only offset 0x24, the command
    register, starts the engine: a byte written to any other offset
    returns at once and leaves the display state (framebuffer, change
    marks, CRTC registers) and the blitter flag as they were. *)
Theorem only_command_starts_engine (fuel : nat) (addr val : Z) (s : tgui_t) :
  Z.land addr 0xff <> 0x24 ->
  exists s', tgui_accel_write fuel addr val s = Done s'
             /\ svga s' = svga s /\ write_blitter s' = write_blitter s.
Proof.
  intros Hne. unfold tgui_accel_write.
  destruct (outside_aperture s addr);
    [exists s; repeat split; reflexivity|].
  pose proof (quiet_window fuel (Z.land addr 0xff) val s (land_ff_range addr) Hne) as Q.
  destruct (tgui_accel_out fuel (Z.land addr 0xff + 0x2100) val s) as [s'|s'];
    [exists s'; split; [reflexivity|exact Q]|destruct Q].
Qed.

(** ** Geometry registers and pattern bytes *)

Lemma low_byte_s16 (z : Z) : Z.land (s16 z) 0xff = Z.land z 0xff.
Proof.
  apply Z.bits_inj'. intros i Hi. change 0xff with (Z.ones 8).
  rewrite !Z.land_spec, (testbit_ones 8 i) by lia.
  destruct (Z.ltb_spec i 8); [rewrite s16_testbit by lia|rewrite !andb_false_r];
    reflexivity.
Qed.

Lemma land_low_byte (old m w : Z) :
  Z.land m 0xff = 0 ->
  Z.land (Z.lor (Z.land old m) (u8 w)) 0xff = u8 w.
Proof.
  intros Hm. unfold u8.
  rewrite Z.land_lor_distr_l, <- !Z.land_assoc, Hm, Z.land_0_r.
  reflexivity.
Qed.

(** The two bytes of a word written to a 14-bit register. *)
Lemma word_14 (w : Z) :
  Z.lor (u8 w) (Z.shiftl (Z.land (u8 (Z.shiftr w 8)) 0x3f) 8) = Z.land w 0x3fff.
Proof.
  change 0x3f with (Z.ones 6). change 0x3fff with (Z.ones 14). word_bits.
Qed.

Lemma word_12 (w : Z) :
  Z.lor (u8 w) (Z.shiftl (Z.land (u8 (Z.shiftr w 8)) 0x0f) 8) = Z.land w 0xfff.
Proof.
  change 0x0f with (Z.ones 4). change 0xfff with (Z.ones 12). word_bits.
Qed.

Lemma word_16 (old w : Z) :
  u16 (Z.lor (Z.land (u16 (Z.lor (Z.land old 0xff00) (u8 w))) 0xff)
             (Z.shiftl (u8 (Z.shiftr w 8)) 8))
  = u16 w.
Proof. word_bits. Qed.

Lemma bit_13 (w : Z) :
  nz (Z.land (u8 (Z.shiftr w 8)) 0x20) = negb (Z.land w 0x3fff <? 0x2000).
Proof.
  assert (E : Z.land (u8 (Z.shiftr w 8)) 0x20
              = Z.land (Z.shiftr (Z.land w 0x3fff) 13) 1 * 0x20).
  { change (Z.land (Z.shiftr (Z.land w 0x3fff) 13) 1 * 0x20)
      with (Z.land (Z.shiftr (Z.land w 0x3fff) 13) 1 * 2 ^ 5).
    rewrite <- Z.shiftl_mul_pow2 by lia.
    change 0x20 with (Z.shiftl (Z.ones 1) 5). change 0x3fff with (Z.ones 14).
    change 1 with (Z.ones 1) at 2. word_bits. }
  pose proof (land_ones_range 14 w ltac:(lia)) as R.
  change (Z.ones 14) with 0x3fff in R. change (2 ^ 14) with 0x4000 in R.
  unfold nz. rewrite E. clear E.
  set (X := Z.land w 0x3fff) in *.
  rewrite Z.shiftr_div_pow2 by lia. change (2 ^ 13) with 0x2000.
  change 1 with (Z.ones 1). rewrite Z.land_ones by lia. change (2 ^ 1) with 2.
  destruct (Z.ltb_spec X 0x2000) as [Hlt|Hge]; cbn [negb].
  - rewrite Z.div_small by lia. reflexivity.
  - replace (X / 0x2000) with 1 by (apply Z.div_unique with (X - 0x2000); lia).
    reflexivity.
Qed.

Lemma sign_from_bit_13 (w keep : Z) :
  keep = 0x3fff \/ keep = 0x1fff ->
  0x2000 <= Z.land w 0x3fff ->
  Z.lor (Z.land w 0x3fff) (Z.lnot keep) = Z.land w 0x3fff - 0x4000.
Proof.
  intros Hk Hge.
  pose proof (land_ones_range 14 w ltac:(lia)) as R.
  change (Z.ones 14) with 0x3fff in R. change (2 ^ 14) with 0x4000 in R.
  set (X := Z.land w 0x3fff) in *.
  assert (E : Z.lor X (Z.lnot keep) = Z.lor (Z.land X 0x1fff) (Z.lnot 0x1fff)).
  { assert (B : Z.testbit X 13 = true).
    { apply Z.testbit_true; [lia|]. change (2 ^ 13) with 0x2000.
      replace (X / 0x2000) with 1
        by (apply Z.div_unique with (X - 0x2000); lia).
      reflexivity. }
    assert (Hhi : forall i, 14 <= i -> Z.testbit X i = false)
      by (intros i Hi; apply (testbit_small 14); [exact R|lia]).
    apply Z.bits_inj'. intros i Hi.
    rewrite !Z.lor_spec, Z.land_spec, !Z.lnot_spec by lia.
    change 0x1fff with (Z.ones 13).
    destruct Hk as [-> | ->];
      [change 0x3fff with (Z.ones 14)|change 0x1fff with (Z.ones 13)];
      rewrite !testbit_ones by lia;
      destruct (Z.ltb_spec i 13); destruct (Z.ltb_spec i 14); try lia;
      cbn [negb]; rewrite ?andb_true_r, ?andb_false_r, ?orb_false_r, ?orb_true_r;
      try reflexivity.
    all: replace i with 13 by lia; exact B. }
  rewrite E.
  assert (D : Z.land (Z.land X 0x1fff) (Z.lnot 0x1fff) = 0)
    by (rewrite <- Z.land_assoc; apply Z.land_0_r).
  rewrite <- (Z.lxor_lor _ _ D), <- (Z.add_nocarry_lxor _ _ D).
  change 0x1fff with (Z.ones 13). rewrite Z.land_ones by lia.
  change (2 ^ 13) with 0x2000. change (Z.lnot (Z.ones 13)) with (-0x2000).
  rewrite <- (Z.mod_unique X 0x2000 1 (X - 0x2000)); lia.
Qed.

(** The value of a 14-bit register after its low and high byte were
    written. *)
Lemma signed14_register (old w keep : Z) :
  keep = 0x3fff \/ keep = 0x1fff ->
  (if nz (Z.land (u8 (Z.shiftr w 8)) 0x20)
   then s16 (Z.lor (s16 (Z.lor (Z.land (s16 (Z.lor (Z.land old 0x3f00) (u8 w))) 0xff)
                               (Z.shiftl (Z.land (u8 (Z.shiftr w 8)) 0x3f) 8)))
                   (Z.lnot keep))
   else s16 (Z.lor (Z.land (s16 (Z.lor (Z.land old 0x3f00) (u8 w))) 0xff)
                   (Z.shiftl (Z.land (u8 (Z.shiftr w 8)) 0x3f) 8)))
  = signed14 w.
Proof.
  intros Hk.
  rewrite low_byte_s16, (land_low_byte old 0x3f00 w) by reflexivity.
  rewrite word_14, bit_13. unfold signed14. cbv zeta.
  pose proof (land_ones_range 14 w ltac:(lia)) as R.
  change (Z.ones 14) with 0x3fff in R. change (2 ^ 14) with 0x4000 in R.
  destruct (Z.ltb_spec (Z.land w 0x3fff) 0x2000) as [Hlt|Hge]; cbn [negb].
  - apply s16_small. lia.
  - rewrite (s16_small (Z.land w 0x3fff)) by lia.
    rewrite (sign_from_bit_13 w keep Hk Hge). apply s16_small. lia.
Qed.

Ltac out_w_at p :=
  unfold tgui_accel_out_w, tgui_accel_out; at_port p; cbn [and_then];
  at_port (p + 1); eexists; split; [reflexivity|]; simp_state.

(** X15. The source position and the width take 14-bit two's
    complement values: a word written to 0x213c, 0x213e or 0x2140 leaves
    the register at the value of its low 14 bits read as a signed
    number, whatever it held. The height takes the low 12 bits,
    unsigned, and its saved copy all 16. *)
Theorem geometry_words_are_14_bit_signed (fuel : nat) (w : Z) (s : tgui_t) :
  (exists s', tgui_accel_out_w fuel 0x213c w s = Done s'
              /\ s'#Accel.src_x = signed14 w)
  /\ (exists s', tgui_accel_out_w fuel 0x213e w s = Done s'
                 /\ s'#Accel.src_y = signed14 w)
  /\ (exists s', tgui_accel_out_w fuel 0x2140 w s = Done s'
                 /\ s'#Accel.size_x = signed14 w)
  /\ (exists s', tgui_accel_out_w fuel 0x2142 w s = Done s'
                 /\ s'#Accel.size_y = Z.land w 0xfff
                 /\ s'#Accel.sv_size_y = u16 w).
Proof.
  repeat apply conj.
  - out_w_at 0x213c.
    rewrite <- (signed14_register (s#Accel.src_x) w 0x3fff) by (left; reflexivity).
    destruct (nz _); reflexivity.
  - out_w_at 0x213e.
    rewrite <- (signed14_register (s#Accel.src_y) w 0x3fff) by (left; reflexivity).
    destruct (nz _); reflexivity.
  - out_w_at 0x2140.
    rewrite <- (signed14_register (s#Accel.size_x) w 0x1fff) by (right; reflexivity).
    destruct (nz _); reflexivity.
  - out_w_at 0x2142. split.
    + rewrite low_byte_s16, (land_low_byte _ 0xf00 w) by reflexivity.
      rewrite word_12. apply s16_small.
      pose proof (land_ones_range 12 w ltac:(lia)) as R.
      change (Z.ones 12) with 0xfff in R. change (2 ^ 12) with 0x1000 in R. lia.
    + apply word_16.
Qed.

Lemma out_pattern (fuel : nat) (k v : Z) (s : tgui_t) :
  0 <= k < 128 ->
  tgui_accel_out fuel (0x2180 + k) v s
  = Done (upd (fun a => Accel.set_pattern_32_idx
                          (Z.land (Accel.pattern_32_idx a + 1) 0xff) a)
            (upd (fun a => Accel.set_pattern_32bpp
                             (aset (Accel.pattern_32bpp a) (Accel.pattern_32_idx a) (u8 v)) a)
               (upd (fun a => Accel.set_pattern (aset (Accel.pattern a) k (u8 v)) a) s))).
Proof.
  intros Hk. assert (Hb : 0 <= k < 256) by lia. revert Hk. revert fuel v s. pattern k.
  apply forall_byte; [|exact Hb].
  each_byte ltac:(intros fuel v s Hk; first [lia | reflexivity]).
Qed.

Lemma in_pattern (k : Z) (s : tgui_t) :
  0 <= k < 128 -> tgui_accel_in (0x2180 + k) s = u8 (aget (s#Accel.pattern) k).
Proof.
  intros Hk. assert (Hb : 0 <= k < 256) by lia. revert Hk. revert s. pattern k.
  apply forall_byte; [|exact Hb].
  each_byte ltac:(intros s Hk; first [lia | reflexivity]).
Qed.

(** X16. A byte written to one of the 128 pattern ports is read back
    from it, the other pattern bytes keep their value, and the byte is
    also appended to the 32 bpp pattern at the running index, which
    advances modulo 256 whatever the port. *)
Theorem pattern_byte_round_trip (fuel : nat) (k v : Z) (s : tgui_t) :
  0 <= k < 128 -> length (s#Accel.pattern) = 128%nat ->
  0 <= s#Accel.pattern_32_idx < Z.of_nat (length (s#Accel.pattern_32bpp)) ->
  exists s', tgui_accel_out fuel (0x2180 + k) v s = Done s'
    /\ tgui_accel_in (0x2180 + k) s' = u8 v
    /\ (forall j, 0 <= j < 128 -> j <> k ->
          tgui_accel_in (0x2180 + j) s' = tgui_accel_in (0x2180 + j) s)
    /\ aget (s'#Accel.pattern_32bpp) (s#Accel.pattern_32_idx) = u8 v
    /\ s'#Accel.pattern_32_idx = Z.land (s#Accel.pattern_32_idx + 1) 0xff
    /\ length (s'#Accel.pattern) = 128%nat.
Proof.
  intros Hk Hlen Hidx. rewrite (out_pattern fuel k v s Hk).
  eexists. split; [reflexivity|].
  split; [|split; [|split; [|split]]].
  - rewrite in_pattern by exact Hk. simp_state.
    rewrite aget_aset_eq by (rewrite Hlen; lia). unfold u8.
    rewrite <- Z.land_assoc. reflexivity.
  - intros j Hj Hne. rewrite !in_pattern by exact Hj. simp_state.
    rewrite aget_aset_ne by lia. reflexivity.
  - simp_state. apply aget_aset_eq. exact Hidx.
  - reflexivity.
  - simp_state. rewrite length_aset. exact Hlen.
Qed.

(** ** The theorems at work on concrete accesses *)

Lemma ext_card_ok (ctrl : Z) : ext_ok (ext_card ctrl) 21.
Proof. split; [lia|reflexivity]. Qed.

Lemma ext_card_decoded (ctrl : Z) : ext_decoded (ext_card ctrl) 0x1234.
Proof. reflexivity. Qed.

Lemma ext_byte_write_group_witness :
  ext_ok (ext_card 0) 21 /\ ext_decoded (ext_card 0) 0x1234
  /\ svga_vram (tgui_ext_linear_write (ext_card 0) 0x1234 0xa5 (svga one_pixel_fill))
       (dword_remap (ext_base (ext_card 0) (ext_align (ext_card 0)) 0x1234 + 0))
     = 0xaa.
Proof.
  split; [apply ext_card_ok|]. split; [apply ext_card_decoded|].
  destruct (ext_byte_write_group (ext_card 0) 21 0x1234 0xa5 (svga one_pixel_fill)
              (ext_card_ok 0) (ext_card_decoded 0)) as (H & _).
  destruct (H 0 ltac:(lia)) as (_ & E). exact E.
Defined.

Lemma ext_word_write_group_witness :
  ext_ok (ext_card 0) 21 /\ ext_decoded (ext_card 0) 0x1234
  /\ svga_vram (tgui_ext_linear_writew (ext_card 0) 0x1234 0x00ff (svga one_pixel_fill))
       (dword_remap (ext_base (ext_card 0) 4 0x1234 + 0))
     = 0xaa.
Proof.
  split; [apply ext_card_ok|]. split; [apply ext_card_decoded|].
  destruct (ext_word_write_group (ext_card 0) 21 0x1234 0x00ff (svga one_pixel_fill)
              (ext_card_ok 0) (ext_card_decoded 0)) as (H & _).
  destruct (H 0 ltac:(lia)) as (_ & E). exact E.
Defined.

Lemma ext_read_fills_latch_witness :
  ext_ok (ext_card 8) 21 /\ ext_decoded (ext_card 8) 0x1234
  /\ length (copy_latch (ext_card 8)) = 16%nat
  /\ aget (copy_latch (snd (tgui_ext_linear_read (ext_card 8) 0x1234 (svga one_pixel_fill)))) 3
     = rd8 (svga_vram (svga one_pixel_fill))
           (dword_remap (ext_base (ext_card 8) 4 0x1234 + 3)).
Proof.
  split; [apply ext_card_ok|]. split; [apply ext_card_decoded|].
  split; [reflexivity|].
  destruct (ext_read_fills_latch (ext_card 8) 21 0x1234 (svga one_pixel_fill)
              (ext_card_ok 8) (ext_card_decoded 8) eq_refl) as (H & _).
  apply H. lia.
Defined.

Lemma ext_latch_copy_witness :
  ext_ok (ext_card 8) 21 /\ ext_decoded (ext_card 8) 0x1234
  /\ length (copy_latch (ext_card 8)) = 16%nat
  /\ Z.land (gdc (ext_card 8) 0x10) EXT_CTRL_LATCH_COPY <> 0
  /\ svga_vram (tgui_ext_linear_writew
                  (snd (tgui_ext_linear_read (ext_card 8) 0x1234 (svga one_pixel_fill)))
                  0x1234 0xffff (svga one_pixel_fill))
       (dword_remap (ext_base (ext_card 8) 4 0x1234 + 5))
     = rd8 (svga_vram (svga one_pixel_fill))
           (dword_remap (ext_base (ext_card 8) 4 0x1234 + 5)).
Proof.
  assert (L : Z.land (gdc (ext_card 8) 0x10) EXT_CTRL_LATCH_COPY <> 0) by discriminate.
  split; [apply ext_card_ok|]. split; [apply ext_card_decoded|].
  split; [reflexivity|]. split; [exact L|].
  destruct (ext_latch_copy (ext_card 8) 21 0x1234 0x1234 0xffff (svga one_pixel_fill)
              (ext_card_ok 8) (ext_card_decoded 8) (ext_card_decoded 8) eq_refl L)
    as (H & _).
  exact (H 5 ltac:(lia)).
Defined.

Lemma ext_write_marks_its_page_witness :
  ext_ok (ext_card 0) 21 /\ ext_decoded (ext_card 0) 0x1234
  /\ svga_changedvram (tgui_ext_linear_write (ext_card 0) 0x1234 0xa5 (svga one_pixel_fill))
       (Z.shiftr (dword_remap (ext_base (ext_card 0) (ext_align (ext_card 0)) 0x1234 + 7)) 12)
     = svga_mon_changeframecount (svga one_pixel_fill).
Proof.
  split; [apply ext_card_ok|]. split; [apply ext_card_decoded|].
  destruct (ext_write_marks_its_page (ext_card 0) 21 0x1234 0xa5 (svga one_pixel_fill)
              (ext_card_ok 0) (ext_card_decoded 0)) as (H & _).
  apply H. lia.
Defined.

Lemma only_command_starts_engine_witness :
  Z.land 0xb7f2c 0xff <> 0x24
  /\ exists s', tgui_accel_write 0 0xb7f2c 0x12 (with_crtc 0x36 0x01 one_pixel_fill) = Done s'
                /\ svga s' = svga (with_crtc 0x36 0x01 one_pixel_fill)
                /\ write_blitter s' = write_blitter (with_crtc 0x36 0x01 one_pixel_fill).
Proof.
  assert (H : Z.land 0xb7f2c 0xff <> 0x24) by discriminate.
  split; [exact H|].
  apply (only_command_starts_engine 0 0xb7f2c 0x12 (with_crtc 0x36 0x01 one_pixel_fill) H).
Defined.

Lemma pattern_byte_round_trip_witness :
  0 <= 5 < 128 /\ length (one_pixel_fill#Accel.pattern) = 128%nat
  /\ 0 <= one_pixel_fill#Accel.pattern_32_idx
       < Z.of_nat (length (one_pixel_fill#Accel.pattern_32bpp))
  /\ exists s', tgui_accel_out 0 (0x2180 + 5) 0x3c one_pixel_fill = Done s'
       /\ tgui_accel_in (0x2180 + 5) s' = u8 0x3c
       /\ (forall j, 0 <= j < 128 -> j <> 5 ->
             tgui_accel_in (0x2180 + j) s' = tgui_accel_in (0x2180 + j) one_pixel_fill)
       /\ aget (s'#Accel.pattern_32bpp) (one_pixel_fill#Accel.pattern_32_idx) = u8 0x3c
       /\ s'#Accel.pattern_32_idx = Z.land (one_pixel_fill#Accel.pattern_32_idx + 1) 0xff
       /\ length (s'#Accel.pattern) = 128%nat.
Proof.
  assert (H1 : 0 <= 5 < 128) by lia.
  assert (H2 : length (one_pixel_fill#Accel.pattern) = 128%nat) by (vm_compute; reflexivity).
  assert (H3 : 0 <= one_pixel_fill#Accel.pattern_32_idx
               < Z.of_nat (length (one_pixel_fill#Accel.pattern_32bpp)))
    by (vm_compute; split; [discriminate|reflexivity]).
  split; [exact H1|]. split; [exact H2|]. split; [exact H3|].
  apply (pattern_byte_round_trip 0 5 0x3c one_pixel_fill H1 H2 H3).
Defined.

(** ** A command code the engine does not know *)

Lemma unknown_command_entry (fuel : nat) (count cpu_dat : Z) (s : tgui_t) :
  ~ In (s#Accel.command) command_codes ->
  tgui_accel_command fuel count cpu_dat s = Done (entry_state count cpu_dat s).
Proof.
  intros Hcmd. unfold tgui_accel_command.
  rewrite entry_decompose, entry_state_command.
  unfold command_codes in Hcmd. cbn [In] in Hcmd.
  repeat match goal with
         | |- context [Accel.command ?a =? ?k] =>
             destruct (Z.eqb_spec (Accel.command a) k) as [E|_];
             [exfalso; apply Hcmd; rewrite E; intuition congruence|]
         end.
  reflexivity.
Qed.

(** X17. A byte written to the command register that is none of the
    five command codes is stored and starts the engine, which returns
    at once and draws nothing: the display state and the blitter flag
    are as before, and of the accelerator registers only what the entry
    code of every command writes can differ ([x], [y], the pattern
    cache, [pitch], [pattern_32_idx]). *)
Theorem unknown_command_draws_nothing (fuel : nat) (val : Z) (s : tgui_t) :
  ~ In (u8 val) command_codes ->
  exists s', tgui_accel_out fuel 0x2124 val s = Done s'
    /\ s'#Accel.command = u8 val
    /\ svga s' = svga s /\ write_blitter s' = write_blitter s
    /\ entry_blind (accel s') = entry_blind (Accel.set_command (u8 val) (accel s)).
Proof.
  intros Hcmd. unfold tgui_accel_out. at_port 0x2124.
  set (s0 := upd (Accel.set_command (u8 val)) s).
  assert (H0 : ~ In (s0#Accel.command) command_codes) by exact Hcmd.
  rewrite (unknown_command_entry fuel (-1) 0 s0 H0).
  eexists. split; [reflexivity|].
  destruct (entry_state_frame (-1) 0 s0) as (H1 & _ & H3 & _ & _ & H6).
  split; [apply entry_state_command|].
  split; [exact H1|]. split; [exact H3|]. exact H6.
Qed.

Lemma unknown_command_draws_nothing_witness :
  ~ In (u8 0x100) command_codes
  /\ exists s', tgui_accel_out 0 0x2124 0x100 one_pixel_fill = Done s'
       /\ s'#Accel.command = u8 0x100
       /\ svga s' = svga one_pixel_fill
       /\ write_blitter s' = write_blitter one_pixel_fill
       /\ entry_blind (accel s')
          = entry_blind (Accel.set_command (u8 0x100) (accel one_pixel_fill)).
Proof.
  assert (H : ~ In (u8 0x100) command_codes)
    by (intros [E|[E|[E|[E|[E|[]]]]]]; discriminate E).
  split; [exact H|].
  apply (unknown_command_draws_nothing 0 0x100 one_pixel_fill H).
Defined.

(** ** The line commands return *)

Lemma s16_in_range (z : Z) : -0x8000 <= s16 z < 0x8000.
Proof.
  unfold s16. pose proof (Z.mod_pos_bound (z + 0x8000) 0x10000 ltac:(lia)). lia.
Qed.

Lemma y_line_next (s : tgui_t) : (line_next s)#Accel.y = s16 (s#Accel.y - 1).
Proof. reflexivity. Qed.

Lemma y_bresenham_minor (s : tgui_t) : (bresenham_minor s)#Accel.y = s#Accel.y.
Proof.
  unfold bresenham_minor, inc_dx, dec_dx, inc_dy, dec_dy. cbv zeta.
  case_ifs; reflexivity.
Qed.

Lemma y_bresenham_major (s : tgui_t) : (bresenham_major s)#Accel.y = s#Accel.y.
Proof.
  unfold bresenham_major, inc_dx, dec_dx, inc_dy, dec_dy. cbv zeta.
  case_ifs; reflexivity.
Qed.

Lemma y_vector_step (code : Z) (s : tgui_t) : (vector_step code s)#Accel.y = s#Accel.y.
Proof.
  unfold vector_step, inc_dx, dec_dx, inc_dy, dec_dy. case_ifs; reflexivity.
Qed.

(** One more step of the countdown. *)
Lemma line_countdown (y : Z) :
  -0x8000 <= y < 0x8000 -> y <> 0 ->
  -0x8000 <= s16 (y - 1) < 0x8000
  /\ (Z.to_nat (s16 (y - 1) mod 0x10000) < Z.to_nat (y mod 0x10000))%nat.
Proof.
  intros Hy Hne. split; [apply s16_in_range|].
  rewrite s16_mod.
  pose proof (Z.mod_pos_bound y 0x10000 ltac:(lia)) as Hm.
  assert (Hnz : y mod 0x10000 <> 0).
  { intros E. apply Z.mod_divide in E; [|lia]. destruct E as (q & E). lia. }
  assert (E : (y - 1) mod 0x10000 = y mod 0x10000 - 1).
  { symmetry. apply Z.mod_unique with (y / 0x10000); [lia|].
    pose proof (Z.div_mod y 0x10000 ltac:(lia)). lia. }
  rewrite E. apply Z2Nat.inj_lt; lia.
Qed.

Lemma bresenham_progress s c d s' c' d' :
  line_inv s -> bresenham_body s c d = Continue s' c' d' ->
  line_inv s' /\ (line_measure s' < line_measure s)%nat.
Proof.
  unfold bresenham_body.
  intros Hinv E. cbv zeta in E.
  pose proof (f_equal Accel.y (accel_draw_line_pixel s)) as Hy.
  revert E Hy. generalize (draw_line_pixel s). intros s1 E Hy.
  destruct (Z.eqb_spec (s1#Accel.y) 0) as [|Hne]; [discriminate E|].
  injection E as <- _ _.
  unfold line_inv, line_measure in *.
  rewrite y_line_next, y_bresenham_major, y_bresenham_minor, Hy.
  apply line_countdown; [exact Hinv|rewrite <- Hy; exact Hne].
Qed.

Lemma shortvector_progress s c d s' c' d' :
  line_inv s -> shortvector_body s c d = Continue s' c' d' ->
  line_inv s' /\ (line_measure s' < line_measure s)%nat.
Proof.
  unfold shortvector_body.
  intros Hinv E. cbv zeta in E.
  pose proof (f_equal Accel.y (accel_draw_line_pixel s)) as Hy.
  revert E Hy. generalize (draw_line_pixel s). intros s1 E Hy.
  destruct (Z.eqb_spec (s1#Accel.y) 0) as [|Hne]; [discriminate E|].
  injection E as <- _ _.
  unfold line_inv, line_measure in *.
  rewrite y_line_next, y_vector_step, Hy.
  apply line_countdown; [exact Hinv|rewrite <- Hy; exact Hne].
Qed.

Lemma fastline_progress s c d s' c' d' :
  line_inv s -> fastline_body s c d = Continue s' c' d' ->
  line_inv s' /\ (line_measure s' < line_measure s)%nat.
Proof.
  unfold fastline_body.
  intros Hinv E. cbv zeta in E.
  pose proof (f_equal Accel.y (accel_draw_line_pixel s)) as Hy.
  revert E Hy. generalize (draw_line_pixel s). intros s1 E Hy.
  destruct (Z.eqb_spec (s1#Accel.y) 0) as [|Hne]; [discriminate E|].
  injection E as <- _ _.
  unfold line_inv, line_measure in *.
  rewrite y_line_next, y_vector_step, Hy.
  apply line_countdown; [exact Hinv|rewrite <- Hy; exact Hne].
Qed.

Lemma entry_state_size_y (count cpu_dat : Z) (s : tgui_t) :
  (entry_state count cpu_dat s)#Accel.size_y = s#Accel.size_y
  /\ (entry_state count cpu_dat s)#Accel.sv_size_y = s#Accel.sv_size_y.
Proof.
  pose proof (entry_state_frame count cpu_dat s) as (_ & _ & _ & _ & _ & H).
  split; [apply (f_equal Accel.size_y) in H|apply (f_equal Accel.sv_size_y) in H];
    exact H.
Qed.

(** X18. The three line commands always return: the countdown [y]
    starts from the height (for the short vector, from the low 12 bits
    of the saved height), steps down through the 16-bit numbers and
    the loop ends at zero, so fuel above [line_length], which is below
    65536, is enough. *)
Theorem line_commands_return (fuel : nat) (s : tgui_t) :
  In (s#Accel.command) line_commands ->
  -0x8000 <= s#Accel.size_y < 0x8000 ->
  (Z.to_nat (line_length s) < fuel)%nat ->
  0 <= line_length s < 0x10000
  /\ exists s', tgui_accel_command fuel (-1) 0 s = Done s'.
Proof.
  intros Hcmd Hsy Hfuel.
  assert (Hlen : 0 <= line_length s < 0x10000).
  { unfold line_length. destruct (_ =? _).
    - pose proof (land_ones_range 12 (s#Accel.sv_size_y) ltac:(lia)) as R.
      change (Z.ones 12) with 0xfff in R. change (2 ^ 12) with 0x1000 in R. lia.
    - apply Z.mod_pos_bound. lia. }
  split; [exact Hlen|].
  destruct (entry_state_size_y (-1) 0 s) as (Esy & Esv).
  unfold tgui_accel_command.
  rewrite entry_decompose, entry_skip_start. cbn [fst snd].
  rewrite entry_state_command.
  revert Esy Esv. generalize (entry_state (-1) 0 s). intros s0 Esy Esv.
  change (-1 =? -1) with true. cbv iota zeta.
  unfold line_length in Hfuel.
  unfold line_commands in Hcmd. cbn [In] in Hcmd.
  destruct Hcmd as [E|[E|[E|[]]]]; rewrite <- E in *.
  - change (TGUI_BRESENHAMLINE =? TGUI_BITBLT) with false.
    change (TGUI_BRESENHAMLINE =? TGUI_SCANLINE) with false.
    change (TGUI_BRESENHAMLINE =? TGUI_BRESENHAMLINE) with true.
    change (TGUI_BRESENHAMLINE =? TGUI_SHORTVECTOR) with false in Hfuel.
    cbv iota in *.
    eapply (while_count_dec_terminates line_inv line_measure);
      [apply bresenham_progress| |].
    + unfold line_inv, load_clip, load_dxdy. cbv zeta. case_ifs; simp_state; rewrite Esy; exact Hsy.
    + unfold line_measure, load_clip, load_dxdy. cbv zeta. case_ifs; simp_state; rewrite Esy; exact Hfuel.
  - change (TGUI_SHORTVECTOR =? TGUI_BITBLT) with false.
    change (TGUI_SHORTVECTOR =? TGUI_SCANLINE) with false.
    change (TGUI_SHORTVECTOR =? TGUI_BRESENHAMLINE) with false.
    change (TGUI_SHORTVECTOR =? TGUI_SHORTVECTOR) with true in *.
    cbv iota in *.
    assert (R : 0 <= Z.land (s#Accel.sv_size_y) 0xfff < 0x1000).
    { pose proof (land_ones_range 12 (s#Accel.sv_size_y) ltac:(lia)) as R.
      exact R. }
    eapply (while_count_dec_terminates line_inv line_measure);
      [apply shortvector_progress| |].
    + unfold line_inv, load_clip, load_dxdy. cbv zeta. case_ifs; simp_state;
        rewrite Esv; apply s16_in_range.
    + unfold line_measure, load_clip, load_dxdy. cbv zeta. case_ifs; simp_state;
        rewrite Esv, s16_small, Z.mod_small by lia; exact Hfuel.
  - change (TGUI_FASTLINE =? TGUI_BITBLT) with false.
    change (TGUI_FASTLINE =? TGUI_SCANLINE) with false.
    change (TGUI_FASTLINE =? TGUI_BRESENHAMLINE) with false.
    change (TGUI_FASTLINE =? TGUI_SHORTVECTOR) with false in *.
    change (TGUI_FASTLINE =? TGUI_FASTLINE) with true.
    cbv iota in *.
    destruct (type s0 <? TGUI_9660); [eexists; reflexivity|].
    eapply (while_count_dec_terminates line_inv line_measure);
      [apply fastline_progress| |].
    + unfold line_inv, load_clip, load_dxdy. cbv zeta. case_ifs; simp_state; rewrite Esy; exact Hsy.
    + unfold line_measure, load_clip, load_dxdy. cbv zeta. case_ifs; simp_state; rewrite Esy; exact Hfuel.
Qed.

Lemma line_commands_return_witness :
  In ((upd (Accel.set_command TGUI_BRESENHAMLINE) one_pixel_fill)#Accel.command)
     line_commands
  /\ -0x8000 <= (upd (Accel.set_command TGUI_BRESENHAMLINE) one_pixel_fill)#Accel.size_y
     < 0x8000
  /\ (Z.to_nat (line_length (upd (Accel.set_command TGUI_BRESENHAMLINE) one_pixel_fill))
      < 4)%nat
  /\ 0 <= line_length (upd (Accel.set_command TGUI_BRESENHAMLINE) one_pixel_fill)
     < 0x10000
  /\ exists s', tgui_accel_command 4 (-1) 0
                  (upd (Accel.set_command TGUI_BRESENHAMLINE) one_pixel_fill)
                = Done s'.
Proof.
  set (s := upd (Accel.set_command TGUI_BRESENHAMLINE) one_pixel_fill).
  assert (H1 : In (s#Accel.command) line_commands) by (left; reflexivity).
  assert (H2 : -0x8000 <= s#Accel.size_y < 0x8000)
    by (split; [apply Z.leb_le | apply Z.ltb_lt]; vm_compute; reflexivity).
  assert (H3 : (Z.to_nat (line_length s) < 4)%nat)
    by (apply Nat.ltb_lt; vm_compute; reflexivity).
  split; [exact H1|]. split; [exact H2|]. split; [exact H3|].
  apply (line_commands_return 4 s H1 H2 H3).
Defined.

(** ** The scanline command returns *)

Lemma scanline_progress l s c d s' c' d' :
  scan_inv s -> scanline_body l s c d = Continue s' c' d' ->
  scan_inv s' /\ (scan_measure s' < scan_measure s)%nat.
Proof.
  unfold scanline_body. cbv zeta.
  pose proof (accel_draw_from_display l s) as Ha.
  unfold scan_inv, scan_measure.
  rewrite <- Ha. clear Ha. generalize (draw_from_display l s). intros s1 (Hsx & Hx).
  unfold step_x, advance_x. simp_state.
  rewrite (s16_small (s1#Accel.x + 1)) by lia.
  destruct (Z.gtb_spec (s1#Accel.x + 1) (s1#Accel.size_x)) as [|Hle];
    [discriminate|].
  intros E. injection E as <- _ _. simp_state.
  rewrite (s16_small (s1#Accel.x + 1)) by lia.
  split; [lia|]. apply Z2Nat.inj_lt; lia.
Qed.

Lemma scanline_start_frame (s : tgui_t) :
  (load_pointers (entry_state (-1) 0 s))#Accel.size_x = s#Accel.size_x
  /\ (load_pointers (entry_state (-1) 0 s))#Accel.x = 0.
Proof.
  rewrite entry_state_eq, entry_skip_start. cbn [fst].
  change (-1 =? -1) with true. cbv iota.
  unfold load_pointers, entry_regs, build_pattern.
  simp_state. case_ifs; split; reflexivity.
Qed.

(** X19. The scanline command returns at the end of its row: with a
    width below 32767 it draws the pixels 0 to [size_x] (one pixel for a
    negative width) and returns, given fuel for each of them. *)
Theorem scanline_returns (fuel : nat) (s : tgui_t) :
  s#Accel.command = TGUI_SCANLINE ->
  s#Accel.size_x < 0x7fff ->
  (Z.to_nat (Z.max 0 (s#Accel.size_x)) < fuel)%nat ->
  exists s', tgui_accel_command fuel (-1) 0 s = Done s'.
Proof.
  intros Hcmd Hsx Hfuel.
  destruct (scanline_start_frame s) as (Esx & Ex).
  unfold tgui_accel_command.
  rewrite entry_decompose, entry_skip_start. cbn [fst snd].
  rewrite entry_state_command, Hcmd.
  change (TGUI_SCANLINE =? TGUI_BITBLT) with false.
  change (TGUI_SCANLINE =? TGUI_SCANLINE) with true.
  change (-1 =? -1) with true. cbv iota zeta.
  revert Esx Ex. generalize (load_pointers (entry_state (-1) 0 s)).
  generalize (entry_locals s). intros l s1 Esx Ex.
  eapply (while_count_dec_terminates scan_inv scan_measure);
    [apply scanline_progress| |].
  - unfold scan_inv. rewrite Esx, Ex. lia.
  - unfold scan_measure. rewrite Esx, Ex, Z.sub_0_r. exact Hfuel.
Qed.

Lemma scanline_returns_witness :
  (upd (Accel.set_command TGUI_SCANLINE) one_pixel_fill)#Accel.command = TGUI_SCANLINE
  /\ (upd (Accel.set_command TGUI_SCANLINE) one_pixel_fill)#Accel.size_x < 0x7fff
  /\ (Z.to_nat (Z.max 0 ((upd (Accel.set_command TGUI_SCANLINE) one_pixel_fill)#Accel.size_x))
      < 4)%nat
  /\ exists s', tgui_accel_command 4 (-1) 0
                  (upd (Accel.set_command TGUI_SCANLINE) one_pixel_fill)
                = Done s'.
Proof.
  set (s := upd (Accel.set_command TGUI_SCANLINE) one_pixel_fill).
  assert (H1 : s#Accel.command = TGUI_SCANLINE) by reflexivity.
  assert (H2 : s#Accel.size_x < 0x7fff) by (apply Z.ltb_lt; vm_compute; reflexivity).
  assert (H3 : (Z.to_nat (Z.max 0 (s#Accel.size_x)) < 4)%nat)
    by (apply Nat.ltb_lt; vm_compute; reflexivity).
  split; [exact H1|]. split; [exact H2|]. split; [exact H3|].
  apply (scanline_returns 4 s H1 H2 H3).
Defined.
